(** * PyNWB: a shallow embedding of [pynwb/__init__.py] and [pynwb/ecephys.py]

    The Python code is embedded as functions in a small state-and-exception
    monad.  The state holds the store of [TypeMap] objects (so that aliasing
    between the process-wide default type map and the maps handed to or
    returned from [get_type_map] is visible) and the log of emitted warnings.
    The parts of the program that live in the [hdmf] package or in modules of
    PyNWB other than the two above are taken as an interface.  The
    constructors of [ecephys.py] are declared under [hdmf]'s docval: each is
    embedded as its body, and in [Decorated] as the body behind the argument
    check that docval runs first. *)

From stdpp Require Import base option list gmap strings pretty.

Open Scope string_scope.
Open Scope list_scope.

Set Warnings "-register-all".

(** ** Python runtime: exceptions, warnings, strings *)

Module Py.

Inductive exn : Type :=
| ValueError (msg : string)
| TypeError (msg : string)
| Exception (msg : string)
| NameError (name : string)
| KeyError (key : string)
| OSError (msg : string)
| UnknownTypeError (type_name : string).

Inductive outcome (A : Type) : Type :=
| Return (a : A)
| Raise (e : exn).
Global Arguments Return {A} a.
Global Arguments Raise {A} e.

Inductive category : Type := UserWarning | DeprecationWarning.

Record warning : Type := Warning { w_category : category; w_message : string }.

(** [sub in s] on [str]: [sub] occurs in [s] as a contiguous substring. *)
Fixpoint str_in (sub s : string) : bool :=
  String.prefix sub s ||
  match s with
  | EmptyString => false
  | String _ s' => str_in sub s'
  end.

Definition str_eq (a b : string) : bool := bool_decide (a = b).

End Py.
Export Py.

(** Objects live at locations of the store. *)
Abbreviation loc := positive.

(** ** The interface of [hdmf] used by [pynwb/__init__.py]

    A method that mutates its receiver is a function from the receiver's
    contents (and arguments) to the new contents, together with the exception
    it raised, if any.  The loading of cached namespaces also gives the
    warnings it logs. *)

Inductive h5py_File : Type := H5File (handle : nat).

Record BuildManager : Type := MkBuildManager { bm_type_map : loc }.

Record hdf5io_args : Type := HDF5IOArgs {
  a_path : string;
  a_manager : BuildManager;
  a_mode : string;
  a_file : option h5py_File;
  a_comm : option string;
  a_driver : option string
}.

Class Hdmf : Type := {
  (** contents of an [hdmf.build.TypeMap] object *)
  TypeMap : Type;
  (** [TypeMap.load_namespaces(self, namespace_path)] *)
  TypeMap_load_namespaces : TypeMap → string → TypeMap * option exn;
  (** [TypeMap.merge(self, type_map)] *)
  TypeMap_merge : TypeMap → TypeMap → TypeMap * option exn;
  (** [HDF5IO.load_namespaces(namespace_catalog, path, file=, driver=)] *)
  HDF5IO_load_namespaces :
    TypeMap → string → option h5py_File → option string → TypeMap * option exn;
  (** the warnings that call logs before it returns or raises, as the
      ['No cached namespaces found in ...'] of a file that holds none *)
  HDF5IO_load_namespaces_warnings :
    TypeMap → string → option h5py_File → option string → list warning;
  (** [HDF5IO.__init__(self, path, manager=, mode=, file=, comm=, driver=)] *)
  HDF5IO_init : hdf5io_args → option exn
}.

(** ** The state-and-exception monad *)

Section Monad.
Context `{Hdmf}.

Record world : Type := World {
  heap : gmap loc TypeMap;
  warnlog : list warning
}.

Definition M (A : Type) : Type := world → world * outcome A.

Definition ret {A} (a : A) : M A := λ σ, (σ, Return a).

Definition bind {A B} (m : M A) (k : A → M B) : M B := λ σ,
  match m σ with
  | (σ', Return a) => k a σ'
  | (σ', Raise e) => (σ', Raise e)
  end.

Definition raise {A} (e : exn) : M A := λ σ, (σ, Raise e).

(** [warnings.warn(msg)] and [warnings.warn(msg, category)] *)
Definition warn_cat (c : category) (msg : string) : M unit := λ σ,
  (World (heap σ) (warnlog σ ++ [Warning c msg]), Return tt).

Definition warn (msg : string) : M unit := warn_cat UserWarning msg.

Definition when (b : bool) (m : M unit) : M unit := if b then m else ret tt.

(** [for x in xs: body(x)] *)
Fixpoint for_each {A} (body : A → M unit) (xs : list A) : M unit :=
  match xs with
  | [] => ret tt
  | x :: xs' => bind (body x) (λ _, for_each body xs')
  end.

(** Call a mutating method of the object at [self]. *)
Definition call_method (self : loc)
    (method : TypeMap → TypeMap * option exn) : M unit := λ σ,
  match heap σ !! self with
  | None => (σ, Raise (NameError "unbound object"))
  | Some v =>
      let '(v', r) := method v in
      let σ' := World (<[self := v']> (heap σ)) (warnlog σ) in
      match r with
      | None => (σ', Return tt)
      | Some e => (σ', Raise e)
      end
  end.

(** [copy.deepcopy(obj)]: a new object with the same contents. *)
Definition deepcopy (src : loc) : M loc := λ σ,
  match heap σ !! src with
  | None => (σ, Raise (NameError "unbound object"))
  | Some v =>
      let l := fresh (dom (heap σ)) in
      (World (<[l := v]> (heap σ)) (warnlog σ), Return l)
  end.

End Monad.

Notation "'let*' x ':=' m 'in' k" := (bind m (λ x, k))
  (at level 10, x name, m at level 100, k at level 200,
   format "'[v' 'let*'  x  :=  m  'in'  '/' k ']'").
Notation "m >> k" := (bind m (λ _, k))
  (at level 100, k at level 200, right associativity,
   format "'[v' m  >>  '/' k ']'").

(** ** [pynwb/__init__.py] *)

(** The [extensions] argument: [None], a [str], a [TypeMap] or a [list];
    docval does not look at the elements of a list, so an element can be any
    Python object. *)
Inductive extension_item : Type :=
| ItemStr (namespace_path : string)
| ItemTypeMap (tm : loc)
| ItemOther.

Inductive extensions_arg : Type :=
| ExtNone
| ExtStr (namespace_path : string)
| ExtTypeMap (tm : loc)
| ExtList (exts : list extension_item).

Definition is_None (e : extensions_arg) : bool :=
  match e with ExtNone => true | _ => false end.

Definition isinstance_TypeMap (e : extensions_arg) : option loc :=
  match e with ExtTypeMap l => Some l | _ => None end.

(** The module global [__TYPE_MAP], bound when the module is imported. *)
Definition __TYPE_MAP : loc := 1%positive.

Section Pynwb.
Context `{Hdmf}.

(** [type_map.load_namespaces(path)] on the object at [type_map] *)
Definition tm_load_namespaces (type_map : loc) (path : string) : M unit :=
  call_method type_map (λ v, TypeMap_load_namespaces v path).

(** [type_map.merge(other)] on the object at [type_map] *)
Definition tm_merge (type_map other : loc) : M unit := λ σ,
  match heap σ !! other with
  | None => (σ, Raise (NameError "unbound object"))
  | Some vo => call_method type_map (λ v, TypeMap_merge v vo) σ
  end.

Definition get_type_map (extensions : extensions_arg) : M loc :=
  if is_None extensions then
    deepcopy __TYPE_MAP
  else
    let* type_map :=
      match isinstance_TypeMap extensions with
      | Some l => ret l
      | None => deepcopy __TYPE_MAP
      end in
    match extensions with
    | ExtList exts =>
        for_each (λ ext,
          match ext with
          | ItemStr p => tm_load_namespaces type_map p
          | ItemTypeMap l => tm_merge type_map l
          | ItemOther =>
              raise (ValueError
                "extensions must be a list of paths to namespace specs or a TypeMaps")
          end) exts
    | ExtStr p => tm_load_namespaces type_map p
    | ExtTypeMap l => tm_merge type_map l
    | ExtNone => ret tt
    end >>
    ret type_map.

Definition get_manager (extensions : extensions_arg) : M BuildManager :=
  let* type_map := get_type_map extensions in
  ret (MkBuildManager type_map).

(** The module-level [load_namespaces]: loads into the default map. *)
Definition load_namespaces (namespace_path : string) : M unit :=
  tm_load_namespaces __TYPE_MAP namespace_path.

End Pynwb.

Module NWBHDF5IO.
Section NWBHDF5IO.
Context `{Hdmf}.

Record kwargs : Type := Kwargs {
  path : string;
  mode : string;
  load_namespaces : bool;
  manager : option BuildManager;
  extensions : extensions_arg;
  file : option h5py_File;
  comm : option string;
  driver : option string
}.

(** An open session: the arguments the [HDF5IO] constructor stored. *)
Record t : Type := Session { opened : hdf5io_args }.

(** [super(NWBHDF5IO, self).load_namespaces(tm, path, file=, driver=)] *)
Definition super_load_namespaces (tm : loc) (path : string)
    (file : option h5py_File) (driver : option string) : M unit := λ σ,
  let logged :=
    match heap σ !! tm with
    | Some v => HDF5IO_load_namespaces_warnings v path file driver
    | None => []
    end in
  call_method tm (λ v, HDF5IO_load_namespaces v path file driver)
    (World (heap σ) (warnlog σ ++ logged)).

(** [super(NWBHDF5IO, self).__init__(path, manager=, mode=, ...)] *)
Definition super___init__ (a : hdf5io_args) : M t :=
  match HDF5IO_init a with
  | None => ret (Session a)
  | Some e => raise e
  end.

Definition __init__ (kw : kwargs) : M t :=
  let* manager :=
    if load_namespaces kw then
      when (bool_decide (manager kw ≠ None))
        (warn "loading namespaces from file - ignoring 'manager'") >>
      when (negb (is_None (extensions kw)))
        (warn "loading namespaces from file - ignoring 'extensions' argument") >>
      when (str_in "w" (mode kw) || str_eq (mode kw) "x")
        (raise (ValueError "cannot load namespaces from file when writing to it")) >>
      let* tm := get_type_map ExtNone in
      super_load_namespaces tm (path kw) (file kw) (driver kw) >>
      ret (MkBuildManager tm)
    else
      if bool_decide (manager kw ≠ None) && negb (is_None (extensions kw)) then
        raise (ValueError "'manager' and 'extensions' cannot be specified together")
      else if negb (is_None (extensions kw)) then
        get_manager (extensions kw)
      else
        match manager kw with
        | None => get_manager ExtNone
        | Some m => ret m
        end in
  super___init__
    (HDF5IOArgs (path kw) manager (mode kw) (file kw) (comm kw) (driver kw)).

End NWBHDF5IO.
End NWBHDF5IO.

(** ** [pynwb/ecephys.py]

    Each [__init__] below is the body of the method, run on the arguments
    that docval hands over; the methods as a caller reaches them, with
    docval's check of the declared shapes in front, are in [Decorated]. *)

(** A value passed for an ['array_data'] argument: a list, a tuple, or any
    other object docval admits there (a numpy array, an h5py dataset), which
    the code sees only through what [bool()], [len()] and [str()] do on it. *)
Inductive array_data (A : Type) : Type :=
| PyList (xs : list A)
| PyTuple (xs : list A)
| PyArray (bool_ : outcome bool) (len_ : outcome nat) (str_ : string).
Arguments PyList {A} xs.
Arguments PyTuple {A} xs.
Arguments PyArray {A} bool_ len_ str_.

(** The elements of a built-in sequence. *)
Definition elements {A} (a : array_data A) : list A :=
  match a with
  | PyList xs | PyTuple xs => xs
  | PyArray _ _ _ => []
  end.

(** [bool(x)]: [None] and an empty list or tuple are false. *)
Definition truthy {A} (x : option (array_data A)) : outcome bool :=
  match x with
  | None => Return false
  | Some (PyArray bool_ _ _) => bool_
  | Some a => Return (negb (bool_decide (elements a = [])))
  end.

(** [len(x)] *)
Definition seq_len {A} (a : array_data A) : outcome nat :=
  match a with
  | PyArray _ len_ _ => len_
  | _ => Return (length (elements a))
  end.

(** What [ecephys.py] uses of [pynwb.base], [pynwb.core], [pynwb.device] and
    [hdmf]: the values passed as data are seen through [isinstance], [len]
    and [get_data_shape] only. *)
Class Base : Type := {
  (** a value of docval type ['array_data'], ['data'] or [TimeSeries] *)
  Data : Type;
  isinstance_TimeSeries : Data → bool;
  isinstance_DataChunkIterator : Data → bool;
  (** [len(x)]; a [TypeError] for an object without a length *)
  len : Data → outcome nat;
  (** [hdmf.utils.get_data_shape(data, strict_no_data_load=b)]; a dimension of
      unknown size is [None] *)
  get_data_shape : Data → bool → option (list (option nat));
  (** the keyword arguments that are handed on unread *)
  Rest : Type;
  (** [TimeSeries.__init__(self, name, data, unit, timestamps=, **rest)] *)
  TimeSeries_init : string → Data → string → option Data → Rest → option exn;
  (** [NWBContainer.__init__(self, name)] *)
  NWBContainer_init : string → option exn;
  (** [NWBDataInterface.__init__(self, name)] *)
  NWBDataInterface_init : string → option exn;
  Device : Type;
  (** an element of a position, and [str()] of an element and of a sequence *)
  Coord : Type;
  str_coord : Coord → string;
  str_seq : array_data Coord → string
}.

(** [fmt % arg] where [fmt] is [prefix] followed by a single ["%s"]: a tuple
    on the right is the tuple of the values to format, anything else is the
    one value. *)
Definition str_mod `{Base} (prefix : string) (arg : array_data Coord) : outcome string :=
  match arg with
  | PyTuple [] => Raise (TypeError "not enough arguments for format string")
  | PyTuple [x] => Return (prefix +:+ str_coord x)
  | PyTuple (_ :: _ :: _) =>
      Raise (TypeError "not all arguments converted during string formatting")
  | PyList _ => Return (prefix +:+ str_seq arg)
  | PyArray _ _ str_ => Return (prefix +:+ str_)
  end.

(** A [DynamicTableRegion]: its [data] is the list of selected rows. *)
Record DynamicTableRegion : Type := MkRegion { region_data : list nat }.

Module ElectrodeGroup.
Section ElectrodeGroup.
Context `{Hdmf} `{Base}.

Record kwargs : Type := Kwargs {
  name : string;
  description : string;
  location : string;
  device : Device;
  position : option (array_data Coord)
}.

Record t : Type := Object {
  o_name : string;
  o_description : string;
  o_location : string;
  o_device : Device;
  o_position : option (array_data Coord)
}.

Definition super___init__ (name : string) : M unit :=
  match NWBContainer_init name with
  | None => ret tt
  | Some e => raise e
  end.

(** [position and len(position) != 3]: [bool(position)] comes first and
    [len] is reached for a truthy position only, never for [None]. *)
Definition __init__ (kw : kwargs) : M t :=
  super___init__ (name kw) >>
  match truthy (position kw), position kw with
  | Raise e, _ => raise e
  | Return true, Some p =>
      match seq_len p with
      | Raise e => raise e
      | Return n =>
          if bool_decide (n ≠ 3) then
            match str_mod
                    "ElectrodeGroup position argument must have three elements: x, y, z, but received: "
                    p with
            | Return msg => raise (Exception msg)
            | Raise e => raise e
            end
          else ret tt
      end
  | _, _ => ret tt
  end >>
  ret (Object (name kw) (description kw) (location kw) (device kw)
         (position kw)).

End ElectrodeGroup.
End ElectrodeGroup.

Module ElectricalSeries.
Section ElectricalSeries.
Context `{Hdmf} `{Base}.

(** The shapes docval declares for [data] and [channel_conversion]. *)
Definition data_shape : list (list (option nat)) :=
  [[None]; [None; None]; [None; None; None]].
Definition channel_conversion_shape : list (list (option nat)) := [[None]].

Record kwargs : Type := Kwargs {
  name : string;
  data : Data;
  electrodes : DynamicTableRegion;
  channel_conversion : option Data;
  filtering : option string;
  timestamps : option Data;
  rest : Rest
}.

Record t : Type := Object {
  o_name : string;
  o_data : Data;
  o_unit : string;
  o_timestamps : option Data;
  o_rest : Rest;
  o_electrodes : DynamicTableRegion;
  o_channel_conversion : option Data;
  o_filtering : option string
}.

Definition super___init__ (name : string) (data : Data) (unit_ : string)
    (timestamps : option Data) (rest : Rest) : M () :=
  match TimeSeries_init name data unit_ timestamps rest with
  | None => ret tt
  | Some e => raise e
  end.

Definition oriented_incorrectly : string :=
  "The second dimension of data does not match the length of electrodes, but instead the "
  +:+ "first does. Data is oriented incorrectly and should be transposed.".

Definition may_be_transposed : string :=
  "The second dimension of data does not match the length of electrodes. Your data may be "
  +:+ "transposed.".

Definition __init__ (kw : kwargs) : M t :=
  let data_shape := get_data_shape (data kw) true in
  match data_shape with
  | Some [d0; d1] =>
      if negb (bool_decide (d1 = Some (length (region_data (electrodes kw)))))
      then
        if bool_decide (d0 = Some (length (region_data (electrodes kw)))) then
          warn oriented_incorrectly
        else
          warn may_be_transposed
      else ret tt
  | _ => ret tt
  end >>
  super___init__ (name kw) (data kw) "volts" (timestamps kw) (rest kw) >>
  ret (Object (name kw) (data kw) "volts" (timestamps kw) (rest kw)
         (electrodes kw) (channel_conversion kw) (filtering kw)).

End ElectricalSeries.
End ElectricalSeries.

Module SpikeEventSeries.
Section SpikeEventSeries.
Context `{Hdmf} `{Base}.

Record kwargs : Type := Kwargs {
  name : string;
  data : Data;
  timestamps : Data;
  electrodes : DynamicTableRegion;
  rest : Rest
}.

(** The body of [__init__], over the constructor that
    [super(SpikeEventSeries, self).__init__] stands for. *)
Definition body (super___init__ : ElectricalSeries.kwargs → M ElectricalSeries.t)
    (kw : kwargs) : M ElectricalSeries.t :=
  (if negb (isinstance_TimeSeries (data kw) ||
            isinstance_TimeSeries (timestamps kw)) then
     if negb (isinstance_DataChunkIterator (data kw) ||
              isinstance_DataChunkIterator (timestamps kw)) then
       match len (data kw) with
       | Raise e => raise e
       | Return n =>
           match len (timestamps kw) with
           | Raise e => raise e
           | Return m =>
               if bool_decide (n ≠ m) then
                 raise (Exception
                   "Must provide the same number of timestamps and spike events")
               else ret tt
           end
       end
     else ret tt
   else ret tt) >>
  super___init__
    (ElectricalSeries.Kwargs (name kw) (data kw) (electrodes kw) None None
       (Some (timestamps kw)) (rest kw)).

Definition __init__ : kwargs → M ElectricalSeries.t :=
  body ElectricalSeries.__init__.

End SpikeEventSeries.
End SpikeEventSeries.

(** ** Shapes and their alternatives *)

(** Modelled from the spec: the shape constraint that [hdmf] checks, in
    docval for an argument declared with a ['shape'] and in the validator for
    a dataset ([hdmf.utils] and [hdmf.validate] are not under src/).  A
    declaration lists alternatives; a shape matches an alternative when both
    have the same number of dimensions and each dimension of the alternative
    is either the size found or a [None] placeholder.  A dimension whose size
    is not known (a [None] in a [maxshape]) matches a placeholder only. *)
Definition dim_okay (a b : option nat) : bool :=
  match b with
  | None => true
  | Some n => bool_decide (a = Some n)
  end.

Fixpoint shape_okay (valshape argshape : list (option nat)) : bool :=
  match valshape, argshape with
  | [], [] => true
  | a :: valshape', b :: argshape' => dim_okay a b && shape_okay valshape' argshape'
  | _, _ => false
  end.

Definition shape_okay_multi (valshape : list (option nat))
    (argshape : list (list (option nat))) : bool :=
  existsb (shape_okay valshape) argshape.

(** ** The Validator *)

Module Validator.

(** Modelled from the spec: the Validator component, the part of the Schema
    Catalog it uses and the part of the data model it reads ([hdmf.validate]
    and [hdmf.spec] are not under src/).  A TypeSpec has a type name, an
    optional parent (a single-inheritance chain), attribute specs, child
    specs and, for a dataset-like spec, shape alternatives; the shape
    constraint of a type is the one it declares or, when it declares none,
    the one it inherits.  A Builder is a group (attributes and named
    children) or a dataset (attributes and a shape).  [resolve] fails with
    [UnknownTypeError] for a type that is absent from the namespace.
    Validation walks the tree in one pass: at each builder it resolves the
    type and, for that type and its ancestors, a required attribute or child
    that is missing is a [MissingError], a child whose type is not the
    declared type or a subtype of it is a [TypeMismatchError], a shape that
    matches no alternative is a [ShapeError]; every error is collected. *)
Record AttributeSpec : Type := MkAttributeSpec {
  attr_name : string;
  attr_dtype : string;
  attr_required : bool
}.

Record ChildSpec : Type := MkChildSpec {
  child_name : string;
  child_type : string;
  child_required : bool
}.

Inductive TypeSpec : Type := MkTypeSpec {
  type_name : string;
  parent : option TypeSpec;
  attributes : list AttributeSpec;
  children : list ChildSpec;
  shape : option (list (list (option nat)))
}.

Inductive Builder : Type :=
| GroupBuilder (data_type : string) (attrs : list (string * string))
    (subs : list (string * Builder))
| DatasetBuilder (data_type : string) (attrs : list (string * string))
    (dims : list nat).

Inductive ValidationError : Type :=
| MissingError (path : list string) (field : string)
| TypeMismatchError (path : list string) (child expected found : string)
| ShapeError (path : list string) (expected : list (list (option nat)))
    (found : list nat).

Definition builder_type (b : Builder) : string :=
  match b with GroupBuilder t _ _ | DatasetBuilder t _ _ => t end.

Definition builder_attrs (b : Builder) : list (string * string) :=
  match b with GroupBuilder _ a _ | DatasetBuilder _ a _ => a end.

Definition builder_subs (b : Builder) : list (string * Builder) :=
  match b with GroupBuilder _ _ cs => cs | DatasetBuilder _ _ _ => [] end.

Definition builder_dims (b : Builder) : option (list nat) :=
  match b with GroupBuilder _ _ _ => None | DatasetBuilder _ _ d => Some d end.

(** The first entry under a name in an ordered mapping. *)
Fixpoint assoc {V} (n : string) (m : list (string * V)) : option V :=
  match m with
  | [] => None
  | (k, v) :: m' => if bool_decide (k = n) then Some v else assoc n m'
  end.

(** A spec followed by its ancestors. *)
Fixpoint chain (s : TypeSpec) : list TypeSpec :=
  s :: match parent s with
       | Some p => chain p
       | None => []
       end.

(** [resolve(namespace, typeName)] *)
Definition resolve (ns : gmap string TypeSpec) (t : string) : outcome TypeSpec :=
  match ns !! t with
  | Some s => Return s
  | None => Raise (UnknownTypeError t)
  end.

(** [isSubtype] by walking the parent chain of the candidate. *)
Definition is_subtype (ns : gmap string TypeSpec) (candidate ancestor : string)
    : bool :=
  match ns !! candidate with
  | Some s => bool_decide (ancestor ∈ type_name <$> chain s)
  | None => false
  end.

Definition declared_attributes (s : TypeSpec) : list AttributeSpec :=
  s' ← chain s; attributes s'.

Definition declared_children (s : TypeSpec) : list ChildSpec :=
  s' ← chain s; children s'.

(** The shape constraint nearest in the chain. *)
Definition declared_shape (s : TypeSpec) : option (list (list (option nat))) :=
  head (omap shape (chain s)).

Definition attribute_missing (b : Builder) (a : AttributeSpec) : bool :=
  attr_required a && bool_decide (assoc (attr_name a) (builder_attrs b) = None).

Definition child_missing (b : Builder) (c : ChildSpec) : bool :=
  child_required c && bool_decide (assoc (child_name c) (builder_subs b) = None).

Definition child_mismatch (ns : gmap string TypeSpec) (b : Builder)
    (c : ChildSpec) : option string :=
  match assoc (child_name c) (builder_subs b) with
  | Some sub =>
      if is_subtype ns (builder_type sub) (child_type c) then None
      else Some (builder_type sub)
  | None => None
  end.

Definition shape_violated (b : Builder) (alts : list (list (option nat)))
    : option (list nat) :=
  match builder_dims b with
  | Some dims =>
      if shape_okay_multi (Some <$> dims) alts then None else Some dims
  | None => None
  end.

(** The errors found at one builder, whose type resolved to [s]. *)
Definition check_builder (ns : gmap string TypeSpec) (path : list string)
    (s : TypeSpec) (b : Builder) : list ValidationError :=
  ((λ a, MissingError path (attr_name a)) <$>
     filter (λ a, attribute_missing b a = true) (declared_attributes s)) ++
  ((λ c, MissingError path (child_name c)) <$>
     filter (λ c, child_missing b c = true) (declared_children s)) ++
  omap (λ c, TypeMismatchError path (child_name c) (child_type c) <$>
               child_mismatch ns b c) (declared_children s) ++
  option_list (alts ← declared_shape s;
               ShapeError path alts <$> shape_violated b alts).

(** The errors found in the tree under [b], which sits at [path]; a type
    that does not resolve ends the pass. *)
Fixpoint validate_at (ns : gmap string TypeSpec) (path : list string)
    (b : Builder) : outcome (list ValidationError) :=
  match resolve ns (builder_type b) with
  | Raise e => Raise e
  | Return s =>
      match
        match b with
        | GroupBuilder _ _ subs =>
            (fix walk (subs : list (string * Builder))
               : outcome (list ValidationError) :=
               match subs with
               | [] => Return []
               | (n, sub) :: subs' =>
                   match validate_at ns (path ++ [n]) sub with
                   | Raise e => Raise e
                   | Return errors =>
                       match walk subs' with
                       | Raise e => Raise e
                       | Return rest => Return (errors ++ rest)
                       end
                   end
               end) subs
        | DatasetBuilder _ _ _ => Return []
        end
      with
      | Raise e => Raise e
      | Return below => Return (check_builder ns path s b ++ below)
      end
  end.

(** The errors found under the children [subs] of the builder at [path]. *)
Fixpoint validate_subs (ns : gmap string TypeSpec) (path : list string)
    (subs : list (string * Builder)) : outcome (list ValidationError) :=
  match subs with
  | [] => Return []
  | (n, sub) :: subs' =>
      match validate_at ns (path ++ [n]) sub with
      | Raise e => Raise e
      | Return errors =>
          match validate_subs ns path subs' with
          | Raise e => Raise e
          | Return rest => Return (errors ++ rest)
          end
      end
  end.

(** [ValidatorMap(namespace).validate(builder)] *)
Definition validate (ns : gmap string TypeSpec) (b : Builder)
    : outcome (list ValidationError) :=
  validate_at ns [] b.

End Validator.

(** [validate] of [pynwb/__init__.py].  An [HDMFIO] object is seen through
    [read_builder()] and the namespaces of its manager's catalog. *)
Record HDMFIO : Type := MkHDMFIO {
  read_builder : outcome Validator.Builder;
  namespace_catalog : gmap string (gmap string Validator.TypeSpec)
}.

Definition CORE_NAMESPACE : string := "core".

Definition get_namespace (catalog : gmap string (gmap string Validator.TypeSpec))
    (name : string) : outcome (gmap string Validator.TypeSpec) :=
  match catalog !! name with
  | Some ns => Return ns
  | None => Raise (KeyError name)
  end.

Definition validate (io : HDMFIO) (namespace : string)
    : outcome (list Validator.ValidationError) :=
  match read_builder io with
  | Raise e => Raise e
  | Return builder =>
      match get_namespace (namespace_catalog io) namespace with
      | Raise e => Raise e
      | Return ns => Validator.validate ns builder
      end
  end.

(** ** What a derived type map holds

    [incorporate h base items] is the contents of a type map that starts as
    [base] and takes in [items] from left to right, each [TypeMap] item read
    from the store [h], together with the exception that stopped it, if any. *)

Definition items_of (e : extensions_arg) : list extension_item :=
  match e with
  | ExtNone => []
  | ExtStr p => [ItemStr p]
  | ExtTypeMap l => [ItemTypeMap l]
  | ExtList exts => exts
  end.

Definition item_bound {V} (h : gmap loc V) (i : extension_item) : Prop :=
  match i with
  | ItemTypeMap l => is_Some (h !! l)
  | _ => True
  end.

Section Incorporate.
Context `{Hdmf}.

Definition absorb (h : gmap loc TypeMap) (acc : TypeMap)
    (item : extension_item) : TypeMap * option exn :=
  match item with
  | ItemStr p => TypeMap_load_namespaces acc p
  | ItemTypeMap l =>
      match h !! l with
      | Some v => TypeMap_merge acc v
      | None => (acc, Some (NameError "unbound object"))
      end
  | ItemOther =>
      (acc, Some (ValueError
         "extensions must be a list of paths to namespace specs or a TypeMaps"))
  end.

Fixpoint incorporate (h : gmap loc TypeMap) (acc : TypeMap)
    (items : list extension_item) : TypeMap * option exn :=
  match items with
  | [] => (acc, None)
  | i :: items' =>
      match absorb h acc i with
      | (acc', None) => incorporate h acc' items'
      | (acc', Some e) => (acc', Some e)
      end
  end.

(** The outcome of a call that returns [a] unless [e] was raised. *)
Definition outcome_of {A} (a : A) (e : option exn) : outcome A :=
  match e with
  | None => Return a
  | Some e => Raise e
  end.

(** The map the derivation starts from: the extension itself when it is a
    [TypeMap], the default map otherwise. *)
Definition base_of (e : extensions_arg) : loc :=
  match e with
  | ExtTypeMap l => l
  | _ => __TYPE_MAP
  end.

(** The object [get_type_map] works on and returns: the extension itself
    when it is a [TypeMap], a new object otherwise. *)
Definition working_map (ext : extensions_arg) (σ : world) : loc :=
  match ext with
  | ExtTypeMap l0 => l0
  | _ => fresh (dom (heap σ))
  end.

(** The body of the loop of [get_type_map] over a list of extensions,
    named so that lemmas can be stated about it. *)
Definition take_in (type_map : loc) (ext : extension_item) : M unit :=
  match ext with
  | ItemStr p => tm_load_namespaces type_map p
  | ItemTypeMap l => tm_merge type_map l
  | ItemOther =>
      raise (ValueError
        "extensions must be a list of paths to namespace specs or a TypeMaps")
  end.

End Incorporate.

(** ** Instances to run the embedding on concrete inputs *)

(** A type map is the list of the namespaces it holds. *)
Definition list_hdmf : Hdmf := {|
  TypeMap := list string;
  TypeMap_load_namespaces v p := (v ++ [p], None);
  TypeMap_merge v w := (v ++ w, None);
  HDF5IO_load_namespaces v p _ _ :=
    if bool_decide (p = "bare.nwb") then (v, None)
    else (v ++ ["cached:" +:+ p], None);
  HDF5IO_load_namespaces_warnings v p _ _ :=
    if bool_decide (p = "bare.nwb")
    then [Warning UserWarning ("No cached namespaces found in " +:+ p)]
    else [];
  HDF5IO_init _ := None
|}.

Definition world0 : @world list_hdmf :=
  @World list_hdmf {[ __TYPE_MAP := ["core"] ]} [].

(** A data value is an array of a given shape, a [DataChunkIterator] of a
    given [maxshape], or a [TimeSeries]. *)
Inductive shaped : Type :=
| Arr (shape : list nat)
| Dci (maxshape : list (option nat))
| Ts (name : string).

Definition shaped_base : Base := {|
  Data := shaped;
  isinstance_TimeSeries d := match d with Ts _ => true | _ => false end;
  isinstance_DataChunkIterator d := match d with Dci _ => true | _ => false end;
  len d :=
    match d with
    | Arr (n :: _) => Return n
    | _ => Raise (TypeError "object has no len()")
    end;
  get_data_shape d _ :=
    match d with
    | Arr shape => Some (Some <$> shape)
    | Dci maxshape => Some maxshape
    | Ts _ => None
    end;
  Rest := ();
  TimeSeries_init _ _ _ _ _ := None;
  NWBContainer_init _ := None;
  NWBDataInterface_init _ := None;
  Device := string;
  Coord := nat;
  str_coord n := pretty n;
  str_seq a := "[" +:+ String.concat ", " (pretty <$> elements a) +:+ "]"
|}.

(** A schema with a series type (two required attributes, one required
    dataset) over a one-dimensional data type, and a tree that lacks both
    attributes and stores the dataset with two dimensions. *)
Definition example_data_spec : Validator.TypeSpec :=
  Validator.MkTypeSpec "VectorData" None [] [] (Some [[None]]).

Definition example_series_spec : Validator.TypeSpec :=
  Validator.MkTypeSpec "Series" None
    [Validator.MkAttributeSpec "description" "text" true;
     Validator.MkAttributeSpec "unit" "text" true;
     Validator.MkAttributeSpec "comments" "text" false]
    [Validator.MkChildSpec "data" "VectorData" true]
    None.

Definition example_namespace : gmap string Validator.TypeSpec :=
  {[ "VectorData" := example_data_spec; "Series" := example_series_spec ]}.

Definition example_builder : Validator.Builder :=
  Validator.GroupBuilder "Series" [("comments", "none")]
    [("data", Validator.DatasetBuilder "VectorData" [] [2; 3])].

Definition example_io : HDMFIO :=
  MkHDMFIO (Return example_builder) {[ CORE_NAMESPACE := example_namespace ]}.

(** The arguments [NWBHDF5IO.__init__] hands to the [HDF5IO] constructor
    once it has settled on the manager [m]. *)
Definition session_args (kw : NWBHDF5IO.kwargs) (m : BuildManager) : hdf5io_args :=
  HDF5IOArgs (NWBHDF5IO.path kw) m (NWBHDF5IO.mode kw) (NWBHDF5IO.file kw)
    (NWBHDF5IO.comm kw) (NWBHDF5IO.driver kw).

(** The store after [get_type_map()] has copied the default map [dflt]. *)
Definition with_copy `{Hdmf} (σ : world) (dflt : TypeMap) : world :=
  World (<[fresh (dom (heap σ)) := dflt]> (heap σ)) (warnlog σ).

(** ** What a complete validation reports

    [violation ns path b e]: the tree under [b] (at [path]) breaks a rule of
    the schema [ns], and [e] is the error for it. *)

Module ValidatorSpec.
Import Validator.

Inductive violation (ns : gmap string TypeSpec)
    : list string → Builder → ValidationError → Prop :=
| missing_attribute path b s s' a :
    ns !! builder_type b = Some s → s' ∈ chain s → a ∈ attributes s' →
    attr_required a = true →
    assoc (attr_name a) (builder_attrs b) = None →
    violation ns path b (MissingError path (attr_name a))
| missing_child path b s s' c :
    ns !! builder_type b = Some s → s' ∈ chain s → c ∈ children s' →
    child_required c = true →
    assoc (child_name c) (builder_subs b) = None →
    violation ns path b (MissingError path (child_name c))
| mismatched_child path b s s' c sub :
    ns !! builder_type b = Some s → s' ∈ chain s → c ∈ children s' →
    assoc (child_name c) (builder_subs b) = Some sub →
    (∀ found, ns !! builder_type sub = Some found →
       child_type c ∉ type_name <$> chain found) →
    violation ns path b
      (TypeMismatchError path (child_name c) (child_type c) (builder_type sub))
| violated_shape path b s alts dims :
    ns !! builder_type b = Some s → declared_shape s = Some alts →
    builder_dims b = Some dims →
    Forall (λ alt, shape_okay (Some <$> dims) alt = false) alts →
    violation ns path b (ShapeError path alts dims)
| violation_below path b n sub e :
    (n, sub) ∈ builder_subs b →
    violation ns (path ++ [n]) sub e →
    violation ns path b e.

(** The types of the builders of a tree. *)
Fixpoint types_of (b : Builder) : list string :=
  builder_type b ::
  match b with
  | GroupBuilder _ _ subs =>
      (fix walk (subs : list (string * Builder)) : list string :=
         match subs with
         | [] => []
         | (_, sub) :: subs' => types_of sub ++ walk subs'
         end) subs
  | DatasetBuilder _ _ _ => []
  end.

(** Every builder of the tree has a type of the namespace. *)
Definition well_typed (ns : gmap string TypeSpec) (b : Builder) : Prop :=
  Forall (λ t, is_Some (ns !! t)) (types_of b).

(** The invariant of a TypeSpec: no name is declared twice among the
    attributes and children of a type and its ancestors. *)
Definition no_collisions (ns : gmap string TypeSpec) : Prop :=
  ∀ t s, ns !! t = Some s →
    NoDup ((attr_name <$> declared_attributes s) ++
           (child_name <$> declared_children s)).

(** The invariant of a GroupBuilder: it is a mapping, no two children of a
    group go by the same name. *)
Inductive unique_names : Builder → Prop :=
| unique_names_dataset t a d : unique_names (DatasetBuilder t a d)
| unique_names_group t a subs :
    NoDup subs.*1 → Forall (λ p, unique_names p.2) subs →
    unique_names (GroupBuilder t a subs).

(** Where in the tree an error was found. *)
Definition error_path (e : ValidationError) : list string :=
  match e with
  | MissingError path _ | TypeMismatchError path _ _ _ | ShapeError path _ _ =>
      path
  end.

End ValidatorSpec.

(** ** [pynwb/__init__.py]: registering classes and mappers *)

(** What [register_class], [register_map] and [get_class] use of a
    [TypeMap], with a Python class as an opaque value. *)
Class Registry `{Hdmf} : Type := {
  PyClass : Type;
  (** [TypeMap.register_container_type(self, namespace, data_type, cls)] *)
  TypeMap_register_container_type :
    TypeMap → string → string → PyClass → TypeMap * option exn;
  (** [TypeMap.register_map(self, container_cls, mapper_cls)] *)
  TypeMap_register_map : TypeMap → PyClass → PyClass → TypeMap * option exn;
  (** [TypeMap.get_dt_container_cls(self, data_type, namespace)]: may
      generate the class and record it in the map *)
  TypeMap_get_dt_container_cls :
    TypeMap → string → string → TypeMap * outcome PyClass
}.

Section PynwbRegistry.
Context `{Hdmf} `{!Registry}.

(** With [container_cls=None] the decorator [_dec] is returned, otherwise it
    is called on [container_cls] and nothing is returned. *)
Definition register_class (neurodata_type namespace : string)
    (container_cls : option PyClass) : M (option (PyClass → M PyClass)) :=
  let _dec := λ cls : PyClass,
    call_method __TYPE_MAP
      (λ v, TypeMap_register_container_type v namespace neurodata_type cls) >>
    ret cls in
  match container_cls with
  | None => ret (Some _dec)
  | Some c => _dec c >> ret None
  end.

Definition register_map (container_cls : PyClass) (mapper_cls : option PyClass)
    : M (option (PyClass → M PyClass)) :=
  let _dec := λ cls : PyClass,
    call_method __TYPE_MAP (λ v, TypeMap_register_map v container_cls cls) >>
    ret cls in
  match mapper_cls with
  | None => ret (Some _dec)
  | Some c => _dec c >> ret None
  end.

Definition get_class (neurodata_type namespace : string) : M PyClass := λ σ,
  match heap σ !! __TYPE_MAP with
  | None => (σ, Raise (NameError "unbound object"))
  | Some v =>
      let '(v', r) := TypeMap_get_dt_container_cls v neurodata_type namespace in
      (World (<[__TYPE_MAP := v']> (heap σ)) (warnlog σ), r)
  end.

End PynwbRegistry.

(** ** [pynwb/ecephys.py]: [FeatureExtraction] *)

(** The result of [hdmf.data_utils.assertEqualShape]. *)
Record ShapeValidatorResult : Type := MkShapeValidatorResult {
  sv_result : bool;
  sv_message : string
}.

(** An argument of [assertEqualShape] in [FeatureExtraction]: a data value or
    the electrodes region. *)
Inductive shape_arg `{Base} : Type :=
| ArgData (d : Data)
| ArgRegion (r : DynamicTableRegion).

Class DataUtils `{Base} : Type := {
  (** [assertEqualShape(data1, data2, axes1, axes2, name1, name2,
      ignore_undetermined)] *)
  assertEqualShape :
    shape_arg → shape_arg → nat → nat → string → string → bool →
    ShapeValidatorResult;
  (** [list(x)] *)
  py_list : Data → outcome (list Coord)
}.

(** The line break ["\n"]. *)
Definition newline : string :=
  String (Ascii.Ascii false true false true false false false false) EmptyString.

Module FeatureExtraction.
Section FeatureExtraction.
Context `{Hdmf} `{Base} `{!DataUtils}.

Record kwargs : Type := Kwargs {
  electrodes : DynamicTableRegion;
  description : Data;
  times : Data;
  features : Data;
  name : string
}.

Record t : Type := Object {
  o_name : string;
  o_electrodes : DynamicTableRegion;
  o_description : Data;
  o_times : list Coord;
  o_features : Data
}.

Definition super___init__ (name : string) : M unit :=
  match NWBDataInterface_init name with
  | None => ret tt
  | Some e => raise e
  end.

(** The three shape checks, in the order they are appended. *)
Definition shape_validators (kw : kwargs) : list ShapeValidatorResult :=
  [assertEqualShape (ArgData (features kw)) (ArgData (times kw)) 0 0
     "feature_shape" "times" true;
   assertEqualShape (ArgData (features kw)) (ArgRegion (electrodes kw)) 1 0
     "feature_shape" "electrodes" true;
   assertEqualShape (ArgData (features kw)) (ArgData (description kw)) 2 0
     "feature_shape" "description" true].

(** One turn of the loop over the validators, on [(raise_error, error_msg)]. *)
Definition loop_body (acc : bool * string) (sv : ShapeValidatorResult)
    : bool * string :=
  let '(raise_error, error_msg) := acc in
  let raise_error := raise_error || negb (sv_result sv) in
  let error_msg :=
    if negb (sv_result sv) then error_msg +:+ (sv_message sv +:+ newline)
    else error_msg in
  (raise_error, error_msg).

Definition __init__ (kw : kwargs) : M t :=
  let '(raise_error, error_msg) :=
    fold_left loop_body (shape_validators kw) (false, "") in
  when raise_error (raise (ValueError error_msg)) >>
  super___init__ (name kw) >>
  match py_list (times kw) with
  | Raise e => raise e
  | Return ts =>
      ret (Object (name kw) (electrodes kw) (description kw) ts (features kw))
  end.

End FeatureExtraction.
End FeatureExtraction.

(** ** [pynwb/ecephys.py]: [Clustering] *)

Module Clustering.
Section Clustering.
Context `{Hdmf} `{Base} `{!DataUtils}.

(** The shapes docval declares for [num], [peak_over_rms] and [times]. *)
Definition num_shape : list (list (option nat)) := [[None]].
Definition peak_over_rms_shape : list (list (option nat)) := [[None]].
Definition times_shape : list (list (option nat)) := [[None]].

Record kwargs : Type := Kwargs {
  description : string;
  num : Data;
  peak_over_rms : Data;
  times : Data;
  name : string
}.

Record t : Type := Object {
  o_name : string;
  o_description : string;
  o_num : Data;
  o_peak_over_rms : list Coord;
  o_times : Data
}.

Definition super___init__ (name : string) : M unit :=
  match NWBDataInterface_init name with
  | None => ret tt
  | Some e => raise e
  end.

Definition __init__ (kw : kwargs) : M t :=
  warn_cat DeprecationWarning "use pynwb.misc.Units or NWBFile.units instead" >>
  super___init__ (name kw) >>
  match py_list (peak_over_rms kw) with
  | Raise e => raise e
  | Return ratios =>
      ret (Object (name kw) (description kw) (num kw) ratios (times kw))
  end.

End Clustering.
End Clustering.

(** ** docval: the decorator the constructors are declared under *)

(** What docval uses of an argument besides [get_data_shape], and what it
    takes from declarations that are in [pynwb/base.py]. *)
Class Docval `{Base} : Type := {
  (** [getattr(argval, argname)], when [hasattr(argval, argname)] *)
  getattr_arg : Data → string → option Data;
  (** objects are finite: an attribute is nested less deeply than its owner *)
  nesting : Data → nat;
  getattr_arg_nesting :
    ∀ v argname v', getattr_arg v argname = Some v' → nesting v' < nesting v;
  (** the texts of the two shape errors *)
  incorrect_shape :
    string → list (option nat) → list (list (option nat)) → string;
  cannot_check_shape : Data → string → list (list (option nat)) → string;
  (** the value errors of the arguments whose declarations are taken over
      from [TimeSeries.__init__]: the timestamps and the arguments handed on *)
  base_value_errors : option Data → Rest → list string
}.

Section DocvalCheck.
Context `{Base} `{!Docval}.

(** Modelled from the spec: the argument check that [hdmf.utils.docval] runs
    before the body of a decorated method ([docval] is not under src/).  For
    an argument declared with a ['shape'], the shape of the value must match
    at least one of the alternatives; a mismatch is an error that names the
    argument, the shape found and the alternatives expected.  A value whose
    shape cannot be read (a [TimeSeries]) is unpacked to its attribute of the
    argument's name; the unpacked value is the one checked and, for an
    argument without default, the one the body receives.  The errors of all
    arguments are raised together, as one [ValueError].

    The loop that unpacks a value until its shape can be read: the value
    reached, its shape, and whether the loop gave up. *)
Fixpoint shape_loop (fuel : nat) (argname : string) (argval : Data)
    : Data * option (list (option nat)) * bool :=
  match get_data_shape argval false with
  | Some valshape => (argval, Some valshape, false)
  | None =>
      match getattr_arg argval argname, fuel with
      | Some inner, S fuel' => shape_loop fuel' argname inner
      | _, _ => (argval, None, true)
      end
  end.

(** The check of one argument: the value for the body and the errors. *)
Definition docval_shape (argname : string) (argshape : list (list (option nat)))
    (argval : Data) : Data * list string :=
  let '(argval', valshape, gave_up) :=
    shape_loop (nesting argval) argname argval in
  (argval',
   (if gave_up then [cannot_check_shape argval' argname argshape] else []) ++
   match valshape with
   | Some valshape =>
       if shape_okay_multi valshape argshape then []
       else [incorrect_shape argname valshape argshape]
   | None => []
   end).

(** The same for an argument with default [None]: checked when given, and
    handed to the body as given. *)
Definition docval_shape_optional (argname : string)
    (argshape : list (list (option nat))) (argval : option Data) : list string :=
  match argval with
  | None => []
  | Some v => (docval_shape argname argshape v).2
  end.

Definition docval_message (qualname : string) (value_errors : list string)
    : string :=
  qualname +:+ ": " +:+ String.concat ", " value_errors.

End DocvalCheck.

(** The body runs when docval has found no error. *)
Definition docval `{Hdmf} {A} (qualname : string) (value_errors : list string)
    (body : M A) : M A :=
  match value_errors with
  | [] => body
  | _ => raise (ValueError (docval_message qualname value_errors))
  end.

(** The constructors of [ecephys.py] as a caller reaches them: docval on the
    arguments, then the body ([__init__] above) on what docval hands over.
    The constructor that the body of [SpikeEventSeries] calls is the
    decorated one of [ElectricalSeries], so docval runs once more there. *)
Module Decorated.
Section Decorated.
Context `{Hdmf} `{Base} `{!DataUtils} `{!Docval}.

Definition ElectricalSeries_args (kw : ElectricalSeries.kwargs)
    : ElectricalSeries.kwargs * list string :=
  let '(data, data_errors) :=
    docval_shape "data" ElectricalSeries.data_shape
      (ElectricalSeries.data kw) in
  (ElectricalSeries.Kwargs (ElectricalSeries.name kw) data
     (ElectricalSeries.electrodes kw) (ElectricalSeries.channel_conversion kw)
     (ElectricalSeries.filtering kw) (ElectricalSeries.timestamps kw)
     (ElectricalSeries.rest kw),
   data_errors ++
   docval_shape_optional "channel_conversion"
     ElectricalSeries.channel_conversion_shape
     (ElectricalSeries.channel_conversion kw) ++
   base_value_errors (ElectricalSeries.timestamps kw) (ElectricalSeries.rest kw)).

Definition ElectricalSeries___init__ (kw : ElectricalSeries.kwargs)
    : M ElectricalSeries.t :=
  let '(args, value_errors) := ElectricalSeries_args kw in
  docval "ElectricalSeries.__init__" value_errors (ElectricalSeries.__init__ args).

Definition SpikeEventSeries_args (kw : SpikeEventSeries.kwargs)
    : SpikeEventSeries.kwargs * list string :=
  let '(data, data_errors) :=
    docval_shape "data" ElectricalSeries.data_shape
      (SpikeEventSeries.data kw) in
  (SpikeEventSeries.Kwargs (SpikeEventSeries.name kw) data
     (SpikeEventSeries.timestamps kw) (SpikeEventSeries.electrodes kw)
     (SpikeEventSeries.rest kw),
   data_errors ++ base_value_errors None (SpikeEventSeries.rest kw)).

Definition SpikeEventSeries___init__ (kw : SpikeEventSeries.kwargs)
    : M ElectricalSeries.t :=
  let '(args, value_errors) := SpikeEventSeries_args kw in
  docval "SpikeEventSeries.__init__" value_errors
    (SpikeEventSeries.body ElectricalSeries___init__ args).

Definition Clustering_args (kw : Clustering.kwargs)
    : Clustering.kwargs * list string :=
  let '(num, num_errors) :=
    docval_shape "num" Clustering.num_shape (Clustering.num kw) in
  let '(peak_over_rms, peak_over_rms_errors) :=
    docval_shape "peak_over_rms" Clustering.peak_over_rms_shape
      (Clustering.peak_over_rms kw) in
  let '(times, times_errors) :=
    docval_shape "times" Clustering.times_shape (Clustering.times kw) in
  (Clustering.Kwargs (Clustering.description kw) num peak_over_rms times
     (Clustering.name kw),
   num_errors ++ peak_over_rms_errors ++ times_errors).

Definition Clustering___init__ (kw : Clustering.kwargs) : M Clustering.t :=
  let '(args, value_errors) := Clustering_args kw in
  docval "Clustering.__init__" value_errors (Clustering.__init__ args).

(** The shapes docval declares for the arguments of [FeatureExtraction]. *)
Definition FeatureExtraction_description_shape : list (list (option nat)) :=
  [[None]].
Definition FeatureExtraction_times_shape : list (list (option nat)) := [[None]].
Definition FeatureExtraction_features_shape : list (list (option nat)) :=
  [[None; None; None]].

Definition FeatureExtraction_args (kw : FeatureExtraction.kwargs)
    : FeatureExtraction.kwargs * list string :=
  let '(description, description_errors) :=
    docval_shape "description" FeatureExtraction_description_shape
      (FeatureExtraction.description kw) in
  let '(times, times_errors) :=
    docval_shape "times" FeatureExtraction_times_shape
      (FeatureExtraction.times kw) in
  let '(features, features_errors) :=
    docval_shape "features" FeatureExtraction_features_shape
      (FeatureExtraction.features kw) in
  (FeatureExtraction.Kwargs (FeatureExtraction.electrodes kw) description times
     features (FeatureExtraction.name kw),
   description_errors ++ times_errors ++ features_errors).

Definition FeatureExtraction___init__ (kw : FeatureExtraction.kwargs)
    : M FeatureExtraction.t :=
  let '(args, value_errors) := FeatureExtraction_args kw in
  docval "FeatureExtraction.__init__" value_errors
    (FeatureExtraction.__init__ args).

End Decorated.
End Decorated.

(** ** Further instances to run the embedding on concrete inputs *)

(** A registration is recorded in the list that stands for the type map. *)
Definition list_registry : @Registry list_hdmf :=
  @Build_Registry list_hdmf string
    (λ (v : list string) namespace data_type cls,
       (v ++ [namespace +:+ "/" +:+ data_type +:+ "=" +:+ cls], None))
    (λ (v : list string) container_cls mapper_cls,
       (v ++ [container_cls +:+ "~" +:+ mapper_cls], None))
    (λ (v : list string) data_type namespace,
       (v, Return (namespace +:+ "/" +:+ data_type))).

(** The size of an argument along an axis, when it is known. *)
Definition shaped_axis (a : @shape_arg shaped_base) (axis : nat) : option nat :=
  match a with
  | ArgData (Arr shape) => shape !! axis
  | ArgData (Dci maxshape) => mjoin (maxshape !! axis)
  | ArgData (Ts _) => None
  | ArgRegion r => if bool_decide (axis = 0) then Some (length (region_data r)) else None
  end.

Definition shaped_data_utils : @DataUtils shaped_base := {|
  assertEqualShape a1 a2 axes1 axes2 name1 name2 ignore_undetermined :=
    match shaped_axis a1 axes1, shaped_axis a2 axes2 with
    | Some n, Some m =>
        if bool_decide (n = m) then MkShapeValidatorResult true ""
        else MkShapeValidatorResult false
               (name1 +:+ " and " +:+ name2 +:+ " do not match")
    | _, _ =>
        if ignore_undetermined then MkShapeValidatorResult true ""
        else MkShapeValidatorResult false
               (name1 +:+ " or " +:+ name2 +:+ " undetermined")
    end;
  py_list d :=
    match d with
    | Arr (n :: _) => Return (replicate n 0)
    | _ => Raise (TypeError "object is not iterable")
    end
|}.

(** The warnings [NWBHDF5IO.__init__] emits with [load_namespaces=True] for
    the arguments it then ignores. *)
Definition ignored_warnings (kw : NWBHDF5IO.kwargs) : list warning :=
  (if bool_decide (NWBHDF5IO.manager kw ≠ None)
   then [Warning UserWarning "loading namespaces from file - ignoring 'manager'"]
   else []) ++
  (if negb (is_None (NWBHDF5IO.extensions kw))
   then [Warning UserWarning
           "loading namespaces from file - ignoring 'extensions' argument"]
   else []).

(** The same request without a manager and without extensions. *)
Definition without_manager_and_extensions (kw : NWBHDF5IO.kwargs)
    : NWBHDF5IO.kwargs :=
  NWBHDF5IO.Kwargs (NWBHDF5IO.path kw) (NWBHDF5IO.mode kw)
    (NWBHDF5IO.load_namespaces kw) None ExtNone (NWBHDF5IO.file kw)
    (NWBHDF5IO.comm kw) (NWBHDF5IO.driver kw).

(** The messages of the checks that failed, each followed by a line break,
    in the order of the checks. *)
Fixpoint failing_messages (svs : list ShapeValidatorResult) : string :=
  match svs with
  | [] => ""
  | sv :: svs' =>
      if sv_result sv then failing_messages svs'
      else sv_message sv +:+ newline +:+ failing_messages svs'
  end.

(** Data whose [TimeSeries] hold their data: an array of a given shape, a
    [DataChunkIterator] of a given [maxshape], or a [TimeSeries] with its
    [data]. *)
Inductive stored : Type :=
| Rows (shape : list nat)
| Chunks (maxshape : list (option nat))
| Series (name : string) (data : stored).

Fixpoint stored_nesting (d : stored) : nat :=
  match d with
  | Series _ data => S (stored_nesting data)
  | _ => 0
  end.

Definition stored_getattr (d : stored) (argname : string) : option stored :=
  match d with
  | Series _ data => if bool_decide (argname = "data") then Some data else None
  | _ => None
  end.

Definition stored_base : Base := {|
  Data := stored;
  isinstance_TimeSeries d := match d with Series _ _ => true | _ => false end;
  isinstance_DataChunkIterator d := match d with Chunks _ => true | _ => false end;
  len d :=
    match d with
    | Rows (n :: _) => Return n
    | _ => Raise (TypeError "object has no len()")
    end;
  get_data_shape d _ :=
    match d with
    | Rows shape => Some (Some <$> shape)
    | Chunks maxshape => Some maxshape
    | Series _ _ => None
    end;
  Rest := ();
  TimeSeries_init _ _ _ _ _ := None;
  NWBContainer_init _ := None;
  NWBDataInterface_init _ := None;
  Device := string;
  Coord := nat;
  str_coord n := pretty n;
  str_seq a := "[" +:+ String.concat ", " (pretty <$> elements a) +:+ "]"
|}.

Definition show_dim (d : option nat) : string :=
  match d with
  | None => "None"
  | Some n => pretty n
  end.

(** A shape as Python prints a tuple. *)
Definition show_shape (shape : list (option nat)) : string :=
  match shape with
  | [d] => "(" +:+ show_dim d +:+ ",)"
  | _ => "(" +:+ String.concat ", " (show_dim <$> shape) +:+ ")"
  end.

(** A declared shape as Python prints it: one alternative is written as a
    shape, several as a tuple of shapes. *)
Definition show_alternatives (argshape : list (list (option nat))) : string :=
  match argshape with
  | [alt] => show_shape alt
  | _ => "(" +:+ String.concat ", " (show_shape <$> argshape) +:+ ")"
  end.

Definition show_stored (d : stored) : string :=
  match d with
  | Rows _ => "<array>"
  | Chunks _ => "<DataChunkIterator>"
  | Series name _ => name
  end.

Definition stored_docval : @Docval stored_base :=
  @Build_Docval stored_base stored_getattr stored_nesting
    ltac:(intros [s|m|n d] argname v'; simpl; try discriminate;
          case_bool_decide; [|discriminate]; intros [= <-]; lia)
    (λ argname valshape argshape,
       "incorrect shape for '" +:+ argname +:+ "' (got '" +:+
       show_shape valshape +:+ "', expected '" +:+
       show_alternatives argshape +:+ "')")
    (λ (argval : stored) argname argshape,
       "cannot check shape of object '" +:+ show_stored argval +:+
       "' for argument '" +:+ argname +:+ "' (expected shape '" +:+
       show_alternatives argshape +:+ "')")
    (λ _ _, []).

Definition stored_axis (a : @shape_arg stored_base) (axis : nat) : option nat :=
  match a with
  | ArgData (Rows shape) => shape !! axis
  | ArgData (Chunks maxshape) => mjoin (maxshape !! axis)
  | ArgData (Series _ _) => None
  | ArgRegion r =>
      if bool_decide (axis = 0) then Some (length (region_data r)) else None
  end.

Definition stored_data_utils : @DataUtils stored_base := {|
  assertEqualShape a1 a2 axes1 axes2 name1 name2 ignore_undetermined :=
    match stored_axis a1 axes1, stored_axis a2 axes2 with
    | Some n, Some m =>
        if bool_decide (n = m) then MkShapeValidatorResult true ""
        else MkShapeValidatorResult false
               (name1 +:+ " and " +:+ name2 +:+ " do not match")
    | _, _ =>
        if ignore_undetermined then MkShapeValidatorResult true ""
        else MkShapeValidatorResult false
               (name1 +:+ " or " +:+ name2 +:+ " undetermined")
    end;
  py_list d :=
    match d with
    | Rows (n :: _) => Return (replicate n 0)
    | _ => Raise (TypeError "object is not iterable")
    end
|}.

(** * Properties *)

Section StoreLemmas.
Context `{Hdmf}.

Lemma fresh_unbound (σ : world) : heap σ !! fresh (dom (heap σ)) = None.
Proof. apply not_elem_of_dom, is_fresh. Qed.

Lemma fresh_ne_bound (σ : world) (l : loc) :
  is_Some (heap σ !! l) → fresh (dom (heap σ)) ≠ l.
Proof.
  intros [v Hv] Heq. rewrite <- Heq, fresh_unbound in Hv. discriminate.
Qed.

Lemma deepcopy_bound (σ : world) (src : loc) (v : TypeMap) :
  heap σ !! src = Some v →
  deepcopy src σ =
    (World (<[fresh (dom (heap σ)) := v]> (heap σ)) (warnlog σ),
     Return (fresh (dom (heap σ)))).
Proof. intros Hv. unfold deepcopy. by rewrite Hv. Qed.

Lemma deepcopy_unbound (σ : world) (src : loc) :
  heap σ !! src = None →
  deepcopy src σ = (σ, Raise (NameError "unbound object")).
Proof. intros Hv. unfold deepcopy. by rewrite Hv. Qed.

Lemma bind_deepcopy_bound {B} (σ : world) (src : loc) (v : TypeMap)
    (k : loc → M B) :
  heap σ !! src = Some v →
  bind (deepcopy src) k σ =
    k (fresh (dom (heap σ)))
      (World (<[fresh (dom (heap σ)) := v]> (heap σ)) (warnlog σ)).
Proof. intros Hv. unfold bind. by rewrite (deepcopy_bound _ _ _ Hv). Qed.

Lemma bind_deepcopy_unbound {B} (σ : world) (src : loc) (k : loc → M B) :
  heap σ !! src = None →
  bind (deepcopy src) k σ = (σ, Raise (NameError "unbound object")).
Proof. intros Hv. unfold bind. by rewrite (deepcopy_unbound _ _ Hv). Qed.

Lemma bind_run {A B} (m : M A) (k : A → M B) (σ σ1 : world)
    (r : outcome A) :
  m σ = (σ1, r) →
  bind m k σ = match r with
               | Return a => k a σ1
               | Raise e => (σ1, Raise e)
               end.
Proof. intros Hm. unfold bind. by rewrite Hm. Qed.

Lemma bind_ret_l {A B} (a : A) (k : A → M B) (σ : world) :
  bind (ret a) k σ = k a σ.
Proof. done. Qed.

(** A method call writes to its receiver only. *)
Lemma call_method_frame (self l : loc) f (σ : world) :
  l ≠ self → heap (call_method self f σ).1 !! l = heap σ !! l.
Proof.
  intros Hne. unfold call_method.
  destruct (heap σ !! self) as [v|]; [|done].
  destruct (f v) as [v' [e|]]; simpl; by rewrite lookup_insert_ne.
Qed.

Lemma tm_merge_frame (self other l : loc) (σ : world) :
  l ≠ self → heap (tm_merge self other σ).1 !! l = heap σ !! l.
Proof.
  intros Hne. unfold tm_merge.
  destruct (heap σ !! other); [|done]. by apply call_method_frame.
Qed.

Lemma for_each_frame {A} (body : A → M unit) (xs : list A) (l : loc) :
  (∀ x σ, heap (body x σ).1 !! l = heap σ !! l) →
  ∀ σ, heap (for_each body xs σ).1 !! l = heap σ !! l.
Proof.
  intros Hbody. induction xs as [|x xs IH]; intros σ; [done|].
  simpl. unfold bind. specialize (Hbody x σ).
  destruct (body x σ) as [σ1 [[]|e]]; simpl in *; [|done].
  by rewrite IH.
Qed.

End StoreLemmas.

Section GetTypeMap.
Context `{Hdmf}.

Lemma bind_ret_state {A B} (m : M A) (b : B) (σ : world) :
  (bind m (λ _, ret b) σ).1 = (m σ).1.
Proof. unfold bind, ret. by destruct (m σ) as [σ' [a|e]]. Qed.

Lemma take_in_frame (type_map l : loc) (ext : extension_item) (σ : world) :
  l ≠ type_map → heap (take_in type_map ext σ).1 !! l = heap σ !! l.
Proof.
  intros Hne. destruct ext; simpl.
  - by apply call_method_frame.
  - by apply tm_merge_frame.
  - done.
Qed.

(** [get_type_map] writes to one object only: the copy it makes, or the
    [TypeMap] passed as [extensions]. *)
Lemma get_type_map_writes (ext : extensions_arg) (σ : world) (l : loc) :
  ext ≠ ExtTypeMap l →
  (is_Some (heap σ !! __TYPE_MAP) → fresh (dom (heap σ)) ≠ l) →
  heap (get_type_map ext σ).1 !! l = heap σ !! l.
Proof.
  intros Hext Hfresh. unfold get_type_map.
  destruct ext as [|p|l0|exts]; simpl.
  - destruct (heap σ !! __TYPE_MAP) as [v|] eqn:Hd.
    + rewrite (deepcopy_bound _ _ _ Hd). simpl.
      rewrite lookup_insert_ne; [done|]. apply Hfresh; eauto.
    + by rewrite (deepcopy_unbound _ _ Hd).
  - unfold bind at 1. destruct (heap σ !! __TYPE_MAP) as [v|] eqn:Hd.
    + rewrite (deepcopy_bound _ _ _ Hd). rewrite bind_ret_state.
      unfold tm_load_namespaces. rewrite call_method_frame.
      * simpl. rewrite lookup_insert_ne; [done|]. apply Hfresh; eauto.
      * intros ->. apply Hfresh; eauto.
    + by rewrite (deepcopy_unbound _ _ Hd).
  - unfold bind at 1, ret at 1. rewrite bind_ret_state.
    apply tm_merge_frame. congruence.
  - unfold bind at 1. destruct (heap σ !! __TYPE_MAP) as [v|] eqn:Hd.
    + rewrite (deepcopy_bound _ _ _ Hd). rewrite bind_ret_state.
      change (for_each _ exts) with (for_each (take_in (fresh (dom (heap σ)))) exts).
      rewrite for_each_frame.
      * simpl. rewrite lookup_insert_ne; [done|]. apply Hfresh; eauto.
      * intros x σ1. apply take_in_frame. intros ->. apply Hfresh; eauto.
    + by rewrite (deepcopy_unbound _ _ Hd).
Qed.

End GetTypeMap.

Section GetTypeMapResult.
Context `{Hdmf}.

Lemma call_method_result (self : loc) f (σ : world) (v : TypeMap) :
  heap σ !! self = Some v →
  heap (call_method self f σ).1 !! self = Some (f v).1 ∧
  (call_method self f σ).2 = outcome_of tt (f v).2.
Proof.
  intros Hv. unfold call_method. rewrite Hv.
  destruct (f v) as [v' [e|]]; simpl; by rewrite lookup_insert_eq.
Qed.

Lemma take_in_result (h0 : gmap loc TypeMap) (tm : loc)
    (i : extension_item) (σ : world) (acc : TypeMap) :
  h0 !! tm = None → item_bound h0 i →
  heap σ !! tm = Some acc →
  (∀ l, l ≠ tm → heap σ !! l = h0 !! l) →
  heap (take_in tm i σ).1 !! tm = Some (absorb h0 acc i).1 ∧
  (take_in tm i σ).2 = outcome_of tt (absorb h0 acc i).2.
Proof.
  intros Htm Hb Hacc Hrest. destruct i as [p|l|]; simpl.
  - unfold tm_load_namespaces.
    by apply (call_method_result tm (λ v, TypeMap_load_namespaces v p)).
  - destruct Hb as [vo Hvo].
    assert (l ≠ tm) as Hne by (intros ->; congruence).
    unfold tm_merge. rewrite (Hrest _ Hne), Hvo.
    by apply (call_method_result tm (λ v, TypeMap_merge v vo)).
  - done.
Qed.

(** The loop over the list leaves in the working map what [incorporate]
    computes, and ends as [incorporate] ends. *)
Lemma for_each_take_in (h0 : gmap loc TypeMap) (tm : loc)
    (items : list extension_item) :
  h0 !! tm = None → Forall (item_bound h0) items →
  ∀ (σ : world) (acc : TypeMap),
    heap σ !! tm = Some acc →
    (∀ l, l ≠ tm → heap σ !! l = h0 !! l) →
    heap (for_each (take_in tm) items σ).1 !! tm =
      Some (incorporate h0 acc items).1 ∧
    (for_each (take_in tm) items σ).2 =
      outcome_of tt (incorporate h0 acc items).2.
Proof.
  intros Htm Hall. induction Hall as [|i items Hi Hall IH];
    intros σ acc Hacc Hrest; simpl; [done|].
  unfold bind.
  destruct (take_in_result h0 tm i σ acc Htm Hi Hacc Hrest) as [Hst Hres].
  assert (∀ l, l ≠ tm → heap (take_in tm i σ).1 !! l = h0 !! l) as Hrest'.
  { intros l Hl. rewrite take_in_frame; auto. }
  destruct (take_in tm i σ) as [σ1 r]; simpl in *.
  destruct (absorb h0 acc i) as [acc' [e|]]; simpl in *; subst r; simpl.
  - done.
  - by apply IH.
Qed.

Lemma bind_ret_run {B} (m : M unit) (b : B) (σ : world) (e : option exn) :
  (m σ).2 = outcome_of tt e →
  (bind m (λ _, ret b) σ).2 = outcome_of b e.
Proof.
  unfold bind, ret. destruct (m σ) as [σ' [[]|e']], e; simpl; congruence.
Qed.

(** What [get_type_map] does: the working map ends up holding the base with
    the extensions taken in, and is returned unless taking them in raised. *)
Lemma get_type_map_run (ext : extensions_arg) (σ : world) (base : TypeMap) :
  heap σ !! base_of ext = Some base →
  Forall (item_bound (heap σ)) (items_of ext) →
  heap (get_type_map ext σ).1 !! working_map ext σ =
    Some (incorporate (heap σ) base (items_of ext)).1 ∧
  (get_type_map ext σ).2 =
    outcome_of (working_map ext σ)
      (incorporate (heap σ) base (items_of ext)).2.
Proof.
  intros Hbase Hb. unfold get_type_map.
  destruct ext as [|p|l0|exts]; simpl in *.
  - rewrite (deepcopy_bound _ _ _ Hbase). simpl.
    by rewrite lookup_insert_eq.
  - rewrite !(bind_deepcopy_bound _ _ _ _ Hbase).
    set (tm := fresh (dom (heap σ))). set (σ1 := World _ _).
    rewrite bind_ret_state. unfold tm_load_namespaces.
    destruct (call_method_result tm
      (λ v0, TypeMap_load_namespaces v0 p) σ1 base) as [Hst Hres].
    { subst σ1; simpl. by rewrite lookup_insert_eq. }
    split.
    + rewrite Hst. by destruct (TypeMap_load_namespaces base p) as [? []].
    + rewrite (bind_ret_run _ _ _ _ Hres).
      by destruct (TypeMap_load_namespaces base p) as [? []].
  - rewrite !bind_ret_l, bind_ret_state.
    assert (tm_merge l0 l0 σ =
            call_method l0 (λ v0, TypeMap_merge v0 base) σ) as Hm.
    { unfold tm_merge. by rewrite Hbase. }
    destruct (call_method_result l0
      (λ v0, TypeMap_merge v0 base) σ base Hbase) as [Hst Hres].
    rewrite <- Hm in Hst, Hres. unfold absorb. rewrite Hbase.
    split.
    + rewrite Hst. by destruct (TypeMap_merge base base) as [? []].
    + rewrite (bind_ret_run _ _ _ _ Hres).
      by destruct (TypeMap_merge base base) as [? []].
  - rewrite !(bind_deepcopy_bound _ _ _ _ Hbase).
    set (tm := fresh (dom (heap σ))). set (σ1 := World _ _).
    change (for_each _ exts) with (for_each (take_in tm) exts).
    rewrite bind_ret_state.
    destruct (for_each_take_in (heap σ) tm exts (fresh_unbound σ) Hb σ1 base)
      as [Hst Hres].
    { subst σ1; simpl. by rewrite lookup_insert_eq. }
    { intros l Hl. subst σ1; simpl. by rewrite lookup_insert_ne. }
    split; [done|]. by apply bind_ret_run.
Qed.

End GetTypeMapResult.

(** By contrast, the module-level [load_namespaces] does write to the
    default type map. *)
Example load_namespaces_writes_default :
  heap (@load_namespaces list_hdmf "ndx-ext.namespace.yaml" world0).1
    !! __TYPE_MAP = Some ["core"; "ndx-ext.namespace.yaml"].
Proof. reflexivity. Qed.

(** A [TypeMap] passed as [extensions] is itself the map that is returned. *)
Example get_type_map_returns_the_extension :
  let σ := @World list_hdmf {[ __TYPE_MAP := ["core"]; 5%positive := ["ndx"] ]} [] in
  (@get_type_map list_hdmf (ExtTypeMap 5) σ).2 = Return 5%positive ∧
  heap (@get_type_map list_hdmf (ExtTypeMap 5) σ).1 !! 5%positive
    = Some ["ndx"; "ndx"].
Proof. split; reflexivity. Qed.

(** C7. [get_type_map] never changes the process-wide default type map
    [__TYPE_MAP], whatever [extensions] is (other than the default object
    itself): the map it returns is another object, holding the base map with
    the extensions taken in; with [extensions=None] the returned map is a new
    object holding a copy of the default, so that no later assignment to it
    reaches the default. *)
Theorem get_type_map_leaves_default_unchanged `{Hdmf}
    (σ : world) (ext : extensions_arg) (dflt : TypeMap) :
  heap σ !! __TYPE_MAP = Some dflt →
  ext ≠ ExtTypeMap __TYPE_MAP →
  Forall (item_bound (heap σ)) (items_of ext) →
  let σ' := (get_type_map ext σ).1 in
  let l := working_map ext σ in
  heap σ' !! __TYPE_MAP = Some dflt ∧
  l ≠ __TYPE_MAP ∧
  (∃ base,
      heap σ !! base_of ext = Some base ∧
      heap σ' !! l = Some (incorporate (heap σ) base (items_of ext)).1 ∧
      (get_type_map ext σ).2 =
        outcome_of l (incorporate (heap σ) base (items_of ext)).2) ∧
  (ext = ExtNone →
      (get_type_map ext σ).2 = Return l ∧
      (l ∉ dom (heap σ)) ∧
      heap σ' !! l = Some dflt ∧
      ∀ v, (<[l := v]> (heap σ')) !! __TYPE_MAP = Some dflt).
Proof.
  intros Hd Hne Hb σ' l.
  assert (fresh (dom (heap σ)) ≠ __TYPE_MAP) as Hfresh
    by (apply fresh_ne_bound; eauto).
  assert (l ≠ __TYPE_MAP) as Hl.
  { subst l. destruct ext; simpl; auto. congruence. }
  assert (heap σ' !! __TYPE_MAP = Some dflt) as Hframe.
  { subst σ'. rewrite get_type_map_writes; auto. }
  assert (∃ base, heap σ !! base_of ext = Some base) as [base Hbase].
  { destruct ext; simpl in *; eauto.
    apply Forall_cons in Hb as [[v Hv] _]. eauto. }
  destruct (get_type_map_run ext σ base Hbase Hb) as [Hst Hres].
  repeat split; auto.
  - exists base. auto.
  - subst ext. by rewrite Hres.
  - subst ext l. simpl. apply is_fresh.
  - subst ext σ' l. simpl in *. rewrite Hst. congruence.
  - intros v. rewrite lookup_insert_ne; auto.
Qed.

Lemma get_type_map_leaves_default_unchanged_witness :
  heap (@get_type_map list_hdmf
          (ExtList [ItemStr "ndx-ext.namespace.yaml"]) world0).1 !! __TYPE_MAP
    = Some ["core"].
Proof.
  refine (proj1 (@get_type_map_leaves_default_unchanged list_hdmf world0
                   (ExtList [ItemStr "ndx-ext.namespace.yaml"]) ["core"] _ _ _)).
  - reflexivity.
  - discriminate.
  - repeat constructor.
Defined.

Section SessionLemmas.
Context `{Hdmf}.
Import NWBHDF5IO.

Lemma super___init___run (a : hdf5io_args) (σ : world) :
  super___init__ a σ = (σ, outcome_of (Session a) (HDF5IO_init a)).
Proof. unfold super___init__. by destruct (HDF5IO_init a). Qed.

Lemma get_manager_None_run (σ : world) (dflt : TypeMap) :
  heap σ !! __TYPE_MAP = Some dflt →
  get_manager ExtNone σ =
    (with_copy σ dflt, Return (MkBuildManager (fresh (dom (heap σ))))).
Proof.
  intros Hd. unfold get_manager, get_type_map. simpl.
  by rewrite (bind_deepcopy_bound _ _ _ _ Hd).
Qed.

(** With [load_namespaces=False] the constructor is the manager choice
    followed by the [HDF5IO] constructor. *)
Lemma init_without_load (kw : kwargs) :
  load_namespaces kw = false →
  __init__ kw =
    (let* m :=
       if bool_decide (manager kw ≠ None) && negb (is_None (extensions kw))
       then raise (ValueError
              "'manager' and 'extensions' cannot be specified together")
       else if negb (is_None (extensions kw)) then get_manager (extensions kw)
       else match manager kw with
            | None => get_manager ExtNone
            | Some m => ret m
            end in
     super___init__ (session_args kw m)).
Proof. intros Hl. unfold __init__. by rewrite Hl. Qed.

End SessionLemmas.

(** C8. With [load_namespaces=False]: a manager together with extensions is
    a [ValueError]; a manager alone is the session's manager; extensions
    alone give the manager built by [get_manager(extensions=extensions)],
    which is a manager over a type map that holds the default map (or the
    [TypeMap] passed as extensions) with the extensions taken in, and the
    session is opened with that manager unless taking them in raised;
    neither gives [get_manager()], the manager over a new copy of the default
    (core) type map. *)
Theorem init_manager_or_extensions `{Hdmf} (kw : NWBHDF5IO.kwargs) (σ : world) :
  NWBHDF5IO.load_namespaces kw = false →
  (∀ m, NWBHDF5IO.manager kw = Some m → NWBHDF5IO.extensions kw ≠ ExtNone →
     NWBHDF5IO.__init__ kw σ =
       (σ, Raise (ValueError
                    "'manager' and 'extensions' cannot be specified together"))) ∧
  (∀ m, NWBHDF5IO.manager kw = Some m → NWBHDF5IO.extensions kw = ExtNone →
     NWBHDF5IO.__init__ kw σ =
       NWBHDF5IO.super___init__ (session_args kw m) σ ∧
     NWBHDF5IO.__init__ kw σ =
       (σ, outcome_of (NWBHDF5IO.Session (session_args kw m))
             (HDF5IO_init (session_args kw m)))) ∧
  (NWBHDF5IO.manager kw = None → NWBHDF5IO.extensions kw ≠ ExtNone →
     NWBHDF5IO.__init__ kw σ =
       (let* m := get_manager (NWBHDF5IO.extensions kw) in
        NWBHDF5IO.super___init__ (session_args kw m)) σ ∧
     ∀ base,
       heap σ !! base_of (NWBHDF5IO.extensions kw) = Some base →
       Forall (item_bound (heap σ)) (items_of (NWBHDF5IO.extensions kw)) →
       let tm := working_map (NWBHDF5IO.extensions kw) σ in
       let derived :=
         incorporate (heap σ) base (items_of (NWBHDF5IO.extensions kw)) in
       let a := session_args kw (MkBuildManager tm) in
       heap (NWBHDF5IO.__init__ kw σ).1 !! tm = Some derived.1 ∧
       (NWBHDF5IO.__init__ kw σ).2 =
         match derived.2 with
         | Some e => Raise e
         | None => outcome_of (NWBHDF5IO.Session a) (HDF5IO_init a)
         end) ∧
  (NWBHDF5IO.manager kw = None → NWBHDF5IO.extensions kw = ExtNone →
     NWBHDF5IO.__init__ kw σ =
       (let* m := get_manager ExtNone in
        NWBHDF5IO.super___init__ (session_args kw m)) σ ∧
     ∀ dflt, heap σ !! __TYPE_MAP = Some dflt →
       NWBHDF5IO.__init__ kw σ =
         NWBHDF5IO.super___init__
           (session_args kw (MkBuildManager (fresh (dom (heap σ)))))
           (with_copy σ dflt) ∧
       NWBHDF5IO.__init__ kw σ =
         (with_copy σ dflt,
          outcome_of
            (NWBHDF5IO.Session
               (session_args kw (MkBuildManager (fresh (dom (heap σ))))))
            (HDF5IO_init
               (session_args kw (MkBuildManager (fresh (dom (heap σ)))))))).
Proof.
  intros Hl. rewrite (init_without_load kw Hl).
  split; [|split; [|split]].
  - intros m -> Hext. destruct (NWBHDF5IO.extensions kw); done.
  - intros m -> ->. split; [done|]. simpl. rewrite bind_ret_l.
    apply super___init___run.
  - intros Hm Hext.
    assert (negb (is_None (NWBHDF5IO.extensions kw)) = true) as Hneg
      by (by destruct (NWBHDF5IO.extensions kw)).
    rewrite Hm, Hneg, andb_true_r.
    case_bool_decide as Hc; [by destruct Hc|].
    split; [done|].
    intros base Hbase Hbound tm derived a.
    destruct (get_type_map_run _ σ base Hbase Hbound) as [Hst Hres].
    fold tm in Hst, Hres. fold derived in Hst, Hres.
    unfold get_manager, bind.
    destruct (get_type_map (NWBHDF5IO.extensions kw) σ) as [σ1 r].
    simpl in Hst, Hres. subst r.
    destruct derived.2 as [e|]; simpl; [done|].
    by rewrite super___init___run.
  - intros -> ->. split; [done|].
    intros dflt Hd. simpl.
    rewrite (bind_run _ _ _ _ _ (get_manager_None_run _ _ Hd)).
    split; [done|]. apply super___init___run.
Qed.

Lemma init_manager_or_extensions_witness :
  (let kw := NWBHDF5IO.Kwargs "f.nwb" "r" false
               (Some (MkBuildManager 7)) (ExtStr "ndx-ext.namespace.yaml")
               None None None in
   @NWBHDF5IO.__init__ list_hdmf kw world0 =
     (world0, Raise (ValueError
                       "'manager' and 'extensions' cannot be specified together"))) ∧
  (let kw := NWBHDF5IO.Kwargs "f.nwb" "r" false None
               (ExtStr "ndx-ext.namespace.yaml") None None None in
   let tm := fresh (dom (heap world0)) in
   heap (@NWBHDF5IO.__init__ list_hdmf kw world0).1 !! tm =
     Some ["core"; "ndx-ext.namespace.yaml"] ∧
   (@NWBHDF5IO.__init__ list_hdmf kw world0).2 =
     Return (NWBHDF5IO.Session (session_args kw (MkBuildManager tm)))).
Proof.
  split.
  - intros kw.
    refine (proj1 (@init_manager_or_extensions list_hdmf kw world0 _)
              (MkBuildManager 7) _ _).
    + reflexivity.
    + reflexivity.
    + discriminate.
  - intros kw tm.
    refine (proj2 (proj1 (proj2 (proj2
      (@init_manager_or_extensions list_hdmf kw world0 _))) _ _)
      ["core"] _ _).
    + reflexivity.
    + reflexivity.
    + discriminate.
    + reflexivity.
    + constructor; [exact I|constructor].
Defined.

Section LoadNamespaces.
Context `{Hdmf}.
Import NWBHDF5IO.

(** The two warnings about ignored arguments touch the warning log only. *)
Lemma ignored_arguments_warnings (kw : kwargs) (σ : world) :
  ∃ ws,
    (when (bool_decide (manager kw ≠ None))
       (warn "loading namespaces from file - ignoring 'manager'") >>
     when (negb (is_None (extensions kw)))
       (warn "loading namespaces from file - ignoring 'extensions' argument")) σ
    = (World (heap σ) ws, Return tt).
Proof.
  destruct σ as [h ws].
  destruct (manager kw), (extensions kw); simpl; eexists; reflexivity.
Qed.

(** With [load_namespaces=True] the constructor is: the warnings, the mode
    guard, then loading into a copy of the default map and opening. *)
Lemma init_with_load (kw : kwargs) (σ : world) :
  load_namespaces kw = true →
  ∃ ws,
    __init__ kw σ =
      (when (str_in "w" (mode kw) || str_eq (mode kw) "x")
         (raise (ValueError
                   "cannot load namespaces from file when writing to it")) >>
       let* m :=
         (let* tm := get_type_map ExtNone in
          super_load_namespaces tm (path kw) (file kw) (driver kw) >>
          ret (MkBuildManager tm)) in
       super___init__ (session_args kw m)) (World (heap σ) ws).
Proof.
  intros Hl. unfold __init__. rewrite Hl.
  destruct σ as [h ws].
  destruct (manager kw), (extensions kw); simpl; eexists;
    unfold bind, when, warn, warn_cat, ret; simpl;
    destruct (str_in "w" (mode kw) || str_eq (mode kw) "x"); reflexivity.
Qed.

Lemma load_into_copy_run (kw : kwargs) (σ : world) (dflt : TypeMap) :
  heap σ !! __TYPE_MAP = Some dflt →
  let tm := fresh (dom (heap σ)) in
  let loaded := HDF5IO_load_namespaces dflt (path kw) (file kw) (driver kw) in
  (let* tm := get_type_map ExtNone in
   super_load_namespaces tm (path kw) (file kw) (driver kw) >>
   ret (MkBuildManager tm)) σ =
  (World (<[tm := loaded.1]> (<[tm := dflt]> (heap σ)))
     (warnlog σ ++
      HDF5IO_load_namespaces_warnings dflt (path kw) (file kw) (driver kw)),
   outcome_of (MkBuildManager tm) loaded.2).
Proof.
  intros Hd tm loaded. unfold get_type_map. simpl.
  rewrite (bind_deepcopy_bound _ _ _ _ Hd). fold tm.
  unfold bind, super_load_namespaces, call_method. simpl.
  rewrite lookup_insert_eq. fold loaded.
  by destruct loaded as [v' [e|]].
Qed.

End LoadNamespaces.

(** C4. With [load_namespaces=True]: in the write modes ['w'], ['w-'] and
    ['x'] the constructor raises a [ValueError] and the store of type maps is
    as before; in the modes ['r'], ['r+'] and ['a'] the mode guard lets the
    request through, the cached namespaces are loaded into a new copy of the
    default type map, and the session opens with a manager over that copy
    whenever [hdmf]'s loading and [HDF5IO] constructor do not raise. *)
Theorem init_load_namespaces_by_mode `{Hdmf}
    (kw : NWBHDF5IO.kwargs) (σ : world) :
  NWBHDF5IO.load_namespaces kw = true →
  (NWBHDF5IO.mode kw ∈ ["w"; "w-"; "x"] →
     (NWBHDF5IO.__init__ kw σ).2 =
       Raise (ValueError "cannot load namespaces from file when writing to it") ∧
     heap (NWBHDF5IO.__init__ kw σ).1 = heap σ) ∧
  (NWBHDF5IO.mode kw ∈ ["r"; "r+"; "a"] →
     ∀ dflt, heap σ !! __TYPE_MAP = Some dflt →
       let tm := fresh (dom (heap σ)) in
       let loaded :=
         HDF5IO_load_namespaces dflt (NWBHDF5IO.path kw)
           (NWBHDF5IO.file kw) (NWBHDF5IO.driver kw) in
       let a := session_args kw (MkBuildManager tm) in
       (NWBHDF5IO.__init__ kw σ).2 =
         match loaded.2 with
         | Some e => Raise e
         | None => outcome_of (NWBHDF5IO.Session a) (HDF5IO_init a)
         end ∧
       heap (NWBHDF5IO.__init__ kw σ).1 !! tm = Some loaded.1 ∧
       heap (NWBHDF5IO.__init__ kw σ).1 !! __TYPE_MAP = Some dflt).
Proof.
  intros Hl. destruct (init_with_load kw σ Hl) as [ws ->].
  split.
  - intros Hmode.
    assert (str_in "w" (NWBHDF5IO.mode kw) ||
            str_eq (NWBHDF5IO.mode kw) "x" = true) as ->.
    { set_unfold. destruct Hmode as [->|[->|[->|[]]]]; reflexivity. }
    done.
  - intros Hmode dflt Hd tm loaded a.
    assert (str_in "w" (NWBHDF5IO.mode kw) ||
            str_eq (NWBHDF5IO.mode kw) "x" = false) as ->.
    { set_unfold. destruct Hmode as [->|[->|[->|[]]]]; reflexivity. }
    assert (fresh (dom (heap σ)) ≠ __TYPE_MAP) as Hfresh
      by (apply fresh_ne_bound; eauto).
    unfold when. rewrite bind_ret_l.
    rewrite (bind_run _ _ _ _ _
               (load_into_copy_run kw (World (heap σ) ws) dflt Hd)).
    cbn [heap]. fold tm. fold loaded.
    destruct loaded as [v' [e|]]; cbn [outcome_of fst snd heap].
    + by rewrite lookup_insert_eq, lookup_insert_ne, lookup_insert_ne.
    + rewrite super___init___run. cbn [fst snd heap].
      by rewrite lookup_insert_eq, lookup_insert_ne, lookup_insert_ne.
Qed.

Lemma init_load_namespaces_by_mode_witness :
  let kw := NWBHDF5IO.Kwargs "f.nwb" "w-" true None ExtNone None None None in
  (@NWBHDF5IO.__init__ list_hdmf kw world0).2 =
    Raise (ValueError "cannot load namespaces from file when writing to it").
Proof.
  intros kw.
  refine (proj1 (proj1 (@init_load_namespaces_by_mode list_hdmf kw world0 _) _)).
  - reflexivity.
  - set_unfold. right. left. reflexivity.
Defined.

Section Ecephys.
Context `{Hdmf} `{Base}.

(** The [ElectricalSeries] constructor after its shape heuristic: the base
    constructor, then the object. *)
Lemma electrical_series_tail_run (kw : ElectricalSeries.kwargs) (σ : world) :
  (ElectricalSeries.super___init__ (ElectricalSeries.name kw)
     (ElectricalSeries.data kw) "volts" (ElectricalSeries.timestamps kw)
     (ElectricalSeries.rest kw) >>
   ret (ElectricalSeries.Object (ElectricalSeries.name kw)
          (ElectricalSeries.data kw) "volts" (ElectricalSeries.timestamps kw)
          (ElectricalSeries.rest kw) (ElectricalSeries.electrodes kw)
          (ElectricalSeries.channel_conversion kw)
          (ElectricalSeries.filtering kw))) σ =
  (σ, outcome_of
        (ElectricalSeries.Object (ElectricalSeries.name kw)
           (ElectricalSeries.data kw) "volts" (ElectricalSeries.timestamps kw)
           (ElectricalSeries.rest kw) (ElectricalSeries.electrodes kw)
           (ElectricalSeries.channel_conversion kw)
           (ElectricalSeries.filtering kw))
        (TimeSeries_init (ElectricalSeries.name kw) (ElectricalSeries.data kw)
           "volts" (ElectricalSeries.timestamps kw) (ElectricalSeries.rest kw))).
Proof.
  unfold bind, ElectricalSeries.super___init__.
  by destruct (TimeSeries_init _ _ _ _ _).
Qed.

(** The length check of [SpikeEventSeries] is skipped as soon as one of the
    two arguments is a [TimeSeries] or a [DataChunkIterator]. *)
Lemma spike_event_series_skip (kw : SpikeEventSeries.kwargs) (σ : world) :
  isinstance_TimeSeries (SpikeEventSeries.data kw) = true ∨
  isinstance_TimeSeries (SpikeEventSeries.timestamps kw) = true ∨
  isinstance_DataChunkIterator (SpikeEventSeries.data kw) = true ∨
  isinstance_DataChunkIterator (SpikeEventSeries.timestamps kw) = true →
  SpikeEventSeries.__init__ kw σ =
    ElectricalSeries.__init__
      (ElectricalSeries.Kwargs (SpikeEventSeries.name kw)
         (SpikeEventSeries.data kw) (SpikeEventSeries.electrodes kw) None None
         (Some (SpikeEventSeries.timestamps kw)) (SpikeEventSeries.rest kw)) σ.
Proof.
  intros Hskip. unfold SpikeEventSeries.__init__, SpikeEventSeries.body.
  destruct (isinstance_TimeSeries (SpikeEventSeries.data kw)),
    (isinstance_TimeSeries (SpikeEventSeries.timestamps kw)),
    (isinstance_DataChunkIterator (SpikeEventSeries.data kw)),
    (isinstance_DataChunkIterator (SpikeEventSeries.timestamps kw));
    simpl; try reflexivity.
  destruct Hskip as [?|[?|[?|?]]]; discriminate.
Qed.

End Ecephys.

(** C6. When the shape of the data of an [ElectricalSeries] is known to be
    2-D and its second dimension is not the number of electrodes, the
    constructor emits exactly one warning (the "oriented incorrectly" one when
    the first dimension is the number of electrodes, the "may be transposed"
    one otherwise) and then goes on as usual: it raises only if the
    [TimeSeries] constructor does, and returns the object otherwise. *)
Theorem electrical_series_orientation_is_a_warning `{Hdmf} `{Base}
    (kw : ElectricalSeries.kwargs) (σ : world) (d0 d1 : option nat) :
  get_data_shape (ElectricalSeries.data kw) true = Some [d0; d1] →
  d1 ≠ Some (length (region_data (ElectricalSeries.electrodes kw))) →
  let n := length (region_data (ElectricalSeries.electrodes kw)) in
  let msg := if bool_decide (d0 = Some n)
             then ElectricalSeries.oriented_incorrectly
             else ElectricalSeries.may_be_transposed in
  ElectricalSeries.__init__ kw σ =
    (World (heap σ) (warnlog σ ++ [Warning UserWarning msg]),
     outcome_of
       (ElectricalSeries.Object (ElectricalSeries.name kw)
          (ElectricalSeries.data kw) "volts" (ElectricalSeries.timestamps kw)
          (ElectricalSeries.rest kw) (ElectricalSeries.electrodes kw)
          (ElectricalSeries.channel_conversion kw)
          (ElectricalSeries.filtering kw))
       (TimeSeries_init (ElectricalSeries.name kw) (ElectricalSeries.data kw)
          "volts" (ElectricalSeries.timestamps kw) (ElectricalSeries.rest kw))).
Proof.
  intros Hshape Hd1 n msg. unfold ElectricalSeries.__init__.
  rewrite Hshape. rewrite (bool_decide_eq_false_2 _ Hd1). simpl.
  fold n. subst msg.
  destruct (bool_decide (d0 = Some n));
    unfold bind at 1; simpl; apply electrical_series_tail_run.
Qed.

Lemma electrical_series_orientation_is_a_warning_witness :
  let kw := @ElectricalSeries.Kwargs shaped_base "es" (Arr [3; 100])
              (MkRegion [0; 1; 2]) None None None tt in
  ∃ obj,
    @ElectricalSeries.__init__ list_hdmf shaped_base kw world0 =
      (@World list_hdmf (heap world0)
         [Warning UserWarning ElectricalSeries.oriented_incorrectly],
       Return obj).
Proof.
  intros kw. eexists.
  refine (@electrical_series_orientation_is_a_warning list_hdmf shaped_base
            kw world0 (Some 3) (Some 100) _ _).
  - reflexivity.
  - discriminate.
Defined.

(** The body of [SpikeEventSeries.__init__], on the arguments it receives
    from docval: when neither [data] nor [timestamps] is a [TimeSeries] or a
    [DataChunkIterator], lengths that differ raise an exception before
    anything is built (and equal lengths go on to the constructor of the
    parent class); when either is a [TimeSeries] or a [DataChunkIterator],
    no length is compared and the constructor of the parent class runs. *)
Lemma spike_event_series_body_length_check `{Hdmf} `{Base}
    (super___init__ : ElectricalSeries.kwargs → M ElectricalSeries.t)
    (kw : SpikeEventSeries.kwargs) (σ : world) :
  let super := super___init__
      (ElectricalSeries.Kwargs (SpikeEventSeries.name kw)
         (SpikeEventSeries.data kw) (SpikeEventSeries.electrodes kw) None None
         (Some (SpikeEventSeries.timestamps kw)) (SpikeEventSeries.rest kw)) in
  (isinstance_TimeSeries (SpikeEventSeries.data kw) = false →
   isinstance_TimeSeries (SpikeEventSeries.timestamps kw) = false →
   isinstance_DataChunkIterator (SpikeEventSeries.data kw) = false →
   isinstance_DataChunkIterator (SpikeEventSeries.timestamps kw) = false →
   ∀ n m, len (SpikeEventSeries.data kw) = Return n →
          len (SpikeEventSeries.timestamps kw) = Return m →
     (n ≠ m →
        SpikeEventSeries.body super___init__ kw σ =
          (σ, Raise (Exception
                "Must provide the same number of timestamps and spike events"))) ∧
     (n = m → SpikeEventSeries.body super___init__ kw σ = super σ)) ∧
  (isinstance_TimeSeries (SpikeEventSeries.data kw) = true ∨
   isinstance_TimeSeries (SpikeEventSeries.timestamps kw) = true ∨
   isinstance_DataChunkIterator (SpikeEventSeries.data kw) = true ∨
   isinstance_DataChunkIterator (SpikeEventSeries.timestamps kw) = true →
   SpikeEventSeries.body super___init__ kw σ = super σ).
Proof.
  intros super. unfold SpikeEventSeries.body. split.
  - intros Hd Ht Hdi Hti n m Hn Hm.
    rewrite Hd, Ht, Hdi, Hti, Hn, Hm. simpl. split; intros Hnm.
    + by rewrite (bool_decide_eq_true_2 _ Hnm).
    + by rewrite (bool_decide_eq_false_2 (n ≠ m)) by auto.
  - intros Hskip.
    destruct (isinstance_TimeSeries (SpikeEventSeries.data kw)),
      (isinstance_TimeSeries (SpikeEventSeries.timestamps kw)),
      (isinstance_DataChunkIterator (SpikeEventSeries.data kw)),
      (isinstance_DataChunkIterator (SpikeEventSeries.timestamps kw));
      simpl; try reflexivity.
    destruct Hskip as [?|[?|[?|?]]]; discriminate.
Qed.

Section ElectrodeGroupLemmas.
Context `{Hdmf} `{Base}.

Lemma electrode_group_super_run (name : string) (σ : world) :
  ElectrodeGroup.super___init__ name σ =
    (σ, outcome_of tt (NWBContainer_init name)).
Proof. unfold ElectrodeGroup.super___init__. by destruct (NWBContainer_init _). Qed.

(** A position that is [None], empty or otherwise false is stored as given. *)
Lemma electrode_group_falsy_position (kw : ElectrodeGroup.kwargs) (σ : world) :
  truthy (ElectrodeGroup.position kw) = Return false →
  ElectrodeGroup.__init__ kw σ =
    (σ, outcome_of
          (ElectrodeGroup.Object (ElectrodeGroup.name kw)
             (ElectrodeGroup.description kw) (ElectrodeGroup.location kw)
             (ElectrodeGroup.device kw) (ElectrodeGroup.position kw))
          (NWBContainer_init (ElectrodeGroup.name kw))).
Proof.
  intros Hf. unfold ElectrodeGroup.__init__.
  rewrite (bind_run _ _ _ _ _ (electrode_group_super_run _ _)).
  rewrite Hf. by destruct (NWBContainer_init _).
Qed.

(** A non-empty list whose length is not 3 raises the exception that names
    x, y and z. *)
Lemma electrode_group_list_position (kw : ElectrodeGroup.kwargs) (σ : world)
    (xs : list Coord) :
  ElectrodeGroup.position kw = Some (PyList xs) →
  xs ≠ [] → length xs ≠ 3 →
  NWBContainer_init (ElectrodeGroup.name kw) = None →
  ElectrodeGroup.__init__ kw σ =
    (σ, Raise (Exception
          ("ElectrodeGroup position argument must have three elements: x, y, z, but received: "
           +:+ str_seq (PyList xs)))).
Proof.
  intros Hp Hne Hlen Hsuper. unfold ElectrodeGroup.__init__.
  rewrite (bind_run _ _ _ _ _ (electrode_group_super_run _ _)).
  rewrite Hsuper, Hp. simpl.
  rewrite (bool_decide_eq_false_2 _ Hne), (bool_decide_eq_true_2 _ Hlen).
  done.
Qed.

End ElectrodeGroupLemmas.

Example electrode_group_pair_as_list :
  @ElectrodeGroup.__init__ list_hdmf shaped_base
    (@ElectrodeGroup.Kwargs shaped_base "shank0" "tetrode" "CA1" "probe"
       (Some (PyList [1; 2]))) world0 =
  (world0, Raise (Exception
     "ElectrodeGroup position argument must have three elements: x, y, z, but received: [1, 2]")).
Proof. reflexivity. Qed.

Example electrode_group_pair_as_tuple :
  @ElectrodeGroup.__init__ list_hdmf shaped_base
    (@ElectrodeGroup.Kwargs shaped_base "shank0" "tetrode" "CA1" "probe"
       (Some (PyTuple [1; 2]))) world0 =
  (world0, Raise (TypeError
     "not all arguments converted during string formatting")).
Proof. reflexivity. Qed.

(** C9. The code run on a position given as a tuple of two elements: the
    check fires, but formatting the message with [%] takes the tuple for the
    tuple of values to format, and the exception raised is the [TypeError] of
    the formatting, not the exception that names x, y and z. *)
Theorem electrode_group_short_tuple_position `{Hdmf} `{Base}
    (name description location : string) (device : Device) (x y : Coord)
    (σ : world) :
  ElectrodeGroup.__init__
    (ElectrodeGroup.Kwargs name description location device
       (Some (PyTuple [x; y]))) σ =
  (σ, match NWBContainer_init name with
      | Some e => Raise e
      | None =>
          Raise (TypeError
                   "not all arguments converted during string formatting")
      end).
Proof.
  unfold ElectrodeGroup.__init__.
  rewrite (bind_run _ _ _ _ _ (electrode_group_super_run _ _)). simpl.
  by destruct (NWBContainer_init name).
Qed.

Section ShapeCheck.

(** Matching an alternative, dimension by dimension. *)
Lemma shape_okay_Forall2 (valshape alt : list (option nat)) :
  shape_okay valshape alt = true ↔
  Forall2 (λ a b, b = None ∨ b = a) valshape alt.
Proof.
  revert alt. induction valshape as [|a valshape IH]; intros [|b alt]; simpl.
  - split; [constructor|done].
  - split; [done|inversion 1].
  - split; [done|inversion 1].
  - rewrite andb_true_iff, IH. split.
    + intros [Hd Hall]. constructor; [|done].
      destruct b as [n|]; [|by left]. right.
      apply bool_decide_eq_true in Hd. by subst.
    + inversion 1 as [|? ? ? ? Hd Hall]; subst. split; [|done].
      destruct b as [n|]; [|done]. simpl. apply bool_decide_eq_true.
      by destruct Hd as [?|<-].
Qed.

(** An alternative made of placeholders only constrains the rank. *)
Lemma shape_okay_placeholders (k : nat) (valshape : list (option nat)) :
  shape_okay valshape (replicate k None) = bool_decide (length valshape = k).
Proof.
  revert valshape. induction k as [|k IH]; intros [|a valshape]; simpl;
    try done.
  rewrite IH. apply bool_decide_ext. lia.
Qed.

(** An alternative of one fixed size admits that shape only. *)
Lemma shape_okay_fixed (n : nat) (valshape : list (option nat)) :
  shape_okay valshape [Some n] = bool_decide (valshape = [Some n]).
Proof.
  destruct valshape as [|a [|a' valshape]]; simpl; [done| |].
  - rewrite andb_true_r. apply bool_decide_ext. split; [by intros ->|].
    by intros [= ->].
  - rewrite andb_false_r. symmetry. by apply bool_decide_eq_false_2.
Qed.

Lemma shape_okay_multi_false (valshape : list (option nat))
    (alts : list (list (option nat))) :
  shape_okay_multi valshape alts = false ↔
  Forall (λ alt, shape_okay valshape alt = false) alts.
Proof.
  unfold shape_okay_multi. induction alts as [|alt alts IH]; simpl.
  - split; [constructor|done].
  - rewrite orb_false_iff, IH, Forall_cons. done.
Qed.

Lemma data_shape_rank (valshape : list (option nat)) :
  shape_okay_multi valshape ElectricalSeries.data_shape =
    bool_decide (1 ≤ length valshape ≤ 3)%nat.
Proof.
  pose proof (shape_okay_placeholders 1 valshape) as H1.
  pose proof (shape_okay_placeholders 2 valshape) as H2.
  pose proof (shape_okay_placeholders 3 valshape) as H3.
  unfold shape_okay_multi, ElectricalSeries.data_shape. simpl in *.
  rewrite H1, H2, H3.
  repeat case_bool_decide; simpl; try done; lia.
Qed.

Lemma vector_shape_rank (valshape : list (option nat)) :
  shape_okay_multi valshape [[None]] = bool_decide (length valshape = 1).
Proof.
  pose proof (shape_okay_placeholders 1 valshape) as H1.
  unfold shape_okay_multi. simpl in *. rewrite H1. apply orb_false_r.
Qed.

End ShapeCheck.

Section DocvalLemmas.
Context `{Hdmf} `{Base} `{!DataUtils} `{!Docval}.

Lemma shape_loop_known (fuel : nat) (argname : string) (v : Data)
    (valshape : list (option nat)) :
  get_data_shape v false = Some valshape →
  shape_loop fuel argname v = (v, Some valshape, false).
Proof. intros Hs. destruct fuel; simpl; by rewrite Hs. Qed.

(** The unpacking never stops for lack of steps: any number of steps from
    the nesting of the value on gives the same result. *)
Lemma shape_loop_enough_fuel (argname : string) (n : nat) :
  ∀ (v : Data) (fuel1 fuel2 : nat),
    (nesting v ≤ n)%nat → (n ≤ fuel1)%nat → (n ≤ fuel2)%nat →
    shape_loop fuel1 argname v = shape_loop fuel2 argname v.
Proof.
  induction n as [|n IH]; intros v fuel1 fuel2 Hv Hf1 Hf2.
  - destruct fuel1, fuel2; simpl;
      destruct (get_data_shape v false); try done;
      destruct (getattr_arg v argname) as [inner|] eqn:Hget; try done;
      apply getattr_arg_nesting in Hget; lia.
  - destruct fuel1 as [|fuel1]; [lia|]. destruct fuel2 as [|fuel2]; [lia|].
    simpl. destruct (get_data_shape v false); [done|].
    destruct (getattr_arg v argname) as [inner|] eqn:Hget; [|done].
    apply getattr_arg_nesting in Hget. apply IH; lia.
Qed.

(** A value whose shape can be read is checked as it is. *)
Lemma docval_shape_known (argname : string) (alts : list (list (option nat)))
    (v : Data) (valshape : list (option nat)) :
  get_data_shape v false = Some valshape →
  docval_shape argname alts v =
    (v, if shape_okay_multi valshape alts then []
        else [incorrect_shape argname valshape alts]).
Proof.
  intros Hs. unfold docval_shape.
  by rewrite (shape_loop_known _ _ _ _ Hs).
Qed.

(** A value whose shape cannot be read is replaced by its attribute of the
    argument's name, and that one is checked. *)
Lemma docval_shape_unpacked (argname : string)
    (alts : list (list (option nat))) (v inner : Data)
    (valshape : list (option nat)) :
  get_data_shape v false = None →
  getattr_arg v argname = Some inner →
  get_data_shape inner false = Some valshape →
  docval_shape argname alts v =
    (inner, if shape_okay_multi valshape alts then []
            else [incorrect_shape argname valshape alts]).
Proof.
  intros Hv Hget Hs. unfold docval_shape.
  pose proof (getattr_arg_nesting _ _ _ Hget) as Hlt.
  destruct (nesting v) as [|fuel]; [lia|].
  simpl. rewrite Hv, Hget.
  by rewrite (shape_loop_known _ _ _ _ Hs).
Qed.

Lemma docval_rejects {A} (qualname : string) (value_errors : list string)
    (body : M A) (σ : world) :
  value_errors ≠ [] →
  docval qualname value_errors body σ =
    (σ, Raise (ValueError (docval_message qualname value_errors))).
Proof. by destruct value_errors. Qed.

End DocvalLemmas.

(** A fixed-size dimension admits that size only. *)
Example docval_fixed_size_dimension :
  @docval_shape stored_base stored_docval "features" [[None; Some 2]]
    (Rows [5; 2]) = (Rows [5; 2], []) ∧
  @docval_shape stored_base stored_docval "features" [[None; Some 2]]
    (Rows [5; 3]) =
    (Rows [5; 3],
     ["incorrect shape for 'features' (got '(5, 3)', expected '(None, 2)')"]) ∧
  @docval_shape stored_base stored_docval "features" [[None; Some 2]]
    (Chunks [Some 5; None]) =
    (Chunks [Some 5; None],
     ["incorrect shape for 'features' (got '(5, None)', expected '(None, 2)')"]).
Proof. split_and!; vm_compute; reflexivity. Qed.

(** C5. The shape of a value matches an alternative when the two have the
    same number of dimensions and each dimension of the alternative is that
    size or a [None] placeholder.  docval rejects a value whose shape matches
    none of the alternatives declared for its argument, with an error that
    names the argument, the shape found and the alternatives expected, and
    the constructor then raises before its body runs; a dimension of fixed
    size admits that size only.  With the shapes declared in [ecephys.py]: the data of an [ElectricalSeries] is rejected
    unless it has one, two or three dimensions, and [num] and [times] of a
    [Clustering] unless they have one. *)
Theorem shape_alternatives_enforced `{Hdmf} `{Base} `{!DataUtils} `{!Docval} :
  (∀ valshape alt,
     shape_okay valshape alt = true ↔
     Forall2 (λ a b, b = None ∨ b = a) valshape alt) ∧
  (∀ argname alts v valshape,
     get_data_shape v false = Some valshape →
     (Forall (λ alt, shape_okay valshape alt = false) alts →
        docval_shape argname alts v =
          (v, [incorrect_shape argname valshape alts])) ∧
     (∀ alt, alt ∈ alts → shape_okay valshape alt = true →
        docval_shape argname alts v = (v, []))) ∧
  (∀ argname n v valshape,
     get_data_shape v false = Some valshape →
     docval_shape argname [[Some n]] v =
       (v, if bool_decide (valshape = [Some n]) then []
           else [incorrect_shape argname valshape [[Some n]]])) ∧
  (∀ kw σ valshape,
     get_data_shape (ElectricalSeries.data kw) false = Some valshape →
     ((1 ≤ length valshape ≤ 3)%nat →
        docval_shape "data" ElectricalSeries.data_shape
          (ElectricalSeries.data kw) = (ElectricalSeries.data kw, [])) ∧
     (¬ (1 ≤ length valshape ≤ 3)%nat →
        ∃ errs,
          Decorated.ElectricalSeries___init__ kw σ =
            (σ, Raise (ValueError
               (docval_message "ElectricalSeries.__init__"
                  (incorrect_shape "data" valshape ElectricalSeries.data_shape
                   :: errs)))))) ∧
  (∀ kw σ valshape,
     get_data_shape (Clustering.num kw) false = Some valshape →
     (length valshape = 1 →
        docval_shape "num" Clustering.num_shape (Clustering.num kw) =
          (Clustering.num kw, [])) ∧
     (length valshape ≠ 1 →
        ∃ errs,
          Decorated.Clustering___init__ kw σ =
            (σ, Raise (ValueError
               (docval_message "Clustering.__init__"
                  (incorrect_shape "num" valshape Clustering.num_shape
                   :: errs)))))) ∧
  (∀ kw σ valshape,
     get_data_shape (Clustering.times kw) false = Some valshape →
     (length valshape = 1 →
        docval_shape "times" Clustering.times_shape (Clustering.times kw) =
          (Clustering.times kw, [])) ∧
     (length valshape ≠ 1 →
        ∃ errs,
          Decorated.Clustering___init__ kw σ =
            (σ, Raise (ValueError
               (docval_message "Clustering.__init__"
                  (errs ++
                   [incorrect_shape "times" valshape
                      Clustering.times_shape])))))).
Proof.
  split_and!.
  - apply shape_okay_Forall2.
  - intros argname alts v valshape Hs.
    rewrite (docval_shape_known _ _ _ _ Hs). split.
    + intros Hall. apply shape_okay_multi_false in Hall. by rewrite Hall.
    + intros alt Hin Hok.
      assert (shape_okay_multi valshape alts = true) as ->; [|done].
      apply existsb_exists. exists alt. split; [|done].
      by apply list_elem_of_In.
  - intros argname n v valshape Hs.
    rewrite (docval_shape_known _ _ _ _ Hs).
    unfold shape_okay_multi. simpl.
    by rewrite shape_okay_fixed, orb_false_r.
  - intros kw σ valshape Hs.
    rewrite (docval_shape_known _ _ _ _ Hs), data_shape_rank. split.
    + intros Hrank. by rewrite bool_decide_eq_true_2.
    + intros Hrank. unfold Decorated.ElectricalSeries___init__,
        Decorated.ElectricalSeries_args.
      rewrite (docval_shape_known _ _ _ _ Hs), data_shape_rank.
      rewrite (bool_decide_eq_false_2 _ Hrank).
      eexists. by apply docval_rejects.
  - intros kw σ valshape Hs.
    rewrite (docval_shape_known _ _ _ _ Hs).
    unfold Clustering.num_shape. rewrite vector_shape_rank. split.
    + intros Hrank. by rewrite bool_decide_eq_true_2.
    + intros Hrank. unfold Decorated.Clustering___init__,
        Decorated.Clustering_args.
      rewrite (docval_shape_known _ _ _ _ Hs).
      unfold Clustering.num_shape. rewrite vector_shape_rank.
      rewrite (bool_decide_eq_false_2 _ Hrank).
      destruct (docval_shape "peak_over_rms" _ _) as [peak peak_errors].
      destruct (docval_shape "times" _ _) as [times times_errors].
      eexists. by apply docval_rejects.
  - intros kw σ valshape Hs.
    rewrite (docval_shape_known _ _ _ _ Hs).
    unfold Clustering.times_shape. rewrite vector_shape_rank. split.
    + intros Hrank. by rewrite bool_decide_eq_true_2.
    + intros Hrank. unfold Decorated.Clustering___init__,
        Decorated.Clustering_args.
      rewrite (docval_shape_known "times" _ _ _ Hs).
      unfold Clustering.times_shape. rewrite vector_shape_rank.
      rewrite (bool_decide_eq_false_2 _ Hrank).
      destruct (docval_shape "num" _ _) as [num num_errors].
      destruct (docval_shape "peak_over_rms" _ _) as [peak peak_errors].
      exists (num_errors ++ peak_errors). rewrite <- app_assoc.
      apply docval_rejects. by destruct num_errors, peak_errors.
Qed.

Lemma shape_alternatives_enforced_witness :
  (∃ errs,
     @Decorated.ElectricalSeries___init__ list_hdmf stored_base stored_docval
       (@ElectricalSeries.Kwargs stored_base "es" (Rows [2; 3; 4; 5])
          (MkRegion [0; 1; 2]) None None None tt) world0 =
     (world0, Raise (ValueError
        (@docval_message "ElectricalSeries.__init__"
           ("incorrect shape for 'data' (got '(2, 3, 4, 5)', expected '((None,), (None, None), (None, None, None))')"
            :: errs))))) ∧
  (∃ errs,
     @Decorated.Clustering___init__ list_hdmf stored_base stored_data_utils
       stored_docval
       (@Clustering.Kwargs stored_base "sorted" (Rows [2; 3]) (Rows [4])
          (Rows [4]) "Clustering") world0 =
     (world0, Raise (ValueError
        (@docval_message "Clustering.__init__"
           ("incorrect shape for 'num' (got '(2, 3)', expected '(None,)')"
            :: errs))))).
Proof.
  split.
  - refine (proj2 (proj1 (proj2 (proj2 (proj2
      (@shape_alternatives_enforced list_hdmf stored_base stored_data_utils
         stored_docval))))
      (@ElectricalSeries.Kwargs stored_base "es" (Rows [2; 3; 4; 5])
          (MkRegion [0; 1; 2]) None None None tt) world0
      [Some 2; Some 3; Some 4; Some 5] _) _).
    + reflexivity.
    + simpl. lia.
  - refine (proj2 (proj1 (proj2 (proj2 (proj2 (proj2
      (@shape_alternatives_enforced list_hdmf stored_base stored_data_utils
         stored_docval)))))
      (@Clustering.Kwargs stored_base "sorted" (Rows [2; 3]) (Rows [4])
          (Rows [4]) "Clustering") world0 [Some 2; Some 3] _) _).
    + reflexivity.
    + simpl. lia.
Defined.

Section DecoratedLemmas.
Context `{Hdmf} `{Base} `{!DataUtils} `{!Docval}.

(** What docval hands to the body of [SpikeEventSeries.__init__] for data
    whose shape can be read, and for a [TimeSeries] whose data has a shape
    that can. *)
Lemma spike_event_series_args_known (kw : SpikeEventSeries.kwargs)
    (valshape : list (option nat)) :
  get_data_shape (SpikeEventSeries.data kw) false = Some valshape →
  (1 ≤ length valshape ≤ 3)%nat →
  Decorated.SpikeEventSeries_args kw =
    (kw, base_value_errors None (SpikeEventSeries.rest kw)).
Proof.
  intros Hs Hrank. unfold Decorated.SpikeEventSeries_args.
  rewrite (docval_shape_known _ _ _ _ Hs), data_shape_rank.
  rewrite (bool_decide_eq_true_2 _ Hrank). by destruct kw.
Qed.

Lemma spike_event_series_args_unpacked (kw : SpikeEventSeries.kwargs)
    (inner : Data) (valshape : list (option nat)) :
  get_data_shape (SpikeEventSeries.data kw) false = None →
  getattr_arg (SpikeEventSeries.data kw) "data" = Some inner →
  get_data_shape inner false = Some valshape →
  (1 ≤ length valshape ≤ 3)%nat →
  Decorated.SpikeEventSeries_args kw =
    (SpikeEventSeries.Kwargs (SpikeEventSeries.name kw) inner
       (SpikeEventSeries.timestamps kw) (SpikeEventSeries.electrodes kw)
       (SpikeEventSeries.rest kw),
     base_value_errors None (SpikeEventSeries.rest kw)).
Proof.
  intros Hv Hget Hs Hrank. unfold Decorated.SpikeEventSeries_args.
  rewrite (docval_shape_unpacked _ _ _ _ _ Hv Hget Hs), data_shape_rank.
  by rewrite (bool_decide_eq_true_2 _ Hrank).
Qed.

(** For data whose shape docval accepts as it is, and no error in the other
    arguments, the constructors as a caller reaches them are their bodies. *)
Lemma electrical_series_decorated_known (kw : ElectricalSeries.kwargs)
    (σ : world) (valshape : list (option nat)) :
  get_data_shape (ElectricalSeries.data kw) false = Some valshape →
  (1 ≤ length valshape ≤ 3)%nat →
  docval_shape_optional "channel_conversion"
    ElectricalSeries.channel_conversion_shape
    (ElectricalSeries.channel_conversion kw) = [] →
  base_value_errors (ElectricalSeries.timestamps kw) (ElectricalSeries.rest kw)
    = [] →
  Decorated.ElectricalSeries___init__ kw σ = ElectricalSeries.__init__ kw σ.
Proof.
  intros Hs Hrank Hcc Hbase.
  unfold Decorated.ElectricalSeries___init__, Decorated.ElectricalSeries_args.
  rewrite (docval_shape_known _ _ _ _ Hs), data_shape_rank.
  rewrite (bool_decide_eq_true_2 _ Hrank), Hcc, Hbase. by destruct kw.
Qed.

Lemma spike_event_series_decorated_known (kw : SpikeEventSeries.kwargs)
    (σ : world) (valshape : list (option nat)) :
  get_data_shape (SpikeEventSeries.data kw) false = Some valshape →
  (1 ≤ length valshape ≤ 3)%nat →
  base_value_errors None (SpikeEventSeries.rest kw) = [] →
  base_value_errors (Some (SpikeEventSeries.timestamps kw))
    (SpikeEventSeries.rest kw) = [] →
  Decorated.SpikeEventSeries___init__ kw σ = SpikeEventSeries.__init__ kw σ.
Proof.
  intros Hs Hrank Hbase Hbase'.
  unfold Decorated.SpikeEventSeries___init__.
  rewrite (spike_event_series_args_known _ _ Hs Hrank), Hbase.
  unfold docval, SpikeEventSeries.__init__, SpikeEventSeries.body, bind.
  destruct (_ σ) as [σ1 [[]|e]]; [|done].
  by apply (electrical_series_decorated_known _ _ valshape).
Qed.

End DecoratedLemmas.

(** C10. A [TimeSeries] passed as [data] does not skip the length check of
    [SpikeEventSeries]: the data is declared with a shape, so docval hands
    the data of that [TimeSeries] to the body, where the test
    [isinstance(data, TimeSeries)] is then false; when that data and the
    timestamps are plain arrays of different lengths, the constructor raises
    the exception of the length check. *)
Theorem spike_event_series_checks_unpacked_data
    `{Hdmf} `{Base} `{!DataUtils} `{!Docval}
    (kw : SpikeEventSeries.kwargs) (σ : world) (inner : Data)
    (valshape : list (option nat)) (n m : nat) :
  isinstance_TimeSeries (SpikeEventSeries.data kw) = true →
  get_data_shape (SpikeEventSeries.data kw) false = None →
  getattr_arg (SpikeEventSeries.data kw) "data" = Some inner →
  get_data_shape inner false = Some valshape →
  (1 ≤ length valshape ≤ 3)%nat →
  base_value_errors None (SpikeEventSeries.rest kw) = [] →
  isinstance_TimeSeries inner = false →
  isinstance_DataChunkIterator inner = false →
  isinstance_TimeSeries (SpikeEventSeries.timestamps kw) = false →
  isinstance_DataChunkIterator (SpikeEventSeries.timestamps kw) = false →
  len inner = Return n →
  len (SpikeEventSeries.timestamps kw) = Return m →
  n ≠ m →
  Decorated.SpikeEventSeries___init__ kw σ =
    (σ, Raise (Exception
          "Must provide the same number of timestamps and spike events")).
Proof.
  intros _ Hv Hget Hs Hrank Hbase Hti Hdi Ht Hdt Hn Hm Hnm.
  unfold Decorated.SpikeEventSeries___init__.
  rewrite (spike_event_series_args_unpacked _ _ _ Hv Hget Hs Hrank), Hbase.
  unfold docval, SpikeEventSeries.body. simpl.
  rewrite Hti, Hdi, Ht, Hdt, Hn, Hm. simpl.
  by rewrite (bool_decide_eq_true_2 _ Hnm).
Qed.

Lemma spike_event_series_checks_unpacked_data_witness :
  let kw := @SpikeEventSeries.Kwargs stored_base "spikes"
              (Series "raw" (Rows [5; 2; 30])) (Rows [4]) (MkRegion [0; 1]) tt in
  @isinstance_TimeSeries stored_base (SpikeEventSeries.data kw) = true ∧
  @Decorated.SpikeEventSeries___init__ list_hdmf stored_base stored_docval kw
    world0 =
    (world0, Raise (Exception
               "Must provide the same number of timestamps and spike events")).
Proof.
  intros kw. split; [reflexivity|].
  refine (@spike_event_series_checks_unpacked_data list_hdmf stored_base
            stored_data_utils stored_docval kw world0 (Rows [5; 2; 30])
            [Some 5; Some 2; Some 30] 5 4 _ _ _ _ _ _ _ _ _ _ _ _ _);
    first [reflexivity | discriminate | simpl; lia].
Defined.

(** A [TimeSeries] passed as [timestamps] does skip the check: the
    timestamps are declared without a shape and reach the body as given. *)
Example spike_event_series_timeseries_timestamps :
  let kw := @SpikeEventSeries.Kwargs stored_base "spikes"
              (Rows [5; 2; 30]) (Series "clock" (Rows [4])) (MkRegion [0; 1])
              tt in
  ∃ obj,
    @Decorated.SpikeEventSeries___init__ list_hdmf stored_base stored_docval kw
      world0 = (world0, Return obj).
Proof. intros kw. eexists. vm_compute. reflexivity. Qed.

Section ValidatorLemmas.
Import Validator ValidatorSpec.
Context (ns : gmap string TypeSpec).

(** Induction on a builder tree, with the property known for every child. *)
Lemma Builder_tree_ind (P : Builder → Prop) :
  (∀ t a subs, Forall (λ p, P p.2) subs → P (GroupBuilder t a subs)) →
  (∀ t a d, P (DatasetBuilder t a d)) →
  ∀ b, P b.
Proof.
  intros Hg Hd. fix IH 1. intros [t a subs|t a d]; [|apply Hd].
  apply Hg. induction subs as [|[n sub] subs IHsubs]; constructor.
  - apply IH.
  - apply IHsubs.
Qed.

Lemma validate_at_unfold (path : list string) (b : Builder) :
  validate_at ns path b =
    match resolve ns (builder_type b) with
    | Raise e => Raise e
    | Return s =>
        match validate_subs ns path (builder_subs b) with
        | Raise e => Raise e
        | Return below => Return (check_builder ns path s b ++ below)
        end
    end.
Proof.
  destruct b as [t a subs|t a d]; simpl; [|done].
  destruct (resolve ns t) as [s|e]; [|done].
  match goal with
  | |- match ?walk with _ => _ end = match ?subs with _ => _ end =>
      assert (walk = subs) as ->; [|done]
  end.
  induction subs as [|[n sub] subs IH]; [done|].
  simpl. by rewrite IH.
Qed.

Lemma types_of_unfold (b : Builder) :
  types_of b = builder_type b :: (p ← builder_subs b; types_of p.2).
Proof.
  destruct b as [t a subs|t a d]; simpl; [|done]. f_equal.
  induction subs as [|[n sub] subs IH]; [done|].
  rewrite bind_cons. simpl. by rewrite IH.
Qed.

(** A pass that returns has resolved every type of the tree; one that does
    not return has met a type that is not in the namespace. *)
Lemma validate_at_typed (b : Builder) :
  ∀ path,
    match validate_at ns path b with
    | Return _ => well_typed ns b
    | Raise e =>
        ∃ t, e = UnknownTypeError t ∧ t ∈ types_of b ∧ ns !! t = None
    end.
Proof.
  induction b as [t a subs IH|t a d] using Builder_tree_ind; intros path;
    rewrite validate_at_unfold; unfold well_typed; rewrite types_of_unfold;
    unfold resolve; simpl.
  - destruct (ns !! t) as [s|] eqn:Ht.
    2:{ exists t. split_and!; [done| |done]. apply list_elem_of_here. }
    assert (match validate_subs ns path subs with
            | Return _ =>
                Forall (λ t, is_Some (ns !! t)) (p ← subs; types_of p.2)
            | Raise e =>
                ∃ t, e = UnknownTypeError t ∧
                     t ∈ (p ← subs; types_of p.2) ∧ ns !! t = None
            end) as Hsubs.
    { clear Ht. induction IH as [|[n sub] subs Hsub _ IHsubs].
      - constructor.
      - cbn [validate_subs]. rewrite bind_cons.
        specialize (Hsub (path ++ [n])). simpl in Hsub.
        destruct (validate_at ns (path ++ [n]) sub) as [errors|e].
        + destruct (validate_subs ns path subs) as [rest|e].
          * apply Forall_app. done.
          * destruct IHsubs as (t' & -> & Hin & Hnone).
            exists t'. split_and!; [done| |done].
            apply elem_of_app. by right.
        + destruct Hsub as (t' & -> & Hin & Hnone).
          exists t'. split_and!; [done| |done].
          apply elem_of_app. by left. }
    destruct (validate_subs ns path subs) as [below|e].
    + constructor; [by eexists|done].
    + destruct Hsubs as (t' & -> & Hin & Hnone).
      exists t'. split_and!; [done| |done]. by apply list_elem_of_further.
  - destruct (ns !! t) as [s|] eqn:Ht.
    + constructor; [by eexists|constructor].
    + exists t. split_and!; [done| |done]. apply list_elem_of_here.
Qed.

(** The errors under the children are those under one of them. *)
Lemma validate_subs_elem (path : list string) (subs : list (string * Builder))
    (below : list ValidationError) (e : ValidationError) :
  validate_subs ns path subs = Return below →
  e ∈ below ↔
  ∃ n sub errors, (n, sub) ∈ subs ∧
    validate_at ns (path ++ [n]) sub = Return errors ∧ e ∈ errors.
Proof.
  revert below. induction subs as [|[n sub] subs IH]; intros below; simpl.
  - intros [= <-]. split; [by intros ?%elem_of_nil|].
    by intros (? & ? & ? & ?%elem_of_nil & _).
  - destruct (validate_at ns (path ++ [n]) sub) as [errors|] eqn:Hsub; [|done].
    destruct (validate_subs ns path subs) as [rest|]; [|done].
    intros [= <-]. rewrite elem_of_app, (IH rest eq_refl). split.
    + intros [Hin|(n' & sub' & errors' & Hin & Hrun & He)].
      * exists n, sub, errors. split_and!; [|done..]. apply list_elem_of_here.
      * exists n', sub', errors'. split_and!; [|done..].
        by apply list_elem_of_further.
    + intros (n' & sub' & errors' & Hin & Hrun & He).
      apply elem_of_cons in Hin as [[= -> ->]|Hin].
      * left. congruence.
      * right. eauto 10.
Qed.

Lemma validate_subs_returns (path : list string)
    (subs : list (string * Builder)) (below : list ValidationError)
    (n : string) (sub : Builder) :
  validate_subs ns path subs = Return below → (n, sub) ∈ subs →
  ∃ errors, validate_at ns (path ++ [n]) sub = Return errors.
Proof.
  revert below. induction subs as [|[n' sub'] subs IH]; intros below; simpl.
  - by intros _ ?%elem_of_nil.
  - destruct (validate_at ns (path ++ [n']) sub') as [errors|] eqn:Hsub;
      [|done].
    destruct (validate_subs ns path subs) as [rest|]; [|done].
    intros _ [[= -> ->]|Hin]%elem_of_cons; eauto.
Qed.

Lemma validate_at_Return (path : list string) (b : Builder)
    (errors : list ValidationError) :
  validate_at ns path b = Return errors →
  ∃ s below,
    ns !! builder_type b = Some s ∧
    validate_subs ns path (builder_subs b) = Return below ∧
    errors = check_builder ns path s b ++ below.
Proof.
  rewrite validate_at_unfold. unfold resolve.
  destruct (ns !! builder_type b) as [s|]; [|done].
  destruct (validate_subs ns path (builder_subs b)) as [below|]; [|done].
  intros [= <-]. eauto.
Qed.

(** The errors found at one builder are the violations at that builder. *)
Lemma check_builder_sound (path : list string) (s : TypeSpec) (b : Builder)
    (e : ValidationError) :
  ns !! builder_type b = Some s →
  e ∈ check_builder ns path s b → violation ns path b e.
Proof.
  intros Hs. unfold check_builder. rewrite !elem_of_app.
  intros [Hin|[Hin|[Hin|Hin]]].
  - apply list_elem_of_fmap in Hin as (a & -> & Hin).
    apply list_elem_of_filter in Hin as [Hmiss Hin].
    apply list_elem_of_bind in Hin as (s' & Ha & Hs').
    apply andb_prop in Hmiss as [Hreq Habs].
    apply bool_decide_eq_true in Habs.
    by eapply missing_attribute.
  - apply list_elem_of_fmap in Hin as (c & -> & Hin).
    apply list_elem_of_filter in Hin as [Hmiss Hin].
    apply list_elem_of_bind in Hin as (s' & Hc & Hs').
    apply andb_prop in Hmiss as [Hreq Habs].
    apply bool_decide_eq_true in Habs.
    by eapply missing_child.
  - apply list_elem_of_omap in Hin as (c & Hin & He).
    apply list_elem_of_bind in Hin as (s' & Hc & Hs').
    unfold child_mismatch in He.
    destruct (assoc (child_name c) (builder_subs b)) as [sub|] eqn:Hsub;
      [|done].
    destruct (is_subtype ns (builder_type sub) (child_type c)) eqn:Hsubtype;
      [done|].
    simpl in He. injection He as <-.
    eapply mismatched_child; [done..|].
    intros found Hfound. unfold is_subtype in Hsubtype.
    rewrite Hfound in Hsubtype. by apply bool_decide_eq_false in Hsubtype.
  - destruct (declared_shape s) as [alts|] eqn:Halts; simpl in Hin;
      [|by apply elem_of_nil in Hin].
    unfold shape_violated in Hin.
    destruct (builder_dims b) as [dims|] eqn:Hdims; simpl in Hin;
      [|by apply elem_of_nil in Hin].
    destruct (shape_okay_multi (Some <$> dims) alts) eqn:Hok; simpl in Hin;
      [by apply elem_of_nil in Hin|].
    apply list_elem_of_singleton in Hin as ->.
    eapply violated_shape; [done..|]. by apply shape_okay_multi_false.
Qed.

Lemma validate_at_sound (b : Builder) :
  ∀ path errors e,
    validate_at ns path b = Return errors → e ∈ errors →
    violation ns path b e.
Proof.
  induction b as [t a subs IH|t a d] using Builder_tree_ind;
    intros path errors e Hrun Hin;
    apply validate_at_Return in Hrun as (s & below & Hs & Hsubs & ->);
    apply elem_of_app in Hin as [Hin|Hin];
    try (by eapply check_builder_sound).
  - apply (validate_subs_elem _ _ _ _ Hsubs) in Hin
      as (n & sub & errors & Hsub & Hrun & He).
    eapply (violation_below _ _ _ n sub); [done|].
    rewrite Forall_forall in IH. by eapply (IH _ Hsub).
  - simpl in Hsubs. injection Hsubs as <-. by apply elem_of_nil in Hin.
Qed.

Lemma validate_at_complete (path : list string) (b : Builder)
    (e : ValidationError) :
  violation ns path b e →
  ∀ errors, validate_at ns path b = Return errors → e ∈ errors.
Proof.
  induction 1 as [path b s s' a Hs Hs' Ha Hreq Habs
                 |path b s s' c Hs Hs' Hc Hreq Habs
                 |path b s s' c sub Hs Hs' Hc Hsub Hty
                 |path b s alts dims Hs Halts Hd Hall
                 |path b n sub e Hsub _ IH];
    intros errors Hrun;
    apply validate_at_Return in Hrun as (s0 & below & Hs0 & Hsubs & ->);
    apply elem_of_app.
  - left. assert (s0 = s) as -> by congruence.
    unfold check_builder. rewrite !elem_of_app. left.
    apply list_elem_of_fmap. exists a. split; [done|].
    apply list_elem_of_filter. split.
    + unfold attribute_missing. by rewrite Hreq, Habs.
    + apply list_elem_of_bind. eauto.
  - left. assert (s0 = s) as -> by congruence.
    unfold check_builder. rewrite !elem_of_app. right. left.
    apply list_elem_of_fmap. exists c. split; [done|].
    apply list_elem_of_filter. split.
    + unfold child_missing. by rewrite Hreq, Habs.
    + apply list_elem_of_bind. eauto.
  - left. assert (s0 = s) as -> by congruence.
    unfold check_builder. rewrite !elem_of_app. right. right. left.
    apply list_elem_of_omap. exists c. split.
    + apply list_elem_of_bind. eauto.
    + unfold child_mismatch, is_subtype. rewrite Hsub.
      destruct (ns !! builder_type sub) as [found|] eqn:Hfound; [|done].
      by rewrite (bool_decide_eq_false_2 _ (Hty found eq_refl)).
  - left. assert (s0 = s) as -> by congruence.
    unfold check_builder. rewrite !elem_of_app. right. right. right.
    rewrite Halts. simpl. unfold shape_violated. rewrite Hd.
    apply shape_okay_multi_false in Hall. rewrite Hall. simpl.
    apply list_elem_of_here.
  - right.
    destruct (validate_subs_returns _ _ _ _ _ Hsubs Hsub) as [errors Hrun].
    apply (validate_subs_elem _ _ _ _ Hsubs). eauto 10.
Qed.

(** An error carries the path of the builder it was found at. *)
Lemma check_builder_path (path : list string) (s : TypeSpec) (b : Builder)
    (e : ValidationError) :
  e ∈ check_builder ns path s b → error_path e = path.
Proof.
  unfold check_builder. rewrite !elem_of_app.
  intros [Hin|[Hin|[Hin|Hin]]].
  - by apply list_elem_of_fmap in Hin as (a & -> & _).
  - by apply list_elem_of_fmap in Hin as (c & -> & _).
  - apply list_elem_of_omap in Hin as (c & _ & He).
    by destruct (child_mismatch ns b c); simplify_eq/=.
  - destruct (declared_shape s) as [alts|]; simpl in Hin;
      [|by apply elem_of_nil in Hin].
    destruct (shape_violated b alts); simpl in Hin;
      [|by apply elem_of_nil in Hin].
    by apply list_elem_of_singleton in Hin as ->.
Qed.

Lemma validate_at_path (b : Builder) :
  ∀ path errors e,
    validate_at ns path b = Return errors → e ∈ errors →
    path `prefix_of` error_path e.
Proof.
  induction b as [t a subs IH|t a d] using Builder_tree_ind;
    intros path errors e Hrun Hin;
    apply validate_at_Return in Hrun as (s & below & Hs & Hsubs & ->);
    apply elem_of_app in Hin as [Hin|Hin];
    try (by rewrite (check_builder_path _ _ _ _ Hin)).
  - apply (validate_subs_elem _ _ _ _ Hsubs) in Hin
      as (n & sub & errors & Hsub & Hrun & He).
    rewrite Forall_forall in IH.
    etrans; [|by eapply (IH _ Hsub)]. by apply prefix_app_r.
  - simpl in Hsubs. injection Hsubs as <-. by apply elem_of_nil in Hin.
Qed.

Lemma prefix_same_length {A} (l1 l2 l : list A) :
  l1 `prefix_of` l → l2 `prefix_of` l → length l1 = length l2 → l1 = l2.
Proof.
  intros [k1 ->] [k2 Heq] Hlen. by apply app_inj_1 in Heq as [? _].
Qed.

Lemma NoDup_fmap_filter {A B} (f : A → B) (P : A → Prop)
    `{!∀ x, Decision (P x)} (l : list A) :
  NoDup (f <$> l) → NoDup (f <$> filter P l).
Proof.
  intros Hnodup. eapply sublist_NoDup; [exact Hnodup|].
  apply fmap_sublist, sublist_filter.
Qed.

(** No error is listed twice at one builder. *)
Lemma check_builder_NoDup (path : list string) (s : TypeSpec) (b : Builder) :
  NoDup ((attr_name <$> declared_attributes s) ++
         (child_name <$> declared_children s)) →
  NoDup (check_builder ns path s b).
Proof.
  intros Hnames. apply NoDup_app in Hnames as (Hattrs & Hdisj & Hchildren).
  unfold check_builder.
  apply NoDup_app. split_and!.
  { change (λ a, MissingError path (attr_name a))
      with (MissingError path ∘ attr_name).
    rewrite list_fmap_compose.
    assert (Inj (=) (=) (MissingError path)) by (by intros ?? [=]).
    apply (NoDup_fmap_2 _).
    by apply NoDup_fmap_filter. }
  { intros e Hin. rewrite !elem_of_app. intros [Hin'|[Hin'|Hin']].
    - apply list_elem_of_fmap in Hin as (a & -> & Ha).
      apply list_elem_of_fmap in Hin' as (c & [= Hac] & Hc).
      apply list_elem_of_filter in Ha as [_ Ha].
      apply list_elem_of_filter in Hc as [_ Hc].
      apply (Hdisj (attr_name a)).
      + apply list_elem_of_fmap. eauto.
      + rewrite Hac. apply list_elem_of_fmap. eauto.
    - apply list_elem_of_fmap in Hin as (a & -> & Ha).
      apply list_elem_of_omap in Hin' as (c & _ & He).
      by destruct (child_mismatch ns b c).
    - apply list_elem_of_fmap in Hin as (a & -> & Ha).
      destruct (declared_shape s) as [alts|]; simpl in Hin';
        [|by apply elem_of_nil in Hin'].
      destruct (shape_violated b alts); simpl in Hin';
        [|by apply elem_of_nil in Hin'].
      by apply list_elem_of_singleton in Hin'. }
  apply NoDup_app. split_and!.
  { change (λ c, MissingError path (child_name c))
      with (MissingError path ∘ child_name).
    rewrite list_fmap_compose.
    assert (Inj (=) (=) (MissingError path)) by (by intros ?? [=]).
    apply (NoDup_fmap_2 _).
    by apply NoDup_fmap_filter. }
  { intros e Hin. rewrite !elem_of_app. intros [Hin'|Hin'].
    - apply list_elem_of_fmap in Hin as (a & -> & Ha).
      apply list_elem_of_omap in Hin' as (c & _ & He).
      by destruct (child_mismatch ns b c).
    - apply list_elem_of_fmap in Hin as (a & -> & Ha).
      destruct (declared_shape s) as [alts|]; simpl in Hin';
        [|by apply elem_of_nil in Hin'].
      destruct (shape_violated b alts); simpl in Hin';
        [|by apply elem_of_nil in Hin'].
      by apply list_elem_of_singleton in Hin'. }
  apply NoDup_app. split_and!.
  { clear Hdisj Hattrs. induction (declared_children s) as [|c cs IH];
      [constructor|].
    rewrite fmap_cons in Hchildren. apply NoDup_cons in Hchildren as [Hc Hcs].
    change (omap ?f (c :: cs))
      with (match f c with Some y => y :: omap f cs | None => omap f cs end).
    simpl. destruct (child_mismatch ns b c) as [found|]; simpl; [|by apply IH].
    apply NoDup_cons. split; [|by apply IH].
    intros Hin. apply list_elem_of_omap in Hin as (c' & Hc' & He).
    destruct (child_mismatch ns b c'); simplify_eq/=.
    apply Hc. apply list_elem_of_fmap. eauto. }
  { intros e Hin Hin'.
    apply list_elem_of_omap in Hin as (c & _ & He).
    destruct (declared_shape s) as [alts|]; simpl in Hin';
      [|by apply elem_of_nil in Hin'].
    destruct (shape_violated b alts); simpl in Hin';
      [|by apply elem_of_nil in Hin'].
    apply list_elem_of_singleton in Hin' as ->.
    by destruct (child_mismatch ns b c). }
  destruct (declared_shape s) as [alts|]; simpl; [|constructor].
  destruct (shape_violated b alts); simpl; [|constructor].
  apply NoDup_singleton.
Qed.

(** No error is listed twice in the report. *)
Lemma validate_at_NoDup (b : Builder) :
  no_collisions ns → unique_names b →
  ∀ path errors, validate_at ns path b = Return errors → NoDup errors.
Proof.
  intros Hns.
  induction b as [t a subs IH|t a d] using Builder_tree_ind;
    intros Hb path errors Hrun;
    apply validate_at_Return in Hrun as (s & below & Hs & Hsubs & ->).
  - simpl in Hsubs. inversion Hb as [|? ? ? Hnames Hall]; subst.
    apply NoDup_app. split_and!.
    + eapply check_builder_NoDup, Hns, Hs.
    + intros e Hin Hin'. apply check_builder_path in Hin.
      apply (validate_subs_elem _ _ _ _ Hsubs) in Hin'
        as (n & sub & errors & Hsub & Hrun & He).
      apply (validate_at_path _ _ _ _ Hrun) in He.
      rewrite Hin in He. apply prefix_length in He.
      rewrite length_app in He. simpl in He. lia.
    + clear Hs Hb. revert below Hsubs.
      induction IH as [|[n sub] subs Hsub _ IHsubs]; intros below; simpl.
      * intros [= <-]. constructor.
      * destruct (validate_at ns (path ++ [n]) sub) as [errors|] eqn:Hrun;
          [|done].
        destruct (validate_subs ns path subs) as [rest|] eqn:Hrest; [|done].
        intros [= <-].
        rewrite fmap_cons in Hnames. apply NoDup_cons in Hnames as [Hn Hnames].
        apply Forall_cons in Hall as [Hu Hall].
        apply NoDup_app. split_and!.
        -- by eapply Hsub.
        -- intros e Hin Hin'.
           apply (validate_at_path _ _ _ _ Hrun) in Hin.
           apply (validate_subs_elem _ _ _ _ Hrest) in Hin'
             as (n' & sub' & errors' & Hsub' & Hrun' & He).
           apply (validate_at_path _ _ _ _ Hrun') in He.
           assert (path ++ [n] = path ++ [n']) as Heq.
           { eapply prefix_same_length; [done..|]. by rewrite !length_app. }
           apply app_inj_1 in Heq as [_ [= ->]]; [|done].
           apply Hn. apply list_elem_of_fmap. by exists (n', sub').
        -- by apply IHsubs.
  - simpl in Hsubs. injection Hsubs as <-. rewrite app_nil_r.
    eapply check_builder_NoDup, Hns, Hs.
Qed.

End ValidatorLemmas.

(** A tree with a builder of a type that the namespace does not hold. *)
Example validate_unknown_type :
  validate
    (MkHDMFIO
       (Return (Validator.GroupBuilder "Series"
                  [("description", "d"); ("unit", "u")]
                  [("data", Validator.DatasetBuilder "Mystery" [] [2])]))
       {[ CORE_NAMESPACE := example_namespace ]})
    CORE_NAMESPACE = Raise (UnknownTypeError "Mystery").
Proof. vm_compute. reflexivity. Qed.

(** C3. [validate(io, namespace)] makes one pass over the tree read from
    [io].  If a builder of the tree has a type that the namespace does not
    hold, resolving it fails with [UnknownTypeError].  Otherwise the pass
    returns the whole report: an error is in the list exactly when it is a
    violation somewhere in the tree, and (names being unique, as the data
    model requires) no error is listed twice; so a tree whose violations are
    two missing required fields and one shape violation gives a list of
    exactly these three errors. *)
Theorem validate_reports_every_error
    (io : HDMFIO) (namespace : string)
    (ns : gmap string Validator.TypeSpec) (b : Validator.Builder) :
  read_builder io = Return b →
  namespace_catalog io !! namespace = Some ns →
  (¬ ValidatorSpec.well_typed ns b →
     ∃ t, t ∈ ValidatorSpec.types_of b ∧ ns !! t = None ∧
          validate io namespace = Raise (UnknownTypeError t)) ∧
  (ValidatorSpec.well_typed ns b →
     ∃ errors,
       validate io namespace = Return errors ∧
       (∀ e, e ∈ errors ↔ ValidatorSpec.violation ns [] b e) ∧
       (ValidatorSpec.no_collisions ns → ValidatorSpec.unique_names b →
          NoDup errors ∧
          ∀ p1 f1 p2 f2 p3 alts dims,
            (p1, f1) ≠ (p2, f2) →
            (∀ e, ValidatorSpec.violation ns [] b e ↔
                  e = Validator.MissingError p1 f1 ∨
                  e = Validator.MissingError p2 f2 ∨
                  e = Validator.ShapeError p3 alts dims) →
            errors ≡ₚ [Validator.MissingError p1 f1;
                       Validator.MissingError p2 f2;
                       Validator.ShapeError p3 alts dims] ∧
            length errors = 3)).
Proof.
  intros Hread Hns.
  unfold validate, get_namespace. rewrite Hread, Hns.
  unfold Validator.validate.
  pose proof (validate_at_typed ns b []) as Htyped.
  split.
  - intros Hnot.
    destruct (Validator.validate_at ns [] b) as [errors|e]; [done|].
    destruct Htyped as (t & -> & Hin & Hnone). eauto.
  - intros Hwt.
    destruct (Validator.validate_at ns [] b) as [errors|e] eqn:Hrun.
    2:{ destruct Htyped as (t & -> & Hin & Hnone).
        unfold ValidatorSpec.well_typed in Hwt. rewrite Forall_forall in Hwt.
        destruct (Hwt t Hin) as [s Hs]. congruence. }
    exists errors. split; [done|].
    assert (∀ e, e ∈ errors ↔ ValidatorSpec.violation ns [] b e) as Hiff.
    { intros e. split.
      - by apply validate_at_sound.
      - intros Hv. by eapply validate_at_complete. }
    split; [done|]. intros Hnc Hun.
    assert (NoDup errors) as Hnodup by (by eapply validate_at_NoDup).
    split; [done|].
    intros p1 f1 p2 f2 p3 alts dims Hne Hthree.
    assert (errors ≡ₚ [Validator.MissingError p1 f1;
                       Validator.MissingError p2 f2;
                       Validator.ShapeError p3 alts dims]) as Hperm.
    { apply NoDup_Permutation; [done| |].
      - apply NoDup_cons. split.
        + intros [[= -> ->]|[[=]|[]%elem_of_nil]%elem_of_cons]%elem_of_cons.
          done.
        + apply NoDup_cons. split; [|apply NoDup_singleton].
          by intros [=]%list_elem_of_singleton.
      - intros e. rewrite Hiff, Hthree, !elem_of_cons, elem_of_nil. tauto. }
    split; [done|]. by rewrite Hperm.
Qed.

Lemma validate_reports_every_error_witness :
  validate example_io CORE_NAMESPACE =
    Return [Validator.MissingError [] "description";
            Validator.MissingError [] "unit";
            Validator.ShapeError ["data"] [[None]] [2; 3]] ∧
  ∃ errors, validate example_io CORE_NAMESPACE = Return errors ∧
            NoDup errors ∧ length errors = 3.
Proof.
  assert (validate example_io CORE_NAMESPACE =
    Return [Validator.MissingError [] "description";
            Validator.MissingError [] "unit";
            Validator.ShapeError ["data"] [[None]] [2; 3]]) as Hconcrete
    by (vm_compute; reflexivity).
  split; [exact Hconcrete|].
  destruct (proj2 (validate_reports_every_error example_io CORE_NAMESPACE
              example_namespace example_builder eq_refl
              ltac:(vm_compute; reflexivity)))
    as (errors & Hrun & Hiff & Hthree).
  - apply (bool_decide_unpack _). vm_compute. exact I.
  - exists errors. split; [exact Hrun|].
    destruct Hthree as [Hnodup Hthree].
    + intros t s Hs. unfold example_namespace in Hs.
      apply lookup_insert_Some in Hs as [[<- <-]|[_ Hs]].
      * apply (bool_decide_unpack _). vm_compute. exact I.
      * apply lookup_singleton_Some in Hs as [<- <-].
        apply (bool_decide_unpack _). vm_compute. exact I.
    + repeat constructor; set_solver.
    + split; [exact Hnodup|].
      refine (proj2 (Hthree [] "description" [] "unit" ["data"] [[None]]
                       [2; 3] _ _)); [discriminate|].
      intros e. rewrite <- Hiff.
      rewrite Hrun in Hconcrete. injection Hconcrete as ->.
      rewrite !elem_of_cons, elem_of_nil. tauto.
Defined.

(** * Further properties of [pynwb/__init__.py] *)

Section GetTypeMapMore.
Context `{Hdmf}.

Lemma bind_bind_ret {A} (m : M unit) (a : A) (σ : world) :
  bind (bind m (λ _, ret tt)) (λ _, ret a) σ = bind m (λ _, ret a) σ.
Proof. unfold bind, ret. by destruct (m σ) as [σ' [[]|e]]. Qed.

(** A loop that meets an element that is neither a path nor a [TypeMap]
    does not end normally. *)
Lemma for_each_take_in_other (tm : loc) (items : list extension_item) :
  ItemOther ∈ items →
  ∀ σ : world, ∃ e, (for_each (take_in tm) items σ).2 = Raise e.
Proof.
  induction items as [|i items IH]; intros Hin σ.
  - by apply elem_of_nil in Hin.
  - simpl. unfold bind.
    destruct (take_in tm i σ) as [σ1 [[]|e]] eqn:Hstep; [|eauto].
    apply elem_of_cons in Hin as [<-|Hin]; [discriminate|].
    by apply IH.
Qed.

End GetTypeMapMore.

(** X1. A list that holds one path is the same request as the path, and an
    empty list the same request as [None]: same store, same result. *)
Theorem get_type_map_short_lists `{Hdmf} (σ : world) (p : string) :
  get_type_map (ExtList [ItemStr p]) σ = get_type_map (ExtStr p) σ ∧
  get_type_map (ExtList []) σ = get_type_map ExtNone σ.
Proof.
  unfold get_type_map. simpl. split.
  - destruct (deepcopy __TYPE_MAP σ) as [σ1 r] eqn:Hcopy.
    rewrite !(bind_run _ _ _ _ _ Hcopy). destruct r as [l|e]; [|done].
    apply bind_bind_ret.
  - destruct (deepcopy __TYPE_MAP σ) as [σ1 r] eqn:Hcopy.
    rewrite (bind_run _ _ _ _ _ Hcopy). by destruct r.
Qed.

(** X2. A [TypeMap] passed as [extensions] is not copied: it is merged with
    itself in place and it is the object returned (unless the merge raises);
    no object is created. *)
Theorem get_type_map_reuses_the_extension `{Hdmf}
    (σ : world) (l : loc) (v : TypeMap) :
  heap σ !! l = Some v →
  get_type_map (ExtTypeMap l) σ =
    (World (<[l := (TypeMap_merge v v).1]> (heap σ)) (warnlog σ),
     outcome_of l (TypeMap_merge v v).2) ∧
  dom (heap (get_type_map (ExtTypeMap l) σ).1) = dom (heap σ).
Proof.
  intros Hv.
  assert (get_type_map (ExtTypeMap l) σ =
    (World (<[l := (TypeMap_merge v v).1]> (heap σ)) (warnlog σ),
     outcome_of l (TypeMap_merge v v).2)) as Hrun.
  { unfold get_type_map. simpl. rewrite bind_ret_l.
    unfold bind, tm_merge, call_method. rewrite Hv.
    by destruct (TypeMap_merge v v) as [v' [e|]]. }
  split; [done|]. rewrite Hrun. simpl.
  apply dom_insert_lookup_L. eauto.
Qed.

Lemma get_type_map_reuses_the_extension_witness :
  let σ := @World list_hdmf {[ __TYPE_MAP := ["core"]; 5%positive := ["ndx"] ]} [] in
  dom (heap (@get_type_map list_hdmf (ExtTypeMap 5) σ).1) = dom (heap σ).
Proof.
  intros σ.
  refine (proj2 (@get_type_map_reuses_the_extension list_hdmf σ 5%positive
                   ["ndx"] _)).
  reflexivity.
Defined.

(** X3. [get_type_map] leaves every object of the store as it is, except a
    [TypeMap] passed directly as [extensions]: the type maps named inside a
    list are read, never written. *)
Theorem get_type_map_keeps_other_objects `{Hdmf}
    (σ : world) (ext : extensions_arg) (l : loc) :
  is_Some (heap σ !! l) →
  ext ≠ ExtTypeMap l →
  heap (get_type_map ext σ).1 !! l = heap σ !! l.
Proof.
  intros Hl Hext. apply get_type_map_writes; [done|].
  intros _. by apply fresh_ne_bound.
Qed.

Lemma get_type_map_keeps_other_objects_witness :
  let σ := @World list_hdmf {[ __TYPE_MAP := ["core"]; 5%positive := ["ndx"] ]} [] in
  heap (@get_type_map list_hdmf
          (ExtList [ItemTypeMap 5; ItemStr "lab.namespace.yaml"]) σ).1
    !! 5%positive = Some ["ndx"].
Proof.
  intros σ.
  refine (@get_type_map_keeps_other_objects list_hdmf σ
            (ExtList [ItemTypeMap 5; ItemStr "lab.namespace.yaml"]) 5%positive
            _ _).
  - by eexists.
  - discriminate.
Defined.

(** X4. A list with an element that is neither a path nor a [TypeMap] never
    yields a type map: the call raises, whatever else the list holds. *)
Theorem get_type_map_rejects_other_elements `{Hdmf}
    (σ : world) (exts : list extension_item) :
  ItemOther ∈ exts →
  ∃ e, (get_type_map (ExtList exts) σ).2 = Raise e.
Proof.
  intros Hin. unfold get_type_map. simpl. unfold bind at 1.
  destruct (deepcopy __TYPE_MAP σ) as [σ1 [tm|e]]; [|eauto].
  change (for_each _ exts) with (for_each (take_in tm) exts).
  destruct (for_each_take_in_other tm exts Hin σ1) as [e He].
  exists e. unfold bind.
  destruct (for_each (take_in tm) exts σ1) as [σ2 r]. simpl in He.
  by subst r.
Qed.

Lemma get_type_map_rejects_other_elements_witness :
  (@get_type_map list_hdmf (ExtList [ItemStr "a.yaml"; ItemOther]) world0).2 =
    Raise (ValueError
      "extensions must be a list of paths to namespace specs or a TypeMaps").
Proof.
  destruct (@get_type_map_rejects_other_elements list_hdmf world0
              [ItemStr "a.yaml"; ItemOther]) as [e He].
  - set_unfold. right. left. reflexivity.
  - reflexivity.
Defined.

(** X5. Two calls of [get_manager()] give managers over two different type
    maps, each a copy of the default and neither the default itself. *)
Theorem get_manager_twice_independent `{Hdmf} (σ : world) (dflt : TypeMap) :
  heap σ !! __TYPE_MAP = Some dflt →
  ∃ σ' m1 m2,
    (let* m1 := get_manager ExtNone in
     let* m2 := get_manager ExtNone in
     ret (m1, m2)) σ = (σ', Return (m1, m2)) ∧
    bm_type_map m1 ≠ bm_type_map m2 ∧
    bm_type_map m1 ≠ __TYPE_MAP ∧ bm_type_map m2 ≠ __TYPE_MAP ∧
    heap σ' !! bm_type_map m1 = Some dflt ∧
    heap σ' !! bm_type_map m2 = Some dflt ∧
    heap σ' !! __TYPE_MAP = Some dflt.
Proof.
  intros Hd.
  set (l1 := fresh (dom (heap σ))).
  assert (l1 ≠ __TYPE_MAP) as Hl1 by (apply fresh_ne_bound; eauto).
  set (σ1 := with_copy σ dflt).
  assert (heap σ1 !! __TYPE_MAP = Some dflt) as Hd1.
  { subst σ1. unfold with_copy. simpl. by rewrite lookup_insert_ne. }
  assert (heap σ1 !! l1 = Some dflt) as Hl1v.
  { subst σ1. unfold with_copy. simpl. by rewrite lookup_insert_eq. }
  set (l2 := fresh (dom (heap σ1))).
  assert (l2 ≠ __TYPE_MAP) as Hl2 by (apply fresh_ne_bound; eauto).
  assert (l2 ≠ l1) as Hl21 by (apply fresh_ne_bound; eauto).
  exists (with_copy σ1 dflt), (MkBuildManager l1), (MkBuildManager l2).
  assert (∀ l, l ≠ l2 → heap (with_copy σ1 dflt) !! l = heap σ1 !! l) as Hkeep.
  { intros l Hl. unfold with_copy at 1. simpl. fold l2.
    by rewrite lookup_insert_ne. }
  assert (heap (with_copy σ1 dflt) !! l2 = Some dflt) as Hl2v.
  { unfold with_copy at 1. simpl. fold l2. by rewrite lookup_insert_eq. }
  split_and!.
  - rewrite (bind_run _ _ _ _ _ (get_manager_None_run σ dflt Hd)).
    by rewrite (bind_run _ _ _ _ _ (get_manager_None_run σ1 dflt Hd1)).
  - intros Heq. apply Hl21. symmetry. exact Heq.
  - exact Hl1.
  - exact Hl2.
  - change (heap (with_copy σ1 dflt) !! l1 = Some dflt). by rewrite Hkeep.
  - exact Hl2v.
  - by rewrite Hkeep.
Qed.

Lemma get_manager_twice_independent_witness :
  ∃ σ' m1 m2,
    (let* m1 := @get_manager list_hdmf ExtNone in
     let* m2 := @get_manager list_hdmf ExtNone in
     ret (m1, m2)) world0 = (σ', Return (m1, m2)) ∧
    bm_type_map m1 ≠ bm_type_map m2.
Proof.
  destruct (@get_manager_twice_independent list_hdmf world0 ["core"])
    as (σ' & m1 & m2 & Hrun & Hne & _).
  - reflexivity.
  - exists σ', m1, m2. split; [exact Hrun | exact Hne].
Defined.

(** X6. Loading a namespace into the default and then asking for a type map,
    or asking for a type map with that namespace as extension, return maps
    with the same contents; the first changes the default, the second does
    not. *)
Theorem load_then_copy_or_copy_then_load `{Hdmf}
    (σ : world) (p : string) (dflt : TypeMap) :
  heap σ !! __TYPE_MAP = Some dflt →
  (TypeMap_load_namespaces dflt p).2 = None →
  let loaded := (TypeMap_load_namespaces dflt p).1 in
  let first := (load_namespaces p >> get_type_map ExtNone) σ in
  let second := get_type_map (ExtStr p) σ in
  ∃ l1 l2,
    first.2 = Return l1 ∧ second.2 = Return l2 ∧
    heap first.1 !! l1 = Some loaded ∧
    heap second.1 !! l2 = Some loaded ∧
    heap first.1 !! __TYPE_MAP = Some loaded ∧
    heap second.1 !! __TYPE_MAP = Some dflt.
Proof.
  intros Hd Hok loaded first second.
  assert (fresh (dom (heap σ)) ≠ __TYPE_MAP) as Hfresh
    by (apply fresh_ne_bound; eauto).
  set (σ1 := World (<[__TYPE_MAP := loaded]> (heap σ)) (warnlog σ)).
  assert (load_namespaces p σ = (σ1, Return tt)) as Hload.
  { unfold load_namespaces, tm_load_namespaces, call_method. rewrite Hd.
    subst loaded σ1. by destruct (TypeMap_load_namespaces dflt p) as [v' [e|]]. }
  assert (heap σ1 !! __TYPE_MAP = Some loaded) as Hd1.
  { subst σ1. simpl. by rewrite lookup_insert_eq. }
  assert (fresh (dom (heap σ1)) ≠ __TYPE_MAP) as Hfresh1
    by (apply fresh_ne_bound; eauto).
  assert (first =
            (World (<[fresh (dom (heap σ1)) := loaded]> (heap σ1)) (warnlog σ1),
             Return (fresh (dom (heap σ1))))) as Hfirst.
  { subst first. rewrite (bind_run _ _ _ _ _ Hload).
    exact (deepcopy_bound σ1 __TYPE_MAP loaded Hd1). }
  destruct (get_type_map_run (ExtStr p) σ dflt Hd) as [Hst2 Hres2];
    [repeat constructor|].
  fold second in Hst2, Hres2. simpl in Hst2, Hres2.
  assert (TypeMap_load_namespaces dflt p = (loaded, None)) as Hp.
  { subst loaded. destruct (TypeMap_load_namespaces dflt p) as [v' r].
    simpl in *. by subst r. }
  rewrite Hp in Hst2, Hres2. simpl in Hst2, Hres2.
  exists (fresh (dom (heap σ1))), (fresh (dom (heap σ))).
  rewrite Hfirst. simpl.
  split_and!; try done.
  - by rewrite lookup_insert_eq.
  - by rewrite lookup_insert_ne, lookup_insert_eq.
  - subst second. rewrite get_type_map_writes; [done|discriminate|done].
Qed.

Lemma load_then_copy_or_copy_then_load_witness :
  ∃ l1 l2,
    ((@load_namespaces list_hdmf "ndx.yaml" >> get_type_map ExtNone) world0).2
      = Return l1 ∧
    (@get_type_map list_hdmf (ExtStr "ndx.yaml") world0).2 = Return l2.
Proof.
  destruct (@load_then_copy_or_copy_then_load list_hdmf world0 "ndx.yaml"
              ["core"]) as (l1 & l2 & H1 & H2 & _).
  - reflexivity.
  - reflexivity.
  - exists l1, l2. split; [exact H1 | exact H2].
Defined.

Section RegisterClass.
Context `{Hdmf} `{!Registry}.

(** Registering writes the registration into the default type map. *)
Lemma register_class_direct_run (nt ns : string) (cls : PyClass) (σ : world)
    (v : TypeMap) :
  heap σ !! __TYPE_MAP = Some v →
  register_class nt ns (Some cls) σ =
    (World (<[__TYPE_MAP := (TypeMap_register_container_type v ns nt cls).1]>
              (heap σ)) (warnlog σ),
     outcome_of None (TypeMap_register_container_type v ns nt cls).2).
Proof.
  intros Hv. unfold register_class, bind, call_method, ret. rewrite Hv.
  by destruct (TypeMap_register_container_type v ns nt cls) as [v' [e|]].
Qed.

End RegisterClass.

(** X7. The two ways of calling [register_class] do the same to the store:
    without a class nothing happens and a decorator is returned; applying
    the decorator to a class registers it in the default type map (and gives
    the class back), exactly as passing the class directly does (which gives
    nothing back). *)
Theorem register_class_decorator_or_direct `{Hdmf} `{!Registry}
    (nt ns : string) (cls : PyClass) (σ : world) (v : TypeMap) :
  heap σ !! __TYPE_MAP = Some v →
  (TypeMap_register_container_type v ns nt cls).2 = None →
  ∃ dec,
    register_class nt ns None σ = (σ, Return (Some dec)) ∧
    (dec cls σ).2 = Return cls ∧
    (register_class nt ns (Some cls) σ).2 = Return None ∧
    (dec cls σ).1 = (register_class nt ns (Some cls) σ).1 ∧
    heap (dec cls σ).1 =
      <[__TYPE_MAP := (TypeMap_register_container_type v ns nt cls).1]> (heap σ).
Proof.
  intros Hv Hok. eexists. split; [reflexivity|].
  rewrite (register_class_direct_run nt ns cls σ v Hv).
  unfold bind, call_method, ret. rewrite Hv.
  destruct (TypeMap_register_container_type v ns nt cls) as [v' r].
  simpl in Hok. subst r. done.
Qed.

Lemma register_class_decorator_or_direct_witness :
  ∃ dec,
    @register_class list_hdmf list_registry "ElectrodeGroup" "core" None world0
      = (world0, Return (Some dec)) ∧
    (dec "ElectrodeGroup" world0).2 = Return "ElectrodeGroup".
Proof.
  destruct (@register_class_decorator_or_direct list_hdmf list_registry
              "ElectrodeGroup" "core" "ElectrodeGroup" world0 ["core"])
    as (dec & Hnone & Hdec & _).
  - reflexivity.
  - reflexivity.
  - exists dec. split; [exact Hnone | exact Hdec].
Defined.

(** X8. A type map obtained from [get_type_map()] before a class is
    registered does not learn of the registration; one obtained afterwards
    holds it. *)
Theorem register_class_after_or_before_copy `{Hdmf} `{!Registry}
    (nt ns : string) (cls : PyClass) (σ : world) (dflt : TypeMap) :
  heap σ !! __TYPE_MAP = Some dflt →
  (TypeMap_register_container_type dflt ns nt cls).2 = None →
  let registered := (TypeMap_register_container_type dflt ns nt cls).1 in
  let early :=
    (let* tm := get_type_map ExtNone in
     register_class nt ns (Some cls) >> ret tm) σ in
  let late := (register_class nt ns (Some cls) >> get_type_map ExtNone) σ in
  ∃ l1 l2,
    early.2 = Return l1 ∧ late.2 = Return l2 ∧
    heap early.1 !! l1 = Some dflt ∧
    heap late.1 !! l2 = Some registered ∧
    heap early.1 !! __TYPE_MAP = Some registered ∧
    heap late.1 !! __TYPE_MAP = Some registered.
Proof.
  intros Hd Hok registered early late.
  assert (TypeMap_register_container_type dflt ns nt cls = (registered, None))
    as Hreg.
  { subst registered.
    destruct (TypeMap_register_container_type dflt ns nt cls) as [v' r].
    simpl in *. by subst r. }
  assert (fresh (dom (heap σ)) ≠ __TYPE_MAP) as Hfresh
    by (apply fresh_ne_bound; eauto).
  set (σc := World (<[fresh (dom (heap σ)) := dflt]> (heap σ)) (warnlog σ)).
  assert (heap σc !! __TYPE_MAP = Some dflt) as Hdc.
  { subst σc. simpl. by rewrite lookup_insert_ne. }
  set (σr := World (<[__TYPE_MAP := registered]> (heap σ)) (warnlog σ)).
  assert (heap σr !! __TYPE_MAP = Some registered) as Hdr.
  { subst σr. simpl. by rewrite lookup_insert_eq. }
  assert (fresh (dom (heap σr)) ≠ __TYPE_MAP) as Hfreshr
    by (apply fresh_ne_bound; eauto).
  assert (early =
            (World (<[__TYPE_MAP := registered]> (heap σc)) (warnlog σc),
             Return (fresh (dom (heap σ))))) as Hearly.
  { subst early.
    rewrite (bind_run _ _ _ _ _ (deepcopy_bound σ __TYPE_MAP dflt Hd)).
    fold σc.
    rewrite (bind_run _ _ _ _ _ (register_class_direct_run nt ns cls σc dflt Hdc)).
    by rewrite Hreg. }
  assert (late =
            (World (<[fresh (dom (heap σr)) := registered]> (heap σr)) (warnlog σr),
             Return (fresh (dom (heap σr))))) as Hlate.
  { subst late.
    rewrite (bind_run _ _ _ _ _ (register_class_direct_run nt ns cls σ dflt Hd)).
    rewrite Hreg. simpl.
    exact (deepcopy_bound σr __TYPE_MAP registered Hdr). }
  exists (fresh (dom (heap σ))), (fresh (dom (heap σr))).
  rewrite Hearly, Hlate. simpl.
  split_and!; try done.
  - by rewrite lookup_insert_ne, lookup_insert_eq.
  - by rewrite lookup_insert_eq.
  - by rewrite lookup_insert_eq.
  - by rewrite lookup_insert_ne, lookup_insert_eq.
Qed.

Lemma register_class_after_or_before_copy_witness :
  ∃ l1,
    ((let* tm := @get_type_map list_hdmf ExtNone in
      @register_class list_hdmf list_registry "LabSeries" "ndx-lab"
        (Some "LabSeries") >> ret tm) world0).2 = Return l1 ∧
    heap ((let* tm := @get_type_map list_hdmf ExtNone in
           @register_class list_hdmf list_registry "LabSeries" "ndx-lab"
             (Some "LabSeries") >> ret tm) world0).1 !! l1 = Some ["core"].
Proof.
  destruct (@register_class_after_or_before_copy list_hdmf list_registry
              "LabSeries" "ndx-lab" "LabSeries" world0 ["core"])
    as (l1 & l2 & H1 & _ & H3 & _).
  - reflexivity.
  - reflexivity.
  - exists l1. split; [exact H1 | exact H3].
Defined.

Section LoadNamespacesMore.
Context `{Hdmf}.
Import NWBHDF5IO.

(** What the constructor does with [load_namespaces=True], case by case. *)
Lemma init_with_load_run (kw : kwargs) (σ : world) :
  load_namespaces kw = true →
  let ws := warnlog σ ++ ignored_warnings kw in
  let tm := fresh (dom (heap σ)) in
  __init__ kw σ =
    if str_in "w" (mode kw) || str_eq (mode kw) "x" then
      (World (heap σ) ws,
       Raise (ValueError "cannot load namespaces from file when writing to it"))
    else
      match heap σ !! __TYPE_MAP with
      | None => (World (heap σ) ws, Raise (NameError "unbound object"))
      | Some dflt =>
          let loaded :=
            HDF5IO_load_namespaces dflt (path kw) (file kw) (driver kw) in
          (World (<[tm := loaded.1]> (<[tm := dflt]> (heap σ)))
             (ws ++ HDF5IO_load_namespaces_warnings dflt (path kw) (file kw)
                      (driver kw)),
           match loaded.2 with
           | Some e => Raise e
           | None =>
               outcome_of (Session (session_args kw (MkBuildManager tm)))
                 (HDF5IO_init (session_args kw (MkBuildManager tm)))
           end)
      end.
Proof.
  intros Hl ws tm.
  assert (__init__ kw σ =
    (when (str_in "w" (mode kw) || str_eq (mode kw) "x")
       (raise (ValueError
                 "cannot load namespaces from file when writing to it")) >>
     let* m :=
       (let* tm := get_type_map ExtNone in
        super_load_namespaces tm (path kw) (file kw) (driver kw) >>
        ret (MkBuildManager tm)) in
     super___init__ (session_args kw m)) (World (heap σ) ws)) as ->.
  { unfold __init__. rewrite Hl. subst ws. unfold ignored_warnings.
    destruct σ as [h w0].
    destruct (manager kw), (extensions kw); simpl;
      unfold bind, when, warn, warn_cat, ret; simpl;
      rewrite ?app_nil_r, <- ?app_assoc; simpl;
      destruct (str_in "w" (mode kw) || str_eq (mode kw) "x"); reflexivity. }
  destruct (str_in "w" (mode kw) || str_eq (mode kw) "x"); [done|].
  unfold when. rewrite bind_ret_l.
  destruct (heap σ !! __TYPE_MAP) as [dflt|] eqn:Hd.
  - rewrite (bind_run _ _ _ _ _
               (load_into_copy_run kw (World (heap σ) ws) dflt Hd)).
    cbn [heap warnlog]. fold tm.
    destruct (HDF5IO_load_namespaces dflt (path kw) (file kw) (driver kw))
      as [v' [e|]]; cbn [outcome_of fst snd]; [done|].
    by rewrite super___init___run.
  - unfold get_type_map. simpl.
    assert (heap (World (heap σ) ws) !! __TYPE_MAP = None) as Hd' by done.
    rewrite (bind_run _ _ _ _ _
      (bind_deepcopy_unbound (World (heap σ) ws) __TYPE_MAP _ Hd')).
    done.
Qed.

(** A string that contains the letter w. *)
Lemma str_in_middle (sub s1 s2 : string) :
  str_in sub (s1 +:+ sub +:+ s2) = true.
Proof.
  induction s1 as [|a s1 IH]; simpl.
  - assert (String.prefix sub (sub +:+ s2) = true) as Hp.
    { clear. induction sub as [|b sub IHsub]; simpl.
      - by destruct s2.
      - destruct (Ascii.ascii_dec b b); [apply IHsub|congruence]. }
    change (str_in sub (sub +:+ s2) = true).
    revert Hp. generalize (sub +:+ s2). intros s Hp.
    destruct s; cbn [str_in]; by rewrite Hp.
  - rewrite IH. apply orb_true_r.
Qed.

End LoadNamespacesMore.

(** X9. With [load_namespaces=True] a manager and extensions are ignored:
    the result and the store of type maps are those of the same request
    without them.  The warning log of the request is that of the request
    without them (which is whatever [hdmf] logs while it loads the cached
    namespaces) with, ahead of it, one warning for each of the two arguments
    that was given; those are logged also when the request then fails. *)
Theorem init_load_namespaces_ignores_arguments `{Hdmf}
    (kw : NWBHDF5IO.kwargs) (σ : world) :
  NWBHDF5IO.load_namespaces kw = true →
  let plain := NWBHDF5IO.__init__ (without_manager_and_extensions kw) σ in
  (NWBHDF5IO.__init__ kw σ).2 = plain.2 ∧
  heap (NWBHDF5IO.__init__ kw σ).1 = heap plain.1 ∧
  ∃ hdmf_log,
    warnlog plain.1 = warnlog σ ++ hdmf_log ∧
    warnlog (NWBHDF5IO.__init__ kw σ).1 =
      warnlog σ ++ ignored_warnings kw ++ hdmf_log ∧
    (hdmf_log ≠ [] →
       ∃ dflt, heap σ !! __TYPE_MAP = Some dflt ∧
         hdmf_log =
           HDF5IO_load_namespaces_warnings dflt (NWBHDF5IO.path kw)
             (NWBHDF5IO.file kw) (NWBHDF5IO.driver kw)).
Proof.
  intros Hl plain. subst plain.
  rewrite (init_with_load_run kw σ Hl).
  rewrite (init_with_load_run (without_manager_and_extensions kw) σ Hl).
  unfold without_manager_and_extensions, session_args. simpl.
  rewrite app_nil_r.
  destruct (str_in "w" (NWBHDF5IO.mode kw) || str_eq (NWBHDF5IO.mode kw) "x").
  { split_and!; [done..|]. exists []. by rewrite !app_nil_r. }
  destruct (heap σ !! __TYPE_MAP) as [dflt|].
  - split_and!; [done..|].
    exists (HDF5IO_load_namespaces_warnings dflt (NWBHDF5IO.path kw)
              (NWBHDF5IO.file kw) (NWBHDF5IO.driver kw)).
    simpl. rewrite <- app_assoc. split_and!; [done..|]. eauto.
  - split_and!; [done..|]. exists []. by rewrite !app_nil_r.
Qed.

Lemma init_load_namespaces_ignores_arguments_witness :
  let kw := NWBHDF5IO.Kwargs "bare.nwb" "r" true (Some (MkBuildManager 7))
              (ExtStr "ndx.yaml") None None None in
  warnlog (@NWBHDF5IO.__init__ list_hdmf kw world0).1 =
    [Warning UserWarning "loading namespaces from file - ignoring 'manager'";
     Warning UserWarning
       "loading namespaces from file - ignoring 'extensions' argument";
     Warning UserWarning "No cached namespaces found in bare.nwb"].
Proof.
  intros kw.
  destruct (proj2 (proj2
    (@init_load_namespaces_ignores_arguments list_hdmf kw world0 eq_refl)))
    as (hdmf_log & Hplain & Hrun & _).
  rewrite Hrun.
  change (warnlog (@NWBHDF5IO.__init__ list_hdmf
            (without_manager_and_extensions kw) world0).1)
    with [Warning UserWarning "No cached namespaces found in bare.nwb"]
    in Hplain.
  change (warnlog world0 ++ hdmf_log) with hdmf_log in Hplain.
  by rewrite <- Hplain.
Defined.

(** X10. Opening a session never writes to the default type map, whatever
    the arguments (other than the default object itself passed as
    [extensions]): cached namespaces and extensions go into a copy. *)
Theorem init_keeps_default_type_map `{Hdmf}
    (kw : NWBHDF5IO.kwargs) (σ : world) :
  NWBHDF5IO.extensions kw ≠ ExtTypeMap __TYPE_MAP →
  heap (NWBHDF5IO.__init__ kw σ).1 !! __TYPE_MAP = heap σ !! __TYPE_MAP.
Proof.
  intros Hext.
  destruct (NWBHDF5IO.load_namespaces kw) eqn:Hl.
  - rewrite (init_with_load_run kw σ Hl).
    destruct (str_in "w" (NWBHDF5IO.mode kw) || str_eq (NWBHDF5IO.mode kw) "x");
      [done|].
    destruct (heap σ !! __TYPE_MAP) as [dflt|] eqn:Hd; [|done].
    assert (fresh (dom (heap σ)) ≠ __TYPE_MAP) as Hfresh
      by (apply fresh_ne_bound; eauto).
    simpl. by rewrite !lookup_insert_ne.
  - rewrite (init_without_load kw Hl).
    assert (∀ (m : M BuildManager) (k : BuildManager → M NWBHDF5IO.t),
              (∀ a σ1, heap (k a σ1).1 = heap σ1) →
              heap (m σ).1 !! __TYPE_MAP = heap σ !! __TYPE_MAP →
              heap (bind m k σ).1 !! __TYPE_MAP = heap σ !! __TYPE_MAP)
      as Hbind.
    { intros m k Hk Hm. unfold bind.
      destruct (m σ) as [σ1 [a|e]]; simpl in *; [|done]. by rewrite Hk. }
    apply Hbind.
    { intros a σ1. by rewrite super___init___run. }
    destruct (bool_decide (NWBHDF5IO.manager kw ≠ None) &&
              negb (is_None (NWBHDF5IO.extensions kw))); [done|].
    assert (∀ ext, ext ≠ ExtTypeMap __TYPE_MAP →
              heap (get_manager ext σ).1 !! __TYPE_MAP = heap σ !! __TYPE_MAP)
      as Hgm.
    { intros ext Hne.
      assert (heap (get_type_map ext σ).1 !! __TYPE_MAP = heap σ !! __TYPE_MAP)
        as Hw.
      { apply get_type_map_writes; [done|]. intros Hsome.
        by apply fresh_ne_bound. }
      unfold get_manager, bind, ret.
      by destruct (get_type_map ext σ) as [σ1 [l|e]]. }
    destruct (negb (is_None (NWBHDF5IO.extensions kw))); [by apply Hgm|].
    destruct (NWBHDF5IO.manager kw); [done|]. by apply Hgm.
Qed.

Lemma init_keeps_default_type_map_witness :
  let kw := NWBHDF5IO.Kwargs "f.nwb" "a" false None
              (ExtList [ItemStr "ndx.yaml"]) None None None in
  heap (@NWBHDF5IO.__init__ list_hdmf kw world0).1 !! __TYPE_MAP = Some ["core"].
Proof.
  intros kw.
  refine (@init_keeps_default_type_map list_hdmf kw world0 _).
  discriminate.
Defined.

(** X11. With [load_namespaces=True], any mode that contains the letter w
    (and the mode ['x']) is refused with the [ValueError], before any type
    map is copied or any file is looked at. *)
Theorem init_load_namespaces_refuses_w `{Hdmf}
    (kw : NWBHDF5IO.kwargs) (σ : world) :
  NWBHDF5IO.load_namespaces kw = true →
  (∃ s1 s2, NWBHDF5IO.mode kw = s1 +:+ "w" +:+ s2) ∨ NWBHDF5IO.mode kw = "x" →
  NWBHDF5IO.__init__ kw σ =
    (World (heap σ) (warnlog σ ++ ignored_warnings kw),
     Raise (ValueError "cannot load namespaces from file when writing to it")).
Proof.
  intros Hl Hmode. rewrite (init_with_load_run kw σ Hl).
  assert (str_in "w" (NWBHDF5IO.mode kw) ||
          str_eq (NWBHDF5IO.mode kw) "x" = true) as ->; [|done].
  destruct Hmode as [(s1 & s2 & ->)| ->].
  - by rewrite str_in_middle.
  - reflexivity.
Qed.

Lemma init_load_namespaces_refuses_w_witness :
  let kw := NWBHDF5IO.Kwargs "f.nwb" "rw" true None ExtNone None None None in
  @NWBHDF5IO.__init__ list_hdmf kw world0 =
    (world0,
     Raise (ValueError "cannot load namespaces from file when writing to it")).
Proof.
  intros kw.
  refine (@init_load_namespaces_refuses_w list_hdmf kw world0 _ _).
  - reflexivity.
  - left. exists "r", "". reflexivity.
Defined.

(** * Further properties of [pynwb/ecephys.py] *)




(** X13. A [SpikeEventSeries] goes through the orientation heuristic of
    [ElectricalSeries]: 2-D data (events by samples, as for a single
    electrode) whose second dimension is not the number of electrodes is
    built, with the transposition warning in the log. *)
Theorem spike_event_series_inherits_warning `{Hdmf} `{Base}
    (kw : SpikeEventSeries.kwargs) (σ : world) (n : nat) (d0 d1 : option nat) :
  isinstance_TimeSeries (SpikeEventSeries.data kw) = false →
  isinstance_TimeSeries (SpikeEventSeries.timestamps kw) = false →
  isinstance_DataChunkIterator (SpikeEventSeries.data kw) = false →
  isinstance_DataChunkIterator (SpikeEventSeries.timestamps kw) = false →
  len (SpikeEventSeries.data kw) = Return n →
  len (SpikeEventSeries.timestamps kw) = Return n →
  get_data_shape (SpikeEventSeries.data kw) true = Some [d0; d1] →
  d1 ≠ Some (length (region_data (SpikeEventSeries.electrodes kw))) →
  let msg :=
    if bool_decide
         (d0 = Some (length (region_data (SpikeEventSeries.electrodes kw))))
    then ElectricalSeries.oriented_incorrectly
    else ElectricalSeries.may_be_transposed in
  SpikeEventSeries.__init__ kw σ =
    (World (heap σ) (warnlog σ ++ [Warning UserWarning msg]),
     outcome_of
       (ElectricalSeries.Object (SpikeEventSeries.name kw)
          (SpikeEventSeries.data kw) "volts"
          (Some (SpikeEventSeries.timestamps kw)) (SpikeEventSeries.rest kw)
          (SpikeEventSeries.electrodes kw) None None)
       (TimeSeries_init (SpikeEventSeries.name kw) (SpikeEventSeries.data kw)
          "volts" (Some (SpikeEventSeries.timestamps kw))
          (SpikeEventSeries.rest kw))).
Proof.
  intros Hd Ht Hdi Hti Hn Hm Hshape Hd1 msg.
  unfold SpikeEventSeries.__init__, SpikeEventSeries.body.
  rewrite Hd, Ht, Hdi, Hti, Hn, Hm. simpl.
  rewrite (bool_decide_eq_false_2 (n ≠ n)) by auto.
  rewrite bind_ret_l. unfold ElectricalSeries.__init__. simpl.
  rewrite Hshape, (bool_decide_eq_false_2 _ Hd1). simpl. subst msg.
  destruct (bool_decide
              (d0 = Some (length (region_data (SpikeEventSeries.electrodes kw)))));
    unfold bind at 1; simpl;
    apply (electrical_series_tail_run
             (ElectricalSeries.Kwargs (SpikeEventSeries.name kw)
                (SpikeEventSeries.data kw) (SpikeEventSeries.electrodes kw)
                None None (Some (SpikeEventSeries.timestamps kw))
                (SpikeEventSeries.rest kw))).
Qed.

Lemma spike_event_series_inherits_warning_witness :
  let kw := @SpikeEventSeries.Kwargs shaped_base "spikes" (Arr [5; 30])
              (Arr [5]) (MkRegion [0]) tt in
  ∃ obj,
    @SpikeEventSeries.__init__ list_hdmf shaped_base kw world0 =
      (@World list_hdmf (heap world0)
         [Warning UserWarning ElectricalSeries.may_be_transposed],
       Return obj).
Proof.
  intros kw. eexists.
  refine (@spike_event_series_inherits_warning list_hdmf shaped_base kw world0
            5 (Some 5) (Some 30) _ _ _ _ _ _ _ _);
    first [reflexivity | discriminate].
Defined.

Example electrode_group_numpy_triple :
  @ElectrodeGroup.__init__ list_hdmf shaped_base
    (@ElectrodeGroup.Kwargs shaped_base "shank0" "tetrode" "CA1" "probe"
       (Some (PyArray
                (Raise (ValueError
                   "The truth value of an array with more than one element is ambiguous. Use a.any() or a.all()"))
                (Return 3) "[1. 2. 3.]"))) world0 =
  (world0, Raise (ValueError
     "The truth value of an array with more than one element is ambiguous. Use a.any() or a.all()")).
Proof. reflexivity. Qed.

(** X14. Once the [NWBContainer] constructor has accepted the name, an
    [ElectrodeGroup] is built exactly when [bool(position)] is false
    ([None], an empty list or tuple) or it is true and [len(position)] is 3;
    the position is then stored as given.  When [bool(position)] raises, as
    it does for a numpy array of more than one element, the constructor
    raises that error, also for three elements.  In no case is the store or
    the warning log touched. *)
Theorem electrode_group_accepts_three `{Hdmf} `{Base}
    (kw : ElectrodeGroup.kwargs) (σ : world) :
  NWBContainer_init (ElectrodeGroup.name kw) = None →
  (ElectrodeGroup.__init__ kw σ).1 = σ ∧
  ((∃ obj, (ElectrodeGroup.__init__ kw σ).2 = Return obj) ↔
   truthy (ElectrodeGroup.position kw) = Return false ∨
   truthy (ElectrodeGroup.position kw) = Return true ∧
   ∃ p, ElectrodeGroup.position kw = Some p ∧ seq_len p = Return 3) ∧
  (∀ obj, (ElectrodeGroup.__init__ kw σ).2 = Return obj →
     ElectrodeGroup.o_position obj = ElectrodeGroup.position kw) ∧
  (∀ e, truthy (ElectrodeGroup.position kw) = Raise e →
     (ElectrodeGroup.__init__ kw σ).2 = Raise e).
Proof.
  intros Hsuper. unfold ElectrodeGroup.__init__.
  rewrite (bind_run _ _ _ _ _ (electrode_group_super_run _ _)).
  rewrite Hsuper. cbn [outcome_of].
  destruct (truthy (ElectrodeGroup.position kw)) as [[|]|e0] eqn:Htruthy.
  - destruct (ElectrodeGroup.position kw) as [p|] eqn:Hp; [|done].
    destruct (seq_len p) as [n|e1] eqn:Hlen.
    + destruct (bool_decide (n ≠ 3)) eqn:Hn.
      * apply bool_decide_eq_true in Hn.
        assert (∀ (k : unit → M ElectrodeGroup.t),
          ∃ e, bind match str_mod
                  "ElectrodeGroup position argument must have three elements: x, y, z, but received: "
                  p with
                  | Return msg => raise (Exception msg)
                  | Raise e => raise e
                  end k σ = (σ, Raise e)) as Hraise.
        { intros k. destruct (str_mod _ p) as [msg|e]; eauto. }
        destruct (Hraise (λ _, ret (ElectrodeGroup.Object
          (ElectrodeGroup.name kw) (ElectrodeGroup.description kw)
          (ElectrodeGroup.location kw) (ElectrodeGroup.device kw) (Some p))))
          as [e ->].
        simpl. split_and!; [done| |done|done].
        split; [by intros [obj ?]|].
        intros [?|(_ & p' & [= <-] & Hlen')]; [done|]. congruence.
      * apply bool_decide_eq_false in Hn.
        rewrite bind_ret_l. simpl.
        split_and!; [done| |by intros obj [= <-]|done].
        split; [|eauto]. intros _. right. split; [done|].
        exists p. split; [done|].
        destruct (decide (n = 3)) as [->|]; [done|]. by destruct Hn.
    + simpl. split_and!; [done| |done|done].
      split; [by intros [obj ?]|].
      intros [?|(_ & p' & [= <-] & Hlen')]; [done|]. congruence.
  - rewrite bind_ret_l. simpl.
    split_and!; [done| |by intros obj [= <-]|done].
    split; eauto.
  - simpl. split_and!; [done| |done|by intros e [= <-]].
    split; [by intros [obj ?]|]. intros [?|[? _]]; done.
Qed.

Lemma electrode_group_accepts_three_witness :
  let kw := @ElectrodeGroup.Kwargs shaped_base "shank0" "tetrode" "CA1" "probe"
              (Some (PyTuple [1; 2; 3])) in
  ∃ obj, (@ElectrodeGroup.__init__ list_hdmf shaped_base kw world0).2 =
           Return obj.
Proof.
  intros kw.
  refine (proj2 (proj1 (proj2
    (@electrode_group_accepts_three list_hdmf shaped_base kw world0 _))) _).
  - reflexivity.
  - right. split; [reflexivity|].
    exists (PyTuple [1; 2; 3]). split; reflexivity.
Defined.

Section FeatureExtractionLemmas.
Context `{Hdmf} `{Base} `{!DataUtils}.

Lemma string_app_assoc (a b c : string) : (a +:+ b) +:+ c = a +:+ (b +:+ c).
Proof.
  induction a as [|x a IH]; [done|].
  change (String x ((a +:+ b) +:+ c) = String x (a +:+ (b +:+ c))).
  by f_equal.
Qed.

Lemma string_app_empty_r (a : string) : a +:+ "" = a.
Proof.
  induction a as [|x a IH]; [done|].
  change (String x (a +:+ "") = String x a). by f_equal.
Qed.

(** The loop leaves in its two variables whether a check failed and the
    messages of the failed checks. *)
Lemma loop_body_fold (svs : list ShapeValidatorResult) :
  ∀ (raise_error : bool) (error_msg : string),
    fold_left FeatureExtraction.loop_body svs (raise_error, error_msg) =
      (raise_error || existsb (λ sv, negb (sv_result sv)) svs,
       error_msg +:+ failing_messages svs).
Proof.
  induction svs as [|sv svs IH]; intros b msg; simpl.
  - by rewrite orb_false_r, string_app_empty_r.
  - rewrite IH. destruct (sv_result sv), b; simpl;
      by rewrite ?string_app_assoc.
Qed.

Lemma feature_extraction_run (kw : FeatureExtraction.kwargs) (σ : world) :
  FeatureExtraction.__init__ kw σ =
    (σ,
     if existsb (λ sv, negb (sv_result sv)) (FeatureExtraction.shape_validators kw)
     then Raise (ValueError
                   (failing_messages (FeatureExtraction.shape_validators kw)))
     else
       match NWBDataInterface_init (FeatureExtraction.name kw) with
       | Some e => Raise e
       | None =>
           match py_list (FeatureExtraction.times kw) with
           | Raise e => Raise e
           | Return ts =>
               Return (FeatureExtraction.Object (FeatureExtraction.name kw)
                         (FeatureExtraction.electrodes kw)
                         (FeatureExtraction.description kw) ts
                         (FeatureExtraction.features kw))
           end
       end).
Proof.
  unfold FeatureExtraction.__init__. rewrite loop_body_fold.
  set (failed := existsb (λ sv, negb (sv_result sv))
                   (FeatureExtraction.shape_validators kw)).
  set (msgs := failing_messages (FeatureExtraction.shape_validators kw)).
  change ("" +:+ msgs) with msgs. cbn [orb].
  destruct failed; [done|].
  unfold when. rewrite bind_ret_l. unfold bind, FeatureExtraction.super___init__.
  destruct (NWBDataInterface_init _); [done|]. simpl.
  by destruct (py_list _).
Qed.

End FeatureExtractionLemmas.

Section FeatureExtractionDocval.
Context `{Hdmf} `{Base} `{!DataUtils} `{!Docval}.

Lemma feature_extraction_decorated_run (kw : FeatureExtraction.kwargs)
    (σ : world) :
  Decorated.FeatureExtraction___init__ kw σ =
    docval "FeatureExtraction.__init__" (Decorated.FeatureExtraction_args kw).2
      (FeatureExtraction.__init__ (Decorated.FeatureExtraction_args kw).1) σ.
Proof.
  unfold Decorated.FeatureExtraction___init__.
  by destruct (Decorated.FeatureExtraction_args kw).
Qed.

(** docval leaves the electrodes and the name as they are. *)
Lemma feature_extraction_args_kept (kw : FeatureExtraction.kwargs) :
  FeatureExtraction.electrodes (Decorated.FeatureExtraction_args kw).1 =
    FeatureExtraction.electrodes kw ∧
  FeatureExtraction.name (Decorated.FeatureExtraction_args kw).1 =
    FeatureExtraction.name kw.
Proof.
  unfold Decorated.FeatureExtraction_args.
  destruct (docval_shape "description" _ _), (docval_shape "times" _ _),
    (docval_shape "features" _ _). done.
Qed.

(** For arguments whose shapes can be read, docval hands them over as they
    are and accepts a 1-D description, 1-D times and 3-D features only. *)
Lemma feature_extraction_args_known (kw : FeatureExtraction.kwargs)
    (d t f : list (option nat)) :
  get_data_shape (FeatureExtraction.description kw) false = Some d →
  get_data_shape (FeatureExtraction.times kw) false = Some t →
  get_data_shape (FeatureExtraction.features kw) false = Some f →
  (Decorated.FeatureExtraction_args kw).1 = kw ∧
  ((Decorated.FeatureExtraction_args kw).2 = [] ↔
   length d = 1 ∧ length t = 1 ∧ length f = 3).
Proof.
  intros Hd Ht Hf. unfold Decorated.FeatureExtraction_args.
  rewrite (docval_shape_known _ _ _ _ Hd), (docval_shape_known _ _ _ _ Ht),
    (docval_shape_known _ _ _ _ Hf).
  unfold Decorated.FeatureExtraction_description_shape,
    Decorated.FeatureExtraction_times_shape,
    Decorated.FeatureExtraction_features_shape.
  rewrite !vector_shape_rank.
  pose proof (shape_okay_placeholders 3 f) as H3.
  unfold shape_okay_multi. simpl in *. rewrite H3, orb_false_r.
  split; [by destruct kw|].
  repeat case_bool_decide; simpl; split; try done; try lia;
    intros (? & ? & ?); lia.
Qed.

End FeatureExtractionDocval.

(** X15. The constructor of [FeatureExtraction] as a caller reaches it, when
    it refuses.  docval comes first: for a description, times or features
    whose shape it rejects (known shapes must be 1-D, 1-D and 3-D), the
    constructor raises docval's [ValueError], which holds all its errors.
    When docval accepts and at least one of the three shape checks of the
    body fails, the constructor raises a [ValueError] whose message holds
    the message of every failed check (not only the first), each followed by
    a line break, in the order times, electrodes, description.  In both
    cases nothing has been built or logged by then. *)
Theorem feature_extraction_reports_all_mismatches
    `{Hdmf} `{Base} `{!DataUtils} `{!Docval}
    (kw : FeatureExtraction.kwargs) (σ : world) :
  let args := (Decorated.FeatureExtraction_args kw).1 in
  let value_errors := (Decorated.FeatureExtraction_args kw).2 in
  (value_errors ≠ [] →
     Decorated.FeatureExtraction___init__ kw σ =
       (σ, Raise (ValueError
                    (docval_message "FeatureExtraction.__init__" value_errors)))) ∧
  (value_errors = [] →
     ∀ sv, sv ∈ FeatureExtraction.shape_validators args →
           sv_result sv = false →
       Decorated.FeatureExtraction___init__ kw σ =
         (σ, Raise (ValueError
                      (failing_messages
                         (FeatureExtraction.shape_validators args))))) ∧
  (∀ d t f,
     get_data_shape (FeatureExtraction.description kw) false = Some d →
     get_data_shape (FeatureExtraction.times kw) false = Some t →
     get_data_shape (FeatureExtraction.features kw) false = Some f →
     args = kw ∧
     (value_errors = [] ↔ length d = 1 ∧ length t = 1 ∧ length f = 3)).
Proof.
  intros args value_errors. subst args value_errors. split_and!.
  - intros Herrs. rewrite feature_extraction_decorated_run.
    by apply docval_rejects.
  - intros Herrs sv Hin Hfail.
    rewrite feature_extraction_decorated_run, Herrs. cbn [docval].
    rewrite feature_extraction_run.
    assert (existsb (λ sv, negb (sv_result sv))
              (FeatureExtraction.shape_validators
                 (Decorated.FeatureExtraction_args kw).1) = true) as ->;
      [|done].
    apply existsb_exists. exists sv. split; [by apply list_elem_of_In|].
    by rewrite Hfail.
  - apply feature_extraction_args_known.
Qed.

Lemma feature_extraction_reports_all_mismatches_witness :
  let kw := @FeatureExtraction.Kwargs stored_base (MkRegion [0; 1]) (Rows [7])
              (Rows [5]) (Rows [4; 2; 3]) "FeatureExtraction" in
  @Decorated.FeatureExtraction___init__ list_hdmf stored_base
    stored_data_utils stored_docval kw world0 =
    (world0,
     Raise (ValueError
       ("feature_shape and times do not match" +:+ newline +:+
        "feature_shape and description do not match" +:+ newline))).
Proof.
  intros kw.
  refine (proj1 (proj2
    (@feature_extraction_reports_all_mismatches list_hdmf stored_base
       stored_data_utils stored_docval kw world0)) _
    (MkShapeValidatorResult false "feature_shape and times do not match") _ _).
  - reflexivity.
  - set_unfold. left. reflexivity.
  - reflexivity.
Defined.

(** docval refuses features that are not 3-D before any check of the body. *)
Example feature_extraction_flat_features :
  @Decorated.FeatureExtraction___init__ list_hdmf stored_base
    stored_data_utils stored_docval
    (@FeatureExtraction.Kwargs stored_base (MkRegion [0; 1]) (Rows [3])
       (Rows [5; 1]) (Rows [5; 2]) "FeatureExtraction") world0 =
  (world0,
   Raise (ValueError
     "FeatureExtraction.__init__: incorrect shape for 'times' (got '(5, 1)', expected '(None,)'), incorrect shape for 'features' (got '(5, 2)', expected '(None, None, None)')")).
Proof. vm_compute. reflexivity. Qed.

(** X16. When docval accepts the arguments and the three shape checks
    pass, [FeatureExtraction] is built unless the [NWBDataInterface]
    constructor or [list(times)] raises; the object holds the times as a
    list and the other arguments as docval handed them over (for arguments
    whose shapes can be read, as given). *)
Theorem feature_extraction_built_when_shapes_agree
    `{Hdmf} `{Base} `{!DataUtils} `{!Docval}
    (kw : FeatureExtraction.kwargs) (σ : world) (ts : list Coord) :
  let args := (Decorated.FeatureExtraction_args kw).1 in
  (Decorated.FeatureExtraction_args kw).2 = [] →
  Forall (λ sv, sv_result sv = true) (FeatureExtraction.shape_validators args) →
  NWBDataInterface_init (FeatureExtraction.name kw) = None →
  py_list (FeatureExtraction.times args) = Return ts →
  Decorated.FeatureExtraction___init__ kw σ =
    (σ, Return (FeatureExtraction.Object (FeatureExtraction.name kw)
                  (FeatureExtraction.electrodes kw)
                  (FeatureExtraction.description args) ts
                  (FeatureExtraction.features args))) ∧
  (∀ d t f,
     get_data_shape (FeatureExtraction.description kw) false = Some d →
     get_data_shape (FeatureExtraction.times kw) false = Some t →
     get_data_shape (FeatureExtraction.features kw) false = Some f →
     args = kw ∧ length d = 1 ∧ length t = 1 ∧ length f = 3).
Proof.
  intros args Herrs Hall Hsuper Hts. subst args. split.
  - rewrite feature_extraction_decorated_run, Herrs. cbn [docval].
    rewrite feature_extraction_run.
    assert (existsb (λ sv, negb (sv_result sv))
              (FeatureExtraction.shape_validators
                 (Decorated.FeatureExtraction_args kw).1) = false) as ->.
    { induction Hall as [|sv svs Hsv _ IH]; simpl; [done|].
      by rewrite Hsv, IH. }
    destruct (feature_extraction_args_kept kw) as [-> ->].
    by rewrite Hsuper, Hts.
  - intros d t f Hd Ht Hf.
    destruct (feature_extraction_args_known kw d t f Hd Ht Hf) as [Hargs Hiff].
    split; [done|]. by apply Hiff.
Qed.

Lemma feature_extraction_built_when_shapes_agree_witness :
  let kw := @FeatureExtraction.Kwargs stored_base (MkRegion [0; 1]) (Rows [3])
              (Rows [5]) (Rows [5; 2; 3]) "FeatureExtraction" in
  ∃ obj,
    @Decorated.FeatureExtraction___init__ list_hdmf stored_base
      stored_data_utils stored_docval kw world0 = (world0, Return obj) ∧
    FeatureExtraction.o_times obj = [0; 0; 0; 0; 0].
Proof.
  intros kw. eexists. split.
  - refine (proj1 (@feature_extraction_built_when_shapes_agree list_hdmf
              stored_base stored_data_utils stored_docval kw world0
              [0; 0; 0; 0; 0] _ _ _ _)).
    + reflexivity.
    + repeat constructor.
    + reflexivity.
    + reflexivity.
  - reflexivity.
Defined.

(** X17. [register_class], [register_map] and [get_class] work on the
    default type map only: every other object of the store, such as a type
    map handed out earlier by [get_type_map], keeps its contents, and no
    object is created. *)
Theorem registry_writes_default_only `{Hdmf} `{!Registry}
    (nt ns : string) (cls mapper : PyClass) (σ : world) (l : loc) :
  l ≠ __TYPE_MAP →
  heap (register_class nt ns (Some cls) σ).1 !! l = heap σ !! l ∧
  heap (register_map cls (Some mapper) σ).1 !! l = heap σ !! l ∧
  heap (get_class nt ns σ).1 !! l = heap σ !! l ∧
  register_class nt ns None σ = (σ, (register_class nt ns None σ).2) ∧
  register_map cls None σ = (σ, (register_map cls None σ).2).
Proof.
  intros Hl. split_and!; try done.
  - unfold register_class. rewrite !bind_ret_state.
    by apply call_method_frame.
  - unfold register_map. rewrite !bind_ret_state.
    by apply call_method_frame.
  - unfold get_class. destruct (heap σ !! __TYPE_MAP) as [v|]; [|done].
    destruct (TypeMap_get_dt_container_cls v nt ns) as [v' r]. simpl.
    by rewrite lookup_insert_ne.
Qed.

Lemma registry_writes_default_only_witness :
  let σ := @World list_hdmf {[ __TYPE_MAP := ["core"]; 5%positive := ["copy"] ]} [] in
  heap (@register_map list_hdmf list_registry "LabSeries" (Some "LabSeriesMap")
          σ).1 !! 5%positive = Some ["copy"].
Proof.
  intros σ.
  refine (proj1 (proj2 (@registry_writes_default_only list_hdmf list_registry
                          "LabSeries" "ndx-lab" "LabSeries" "LabSeriesMap" σ
                          5%positive _))).
  discriminate.
Defined.
